(** * Time-based rotating file sinks of spdlog: daily_file_sink and minute_file_sink

    A shallow embedding of [spdlog/sinks/daily_file_sink.h] and
    [spdlog/sinks/minute_file_sink.h]: the file name calculators, the
    computation of the next rotation point, the queue of retained file names,
    the start-up scan and the write path, run against an explicit model of the
    operating system (files, clock, directory listing, failing calls). The
    write path of [spdlog/sinks/android_sink.h] and the calls of
    [spdlog/mdc.h] follow. *)

From Stdlib Require Import ZArith List Ascii Bool Lia DecimalString Sorted.
From Stdlib Require String.
From stdpp Require Import gmap strings.

Local Open Scope Z_scope.

(** ** std::string operations used by the sinks *)

Module Str.

Fixpoint mem (c : ascii) (s : string) : bool :=
  match s with
  | EmptyString => false
  | String a s' => Ascii.eqb a c || mem c s'
  end.

(** [s.find_last_of(chars)]: position of the last character of [s] that is
    one of [chars]; [None] stands for [npos]. *)
Fixpoint find_last_of (chars s : string) : option nat :=
  match s with
  | EmptyString => None
  | String a s' =>
      match find_last_of chars s' with
      | Some i => Some (S i)
      | None => if mem a chars then Some O else None
      end
  end.

(** [s.rfind(c)] *)
Definition rfind (c : ascii) (s : string) : option nat :=
  find_last_of (String c EmptyString) s.

(** [s.substr(0, n)] *)
Fixpoint take (n : nat) (s : string) : string :=
  match n, s with
  | S n', String a s' => String a (take n' s')
  | _, _ => EmptyString
  end.

(** [s.substr(n)] *)
Fixpoint drop (n : nat) (s : string) : string :=
  match n, s with
  | S n', String _ s' => drop n' s'
  | _, _ => s
  end.

(** [s.size() >= p.size() && std::equal(p.begin(), p.end(), s.begin())] *)
Fixpoint starts_with (p s : string) : bool :=
  match p, s with
  | EmptyString, _ => true
  | String a p', String b s' => Ascii.eqb a b && starts_with p' s'
  | String _ _, EmptyString => false
  end.

Definition empty (s : string) : bool :=
  match s with EmptyString => true | _ => false end.

(** [std::string::operator<], used as the key order of [std::map]:
    lexicographic on unsigned character codes. *)
Definition ltb (a b : string) : bool :=
  match String.compare a b with Lt => true | _ => false end.

Fixpoint repeat (c : ascii) (n : nat) : string :=
  match n with
  | O => EmptyString
  | S n' => String c (repeat c n')
  end.

Fixpoint Forall (P : ascii -> Prop) (s : string) : Prop :=
  match s with
  | EmptyString => True
  | String a s' => P a /\ Forall P s'
  end.

End Str.

(** ** fmt's zero-padded decimal fields *)

(** [fmt::format("{:0wd}", n)] for an [int]: the decimal digits, a leading
    minus sign for a negative number, and zeros after the sign up to width
    [w]; a number wider than [w] is printed in full. *)
Definition fmt_0d (w : nat) (n : Z) : string :=
  let digits := NilZero.string_of_uint (N.to_uint (Z.to_N (Z.abs n))) in
  if n <? 0
  then "-" +:+ Str.repeat "0" (w - 1 - String.length digits) +:+ digits
  else Str.repeat "0" (w - String.length digits) +:+ digits.

(** ** struct tm *)

Record tm := mk_tm {
  tm_sec : Z;
  tm_min : Z;
  tm_hour : Z;
  tm_mday : Z;
  tm_mon : Z;    (* months since January *)
  tm_year : Z    (* years since 1900 *)
}.

(** ** log_clock and the calendar *)

(** [log_clock] is [std::chrono::system_clock]; a time point is a count of
    nanosecond ticks since the epoch, held in 64 bits. The count is kept in
    [Z], in which sums do not wrap: a sum of time points computed here is
    the number that the program computes when it is at most
    [time_point_max], as it is for dates within centuries of 1970. What is
    stated of the distance of a rotation point from the current time carries
    this bound as a hypothesis. *)
Definition ticks_per_second : Z := 1000000000.

(** The largest count of ticks that a time point holds. *)
Definition time_point_max : Z := 2 ^ 63 - 1.

(** [log_clock::to_time_t]: a [duration_cast] to seconds, which truncates
    toward zero. *)
Definition to_time_t (tp : Z) : Z := Z.quot tp ticks_per_second.

Definition from_time_t (t : Z) : Z := t * ticks_per_second.

(** [std::chrono::hours(n)] and [std::chrono::minutes(n)], in ticks. The
    products are taken in [Z]; they are the program's 64-bit numbers as long
    as they, and the time points they are added to, stay at most
    [time_point_max]. *)
Definition hours (n : Z) : Z := n * 3600 * ticks_per_second.
Definition minutes (n : Z) : Z := n * 60 * ticks_per_second.

(** The C library's calendar ([localtime], [mktime]) is outside the sinks; it
    is taken as the proleptic Gregorian calendar in a zone with a constant
    offset from UTC. In a zone with daylight saving changes the program
    reads other hours than these on the days of a change; what is stated
    below of the hour of a rotation point or of its distance from the
    current time is stated of a zone with a constant offset. *)
Definition civil_from_days (z0 : Z) : Z * Z * Z :=
  let z := z0 + 719468 in
  let era := z / 146097 in
  let doe := z mod 146097 in
  let yoe := (doe - doe / 1460 + doe / 36524 - doe / 146096) / 365 in
  let doy := doe - (365 * yoe + yoe / 4 - yoe / 100) in
  let mp := (5 * doy + 2) / 153 in
  let d := doy - (153 * mp + 2) / 5 + 1 in
  let m := if mp <? 10 then mp + 3 else mp - 9 in
  let y := yoe + era * 400 in
  (if m <=? 2 then y + 1 else y, m, d).

Definition days_from_civil (y0 m d : Z) : Z :=
  let y := if m <=? 2 then y0 - 1 else y0 in
  let era := y / 400 in
  let yoe := y mod 400 in
  let doy := (153 * (if 2 <? m then m - 3 else m + 9) + 2) / 5 + d - 1 in
  let doe := yoe * 365 + yoe / 4 - yoe / 100 + doy in
  era * 146097 + doe - 719468.

(** [spdlog::details::os::localtime(time_t)] *)
Definition localtime (utc_offset : Z) (t : Z) : tm :=
  let lt := t + utc_offset in
  let sod := lt mod 86400 in
  let '(y, m, d) := civil_from_days (lt / 86400) in
  mk_tm (sod mod 60) (sod / 60 mod 60) (sod / 3600) d (m - 1) (y - 1900).

(** [std::mktime]: the fields need not be normalised; the sinks only
    overwrite hour, minute and second, in which the result is linear. *)
Definition mktime (utc_offset : Z) (date : tm) : Z :=
  days_from_civil (tm_year date + 1900) (tm_mon date + 1) (tm_mday date) * 86400
    + tm_hour date * 3600 + tm_min date * 60 + tm_sec date - utc_offset.

(** [now_tm], a private member of both sinks *)
Definition now_tm (utc_offset : Z) (tp : Z) : tm :=
  let tnow := to_time_t tp in
  localtime utc_offset tnow.

(** ** The operating system *)

Inductive os_event :=
| ev_fopen (path : string) (truncate : bool) (err : option Z)
| ev_fclose (path : string)
| ev_fwrite (path : string) (data : string) (err : option Z)
| ev_fflush (path : string)
| ev_remove (path : string) (err : option Z).

(** The part of the machine the sinks act on. [files] maps a path to the
    bytes of the file; [directory] is what a directory listing returns (it
    is independent of [files], as other processes may add or delete files
    between the listing and a later look at one of its entries); the three
    [_errno] fields say which calls fail on which paths, and with which
    error number; [trace] records the calls made, oldest first. *)
Record World := mk_World {
  files : gmap string string;
  clock : Z;
  utc_offset : Z;
  directory : string -> list string;
  open_errno : string -> option Z;
  write_errno : string -> option Z;
  remove_errno : string -> option Z;
  errno : Z;
  trace : list os_event
}.

Definition set_files (fs : gmap string string) (w : World) : World :=
  mk_World fs (clock w) (utc_offset w) (directory w) (open_errno w)
    (write_errno w) (remove_errno w) (errno w) (trace w).

Definition set_errno (e : Z) (w : World) : World :=
  mk_World (files w) (clock w) (utc_offset w) (directory w) (open_errno w)
    (write_errno w) (remove_errno w) e (trace w).

Definition set_clock (c : Z) (w : World) : World :=
  mk_World (files w) c (utc_offset w) (directory w) (open_errno w)
    (write_errno w) (remove_errno w) (errno w) (trace w).

Definition record_event (ev : os_event) (w : World) : World :=
  mk_World (files w) (clock w) (utc_offset w) (directory w) (open_errno w)
    (write_errno w) (remove_errno w) (errno w) (trace w ++ [ev]).

Definition ENOENT : Z := 2.

(** ** Outcomes of a call *)

Inductive error :=
| spdlog_ex (msg : string) (last_errno : option Z)
| EmptyQueueError.

(** A call returns a value, leaves by an exception, or never returns because
    it waits for a lock that is not released. *)
Inductive outcome (A : Type) :=
| returns (a : A)
| throws (e : error)
| blocks.

Arguments returns {A} a.
Arguments throws {A} e.
Arguments blocks {A}.

Definition M (S A : Type) : Type := S -> outcome A * S.

Definition ret {S A} (a : A) : M S A := fun s => (returns a, s).

Definition bind {S A B} (m : M S A) (k : A -> M S B) : M S B :=
  fun s =>
    match m s with
    | (returns a, s') => k a s'
    | (throws e, s') => (throws e, s')
    | (blocks, s') => (blocks, s')
    end.

Definition throw {S A} (e : error) : M S A := fun s => (throws e, s).

Definition gets {S A} (f : S -> A) : M S A := fun s => (returns (f s), s).

Definition modify {S} (f : S -> S) : M S unit := fun s => (returns tt, f s).

Arguments ret {S A} a _ /.
Arguments bind {S A B} m k _ /.
Arguments throw {S A} e _ /.
Arguments gets {S A} f _ /.
Arguments modify {S} f _ /.

Notation "x <- c1 ;; c2" := (bind c1 (fun x => c2))
  (at level 100, c1 at next level, right associativity).
Notation "c1 ;; c2" := (bind c1 (fun _ => c2))
  (at level 100, right associativity).

(** Run a computation on the operating system next to an object. *)
Definition os {S A} (m : M World A) : M (World * S) A :=
  fun st => let (r, w') := m (fst st) in (r, (w', snd st)).

(** Run a method of a member object. *)
Definition zoom {S T A} (get : S -> T) (set : T -> S -> S)
    (m : M (World * T) A) : M (World * S) A :=
  fun st =>
    let (r, st') := m (fst st, get (snd st)) in
    (r, (fst st', set (snd st') (snd st))).

Definition self {S A} (f : S -> A) : M (World * S) A := gets (fun st => f (snd st)).

Definition world {S A} (f : World -> A) : M (World * S) A := gets (fun st => f (fst st)).

Definition update {S} (f : S -> S) : M (World * S) unit :=
  modify (fun st => (fst st, f (snd st))).

Arguments os {S A} m _ /.
Arguments zoom {S T A} get set m _ /.
Arguments self {S A} f _ /.
Arguments world {S A} f _ /.
Arguments update {S} f _ /.

(** ** details::os *)

Module details_os.

Definition folder_seps : string := "/".

(** [path_exists] *)
Definition path_exists (filename : string) : M World bool :=
  gets (fun w => bool_decide (is_Some (files w !! filename))).

(** [std::remove]: 0 on success; on failure a non-zero value, with [errno]
    set and the file left in place. *)
Definition remove (filename : string) : M World Z :=
  fun w =>
    match files w !! filename with
    | None =>
        (returns (-1), record_event (ev_remove filename (Some ENOENT)) (set_errno ENOENT w))
    | Some _ =>
        match remove_errno w filename with
        | Some e => (returns (-1), record_event (ev_remove filename (Some e)) (set_errno e w))
        | None =>
            (returns 0, record_event (ev_remove filename None)
                          (set_files (delete filename (files w)) w))
        end
    end.

(** [remove_if_exists]: [path_exists(filename) ? remove(filename) : 0] *)
Definition remove_if_exists (filename : string) : M World Z :=
  exists_ <- path_exists filename ;;
  if exists_ : bool then remove filename else ret 0.

(** [dir_name]: the path up to its last separator, or the empty string *)
Definition dir_name (path : string) : string :=
  match Str.find_last_of folder_seps path with
  | Some pos => Str.take pos path
  | None => ""
  end.

(** [get_directory_files] *)
Definition get_directory_files (dir : string) : M World (list string) :=
  gets (fun w => directory w dir).

(** [now] reads the clock of the machine as it is at the call. Time that
    passes between two calls is a change of the machine between them: what
    is stated of a function that reads the clock is stated for the machine
    on which that function runs. *)
Definition now : M World Z := gets clock.

End details_os.

(** ** details::file_helper *)

(** Modelled from the spec: [details::file_helper::split_by_extension] is
    declared in [spdlog/details/file_helper.h], which is not among the
    sources. The data model describes the pair it returns: a stem and an
    extension, where the "extension is the substring after the last path
    separator's last dot, or empty"; the on-disk layout
    [<stem><delim><suffix><ext>] and the calculator test ([daily.txt] gives
    [daily_YYYY-MM-DD.txt]) show that the extension carries its dot. *)
Definition split_by_extension (fname : string) : string * string :=
  match Str.rfind "." fname with
  | None => (fname, "")
  | Some ext_index =>
      match Str.find_last_of details_os.folder_seps fname with
      | Some folder_index =>
          if (folder_index <? ext_index)%nat
          then (Str.take ext_index fname, Str.drop ext_index fname)
          else (fname, "")
      | None => (Str.take ext_index fname, Str.drop ext_index fname)
      end
  end.

Definition EBADF : Z := 9.

Module file_helper.

(** Modelled from the spec: the class [details::file_helper] is not among the
    sources. It is the single "currently-writable file": [open] closes the
    handle it holds and opens the named file ("truncate-on-create flag
    controls whether a pre-existing file at that name is cleared or appended
    to"), [write] appends bytes, and a failing open or write "propagate[s] to
    the caller", never partially written. *)
Record t := mk {
  filename_ : string;
  fd_ : bool       (* whether a stream is open *)
}.

Definition filename : M (World * t) string := self filename_.

Definition close : M (World * t) unit :=
  h <- self id ;;
  if fd_ h then
    os (modify (record_event (ev_fclose (filename_ h)))) ;;
    update (fun h => mk (filename_ h) false)
  else ret tt.

(** The files after [fopen] in mode "wb" (truncate) or "ab": the file is
    created or emptied, or created if missing. *)
Definition fopen_files (fname : string) (truncate : bool)
    (fs : gmap string string) : gmap string string :=
  if truncate then <[fname := ""]> fs
  else match fs !! fname with
       | Some _ => fs
       | None => <[fname := ""]> fs
       end.

Definition open (fname : string) (truncate : bool) : M (World * t) unit :=
  close ;;
  update (fun h => mk fname (fd_ h)) ;;
  err <- world (fun w => open_errno w fname) ;;
  match err with
  | Some e =>
      os (modify (fun w => record_event (ev_fopen fname truncate (Some e)) (set_errno e w))) ;;
      throw (spdlog_ex ("Failed opening file " +:+ fname +:+ " for writing") (Some e))
  | None =>
      os (modify (fun w =>
            record_event (ev_fopen fname truncate None)
              (set_files (fopen_files fname truncate (files w)) w))) ;;
      update (fun h => mk fname true)
  end.

Definition write (buf : string) : M (World * t) unit :=
  h <- self id ;;
  err <- world (fun w => if fd_ h then write_errno w (filename_ h) else Some EBADF) ;;
  match err with
  | Some e =>
      os (modify (fun w => record_event (ev_fwrite (filename_ h) buf (Some e)) (set_errno e w))) ;;
      throw (spdlog_ex ("Failed writing to file " +:+ filename_ h) (Some e))
  | None =>
      os (modify (fun w =>
            record_event (ev_fwrite (filename_ h) buf None)
              (set_files (alter (fun content => content +:+ buf) (filename_ h) (files w)) w)))
  end.

Definition flush : M (World * t) unit :=
  h <- self id ;;
  if fd_ h then os (modify (record_event (ev_fflush (filename_ h)))) else ret tt.

Definition size : M (World * t) nat :=
  h <- self id ;;
  world (fun w => match files w !! filename_ h with
                  | Some content => String.length content
                  | None => O
                  end).

End file_helper.

(** ** details::circular_q *)

Module circular_q.

(** Modelled from the spec: [details::circular_q] is not among the sources.
    It is "a bounded FIFO of file names ... oldest first" of "fixed capacity":
    [push_back] adds the newest name, [pop_front] removes the oldest, [full]
    tells whether the capacity is reached; capacity 0 is the queue that is
    "not instantiated". A push on a full queue is left to the caller's
    protocol ("caller must popFront first"); the ring buffer then overwrites
    its oldest entry, so that the capacity is not exceeded. *)
Record t := mk {
  max_items : nat;
  items : list string       (* oldest first *)
}.

Definition default : t := mk 0 [].

Definition create (max_items : nat) : t := mk max_items [].

Definition full (q : t) : bool :=
  (0 <? max_items q)%nat && (length (items q) =? max_items q)%nat.

Definition front (q : t) : option string := head (items q).

Definition pop_front (q : t) : t := mk (max_items q) (tail (items q)).

Definition push_back (item : string) (q : t) : t :=
  if (max_items q =? 0)%nat then q
  else if full q then mk (max_items q) (tail (items q) ++ [item])
  else mk (max_items q) (items q ++ [item]).

End circular_q.

(** ** std::map<filename_t, filename_t> *)

Module std_map.

(** A map is the list of its entries in increasing key order. [assign] is
    [m[k] = v]: a new entry at its place in the order, or a new value for the
    entry whose key is equivalent to [k]. *)
Fixpoint assign (k v : string) (m : list (string * string)) : list (string * string) :=
  match m with
  | [] => [(k, v)]
  | (k', v') :: m' =>
      if Str.ltb k k' then (k, v) :: m
      else if Str.ltb k' k then (k', v') :: assign k v m'
      else (k, v) :: m'
  end.

End std_map.

(** ** FileNameCalc: the file name policies *)

(** The sinks take their file name policy as a template parameter; both
    policies offer the static function [calc_filename]. *)
Class FileNameCalc := { calc_filename : string -> tm -> string }.

Module daily_filename_calculator.

Definition filename_prefix_symbol : string := "_".

(** The [{:04d}-{:02d}-{:02d}] field of the name. *)
Definition date_suffix (now_tm : tm) : string :=
  fmt_0d 4 (tm_year now_tm + 1900) +:+ "-" +:+ fmt_0d 2 (tm_mon now_tm + 1)
    +:+ "-" +:+ fmt_0d 2 (tm_mday now_tm).

(** format string [{}{}{:04d}-{:02d}-{:02d}{}] *)
Definition calc_filename (filename : string) (now_tm : tm) : string :=
  let '(basename, ext) := split_by_extension filename in
  basename +:+ filename_prefix_symbol +:+ date_suffix now_tm +:+ ext.

Definition extract_date_suffix (base_filename filename : string) : string :=
  let base_filename_no_ext := fst (split_by_extension base_filename) in
  let prefix := base_filename_no_ext +:+ filename_prefix_symbol in
  let starts_with_base_filename := Str.starts_with prefix filename in
  if starts_with_base_filename then
    let filename_no_ext := fst (split_by_extension filename) in
    match Str.find_last_of filename_prefix_symbol filename_no_ext with
    | Some last_prefix_symbol => Str.drop (S last_prefix_symbol) filename_no_ext
    | None => ""
    end
  else "".

(** The body of the loop over the directory entries. *)
Definition add_dir_file (base_filename : string)
    (dates_to_filenames : list (string * string)) (dir_file : string)
    : list (string * string) :=
  let date_suffix := extract_date_suffix base_filename dir_file in
  if negb (Str.empty date_suffix)
  then std_map.assign date_suffix dir_file dates_to_filenames
  else dates_to_filenames.

Definition calc_dates_to_filenames (base_filename : string)
    : M World (list (string * string)) :=
  let dir := details_os.dir_name base_filename in
  dir_files <- details_os.get_directory_files dir ;;
  ret (fold_left (add_dir_file base_filename) dir_files []).

#[export] Instance calc : FileNameCalc := Build_FileNameCalc calc_filename.

End daily_filename_calculator.

Module minute_filename_calculator.

(** format string [{}_{:04d}-{:02d}-{:02d}-{:02d}_{:02d}{}] *)
Definition calc_filename (filename : string) (now_tm : tm) : string :=
  let '(basename, ext) := split_by_extension filename in
  basename +:+ "_" +:+ fmt_0d 4 (tm_year now_tm + 1900) +:+ "-"
    +:+ fmt_0d 2 (tm_mon now_tm + 1) +:+ "-" +:+ fmt_0d 2 (tm_mday now_tm)
    +:+ "-" +:+ fmt_0d 2 (tm_hour now_tm) +:+ "_" +:+ fmt_0d 2 (tm_min now_tm)
    +:+ ext.

#[export] Instance calc : FileNameCalc := Build_FileNameCalc calc_filename.

End minute_filename_calculator.

(** ** base_sink<Mutex> *)

Record log_msg := mk_log_msg {
  msg_time : Z;          (* log_clock::time_point *)
  msg_payload : string
}.

(** The [Mutex] template parameter: [std::mutex] for the [_mt] sinks,
    [details::null_mutex], whose lock and unlock do nothing, for the [_st]
    sinks. *)
Inductive Mutex := std_mutex | null_mutex.

(** [std::lock_guard<Mutex> lock(mutex_)] for the extent of [body]. A
    [std::mutex] is not recursive: locking it while it is held never
    returns. The guard unlocks when [body] returns or throws. *)
Definition lock_guard {S A} (Mtx : Mutex) (locked : S -> bool)
    (set_locked : bool -> S -> S) (body : M (World * S) A) : M (World * S) A :=
  match Mtx with
  | null_mutex => body
  | std_mutex =>
      fun st =>
        if locked (snd st) then (blocks, st)
        else
          let (r, st') := body (fst st, set_locked true (snd st)) in
          match r with
          | blocks => (blocks, st')
          | _ => (r, (fst st', set_locked false (snd st')))
          end
  end.

Fixpoint for_each {S A} (l : list A) (body : A -> M S unit) : M S unit :=
  match l with
  | [] => ret tt
  | x :: l' => body x ;; for_each l' body
  end.

(** A constructor runs on the members as initialised; when it throws there
    is no object. *)
Definition construct {S} (members : S) (body : M (World * S) unit) : M World S :=
  fun w =>
    let (r, st) := body (w, members) in
    match r with
    | returns _ => (returns (snd st), fst st)
    | throws e => (throws e, fst st)
    | blocks => (blocks, fst st)
    end.

(** ** daily_file_sink *)

Module daily_file_sink.

Record t := mk {
  base_filename_ : string;
  rotation_h_ : Z;
  rotation_m_ : Z;
  rotation_tp_ : Z;
  file_helper_ : file_helper.t;
  truncate_ : bool;
  max_files_ : nat;                 (* uint16_t *)
  filenames_q_ : circular_q.t;
  mutex_ : bool                     (* base_sink<Mutex>::mutex_: is it held? *)
}.

Definition set_rotation_tp_ (tp : Z) (s : t) : t :=
  mk (base_filename_ s) (rotation_h_ s) (rotation_m_ s) tp (file_helper_ s)
    (truncate_ s) (max_files_ s) (filenames_q_ s) (mutex_ s).

Definition set_file_helper_ (h : file_helper.t) (s : t) : t :=
  mk (base_filename_ s) (rotation_h_ s) (rotation_m_ s) (rotation_tp_ s) h
    (truncate_ s) (max_files_ s) (filenames_q_ s) (mutex_ s).

Definition set_filenames_q_ (q : circular_q.t) (s : t) : t :=
  mk (base_filename_ s) (rotation_h_ s) (rotation_m_ s) (rotation_tp_ s)
    (file_helper_ s) (truncate_ s) (max_files_ s) q (mutex_ s).

Definition set_mutex_ (held : bool) (s : t) : t :=
  mk (base_filename_ s) (rotation_h_ s) (rotation_m_ s) (rotation_tp_ s)
    (file_helper_ s) (truncate_ s) (max_files_ s) (filenames_q_ s) held.

Arguments set_rotation_tp_ _ s /.
Arguments set_file_helper_ _ s /.
Arguments set_filenames_q_ _ s /.
Arguments set_mutex_ _ s /.

Definition invalid_rotation_time : error :=
  spdlog_ex "daily_file_sink: Invalid rotation time in ctor" None.

Definition failed_removing (old_filename : string) (last_errno : Z) : error :=
  spdlog_ex ("Failed removing daily file " +:+ old_filename) (Some last_errno).

Section methods.

Variable Mtx : Mutex.
Context {FileNameCalc_ : FileNameCalc}.
(** [base_sink<Mutex>::formatter_] *)
Variable format : log_msg -> string.

Definition on_file_helper {A} (m : M (World * file_helper.t) A) : M (World * t) A :=
  zoom file_helper_ set_file_helper_ m.

Definition filename : M (World * t) string :=
  lock_guard Mtx mutex_ set_mutex_ (on_file_helper file_helper.filename).

Definition next_rotation_tp_ : M (World * t) Z :=
  now <- os details_os.now ;;
  zone <- world utc_offset ;;
  h <- self rotation_h_ ;;
  m <- self rotation_m_ ;;
  let date := now_tm zone now in
  let date := mk_tm 0 m h (tm_mday date) (tm_mon date) (tm_year date) in
  let rotation_time := from_time_t (mktime zone date) in
  if now <? rotation_time then ret rotation_time
  else ret (rotation_time + hours 24).

Definition delete_old_ : M (World * t) unit :=
  current_file <- filename ;;
  q <- self filenames_q_ ;;
  (if circular_q.full q then
     match circular_q.front q with
     | None => throw EmptyQueueError
     | Some old_filename =>
         update (fun s => set_filenames_q_ (circular_q.pop_front (filenames_q_ s)) s) ;;
         rc <- os (details_os.remove_if_exists old_filename) ;;
         let ok := rc =? 0 in
         if negb ok then
           update (fun s => set_filenames_q_ (circular_q.push_back current_file (filenames_q_ s)) s) ;;
           e <- world errno ;;
           throw (failed_removing old_filename e)
         else ret tt
     end
   else ret tt) ;;
  update (fun s => set_filenames_q_ (circular_q.push_back current_file (filenames_q_ s)) s).

Definition sink_it_ (msg : log_msg) : M (World * t) unit :=
  let time := msg_time msg in
  rotation_tp <- self rotation_tp_ ;;
  let should_rotate := rotation_tp <=? time in
  (if should_rotate then
     base <- self base_filename_ ;;
     zone <- world utc_offset ;;
     truncate <- self truncate_ ;;
     let filename := calc_filename base (now_tm zone time) in
     on_file_helper (file_helper.open filename truncate) ;;
     tp <- next_rotation_tp_ ;;
     update (set_rotation_tp_ tp)
   else ret tt) ;;
  let formatted := format msg in
  on_file_helper (file_helper.write formatted) ;;
  max_files <- self max_files_ ;;
  if should_rotate && (0 <? max_files)%nat then delete_old_ else ret tt.

Definition flush_ : M (World * t) unit := on_file_helper file_helper.flush.

Definition init_filenames_q_ (delete_old_file_on_init : bool) : M (World * t) unit :=
  max_files <- self max_files_ ;;
  update (set_filenames_q_ (circular_q.create max_files)) ;;
  base <- self base_filename_ ;;
  dates_to_filenames <- os (daily_filename_calculator.calc_dates_to_filenames base) ;;
  let first_valid_file_pos :=
    if (0 <? max_files)%nat && (max_files <? length dates_to_filenames)%nat
    then (length dates_to_filenames - max_files)%nat else O in
  let recent_files := map snd (drop first_valid_file_pos dates_to_filenames) in
  for_each recent_files (fun file =>
    exists_ <- os (details_os.path_exists file) ;;
    if exists_ : bool
    then update (fun s => set_filenames_q_ (circular_q.push_back file (filenames_q_ s)) s)
    else ret tt) ;;
  if (0 <? max_files)%nat && delete_old_file_on_init then
    for_each (map snd (take first_valid_file_pos dates_to_filenames)) (fun file =>
      os (details_os.remove_if_exists file) ;; ret tt)
  else ret tt.

(** The constructor. [initial_file_tp] is [None] for the default argument
    [log_clock::now()]. *)
Definition ctor (base_filename : string) (rotation_hour rotation_minute : Z)
    (truncate : bool) (max_files : nat) (delete_old_files_on_init : bool)
    (initial_file_tp : option Z) : M World t :=
  fun w =>
    let initial_file_tp := default (clock w) initial_file_tp in
    construct
      (mk base_filename rotation_hour rotation_minute 0 (file_helper.mk "" false)
         truncate max_files circular_q.default false)
      ((if (rotation_hour <? 0) || (23 <? rotation_hour)
           || (rotation_minute <? 0) || (59 <? rotation_minute)
        then throw invalid_rotation_time else ret tt) ;;
       zone <- world utc_offset ;;
       let filename := calc_filename base_filename (now_tm zone initial_file_tp) in
       on_file_helper (file_helper.open filename truncate) ;;
       tp <- next_rotation_tp_ ;;
       update (set_rotation_tp_ tp) ;;
       if (0 <? max_files)%nat then init_filenames_q_ delete_old_files_on_init
       else ret tt)
      w.

(** Modelled from the spec: [base_sink<Mutex>::log] and [flush] are declared
    in [spdlog/sinks/base_sink.h], which is not among the sources. A write
    is "Acquire the exclusive lock", the steps of [sink_it_], "Release the
    lock"; "every operation ... runs to completion while holding a single
    exclusive lock scoped to that call". *)
Definition log (msg : log_msg) : M (World * t) unit :=
  lock_guard Mtx mutex_ set_mutex_ (sink_it_ msg).

Definition flush : M (World * t) unit :=
  lock_guard Mtx mutex_ set_mutex_ flush_.

End methods.

End daily_file_sink.

(** ** minute_file_sink *)

Module minute_file_sink.

Record t := mk {
  base_filename_ : string;
  rotation_tp_ : Z;
  file_helper_ : file_helper.t;
  truncate_ : bool;
  max_files_ : nat;                 (* uint16_t *)
  rotation_m_ : Z;
  filenames_q_ : circular_q.t;
  remove_init_file_ : bool;
  mutex_ : bool                     (* base_sink<Mutex>::mutex_: is it held? *)
}.

Definition set_rotation_tp_ (tp : Z) (s : t) : t :=
  mk (base_filename_ s) tp (file_helper_ s) (truncate_ s) (max_files_ s)
    (rotation_m_ s) (filenames_q_ s) (remove_init_file_ s) (mutex_ s).

Definition set_file_helper_ (h : file_helper.t) (s : t) : t :=
  mk (base_filename_ s) (rotation_tp_ s) h (truncate_ s) (max_files_ s)
    (rotation_m_ s) (filenames_q_ s) (remove_init_file_ s) (mutex_ s).

Definition set_filenames_q_ (q : circular_q.t) (s : t) : t :=
  mk (base_filename_ s) (rotation_tp_ s) (file_helper_ s) (truncate_ s)
    (max_files_ s) (rotation_m_ s) q (remove_init_file_ s) (mutex_ s).

Definition set_remove_init_file_ (b : bool) (s : t) : t :=
  mk (base_filename_ s) (rotation_tp_ s) (file_helper_ s) (truncate_ s)
    (max_files_ s) (rotation_m_ s) (filenames_q_ s) b (mutex_ s).

Definition set_mutex_ (held : bool) (s : t) : t :=
  mk (base_filename_ s) (rotation_tp_ s) (file_helper_ s) (truncate_ s)
    (max_files_ s) (rotation_m_ s) (filenames_q_ s) (remove_init_file_ s) held.

Arguments set_rotation_tp_ _ s /.
Arguments set_file_helper_ _ s /.
Arguments set_filenames_q_ _ s /.
Arguments set_remove_init_file_ _ s /.
Arguments set_mutex_ _ s /.

Definition invalid_rotation_time : error :=
  spdlog_ex "daily_file_sink: Invalid rotation time in ctor" None.

Definition failed_removing (old_filename : string) (last_errno : Z) : error :=
  spdlog_ex ("Failed removing minute file " +:+ old_filename) (Some last_errno).

Section methods.

Variable Mtx : Mutex.
Context {FileNameCalc_ : FileNameCalc}.
(** [base_sink<Mutex>::formatter_] *)
Variable format : log_msg -> string.

Definition on_file_helper {A} (m : M (World * file_helper.t) A) : M (World * t) A :=
  zoom file_helper_ set_file_helper_ m.

Definition filename : M (World * t) string :=
  lock_guard Mtx mutex_ set_mutex_ (on_file_helper file_helper.filename).

Definition next_rotation_tp_ : M (World * t) Z :=
  now <- os details_os.now ;;
  zone <- world utc_offset ;;
  m <- self rotation_m_ ;;
  let date := now_tm zone now in
  let date := mk_tm 0 (tm_min date) (tm_hour date) (tm_mday date) (tm_mon date) (tm_year date) in
  let rotation_time := from_time_t (mktime zone date) in
  if now <? rotation_time then ret rotation_time
  else ret (rotation_time + minutes m).

Definition delete_old_ : M (World * t) unit :=
  current_file <- on_file_helper file_helper.filename ;;
  q <- self filenames_q_ ;;
  (if circular_q.full q then
     match circular_q.front q with
     | None => throw EmptyQueueError
     | Some old_filename =>
         update (fun s => set_filenames_q_ (circular_q.pop_front (filenames_q_ s)) s) ;;
         rc <- os (details_os.remove_if_exists old_filename) ;;
         let ok := rc =? 0 in
         if negb ok then
           update (fun s => set_filenames_q_ (circular_q.push_back current_file (filenames_q_ s)) s) ;;
           e <- world errno ;;
           throw (failed_removing old_filename e)
         else ret tt
     end
   else ret tt) ;;
  update (fun s => set_filenames_q_ (circular_q.push_back current_file (filenames_q_ s)) s).

Definition sink_it_ (msg : log_msg) : M (World * t) unit :=
  let time := msg_time msg in
  rotation_tp <- self rotation_tp_ ;;
  let should_rotate := rotation_tp <=? time in
  (if should_rotate then
     remove_init_file <- self remove_init_file_ ;;
     (if remove_init_file : bool then
        on_file_helper file_helper.close ;;
        init_file <- on_file_helper file_helper.filename ;;
        os (details_os.remove init_file) ;;
        ret tt
      else ret tt) ;;
     base <- self base_filename_ ;;
     zone <- world utc_offset ;;
     truncate <- self truncate_ ;;
     let filename := calc_filename base (now_tm zone time) in
     on_file_helper (file_helper.open filename truncate) ;;
     tp <- next_rotation_tp_ ;;
     update (set_rotation_tp_ tp)
   else ret tt) ;;
  update (set_remove_init_file_ false) ;;
  let formatted := format msg in
  on_file_helper (file_helper.write formatted) ;;
  max_files <- self max_files_ ;;
  if should_rotate && (0 <? max_files)%nat then delete_old_ else ret tt.

Definition flush_ : M (World * t) unit := on_file_helper file_helper.flush.

(** The [while (filenames.size() < max_files_)] loop; [room] is
    [max_files_ - filenames.size()]. *)
Fixpoint probe_filenames (room : nat) (now : Z) (filenames : list string)
    : M (World * t) (list string) :=
  match room with
  | O => ret filenames
  | S room' =>
      base <- self base_filename_ ;;
      zone <- world utc_offset ;;
      let filename := calc_filename base (now_tm zone now) in
      exists_ <- os (details_os.path_exists filename) ;;
      if exists_ : bool then
        m <- self rotation_m_ ;;
        probe_filenames room' (now - minutes m) (filenames ++ [filename])
      else ret filenames
  end.

Definition init_filenames_q_ : M (World * t) unit :=
  max_files <- self max_files_ ;;
  update (set_filenames_q_ (circular_q.create max_files)) ;;
  now <- os details_os.now ;;
  filenames <- probe_filenames max_files now [] ;;
  for_each (rev filenames) (fun file =>
    update (fun s => set_filenames_q_ (circular_q.push_back file (filenames_q_ s)) s)).

Definition ctor (base_filename : string) (truncate : bool) (max_files : nat)
    (rotation_minute : Z) : M World t :=
  construct
    (mk base_filename 0 (file_helper.mk "" false) truncate max_files
       rotation_minute circular_q.default false false)
    ((if (rotation_minute <? 0) || (59 <? rotation_minute)
      then throw invalid_rotation_time else ret tt) ;;
     now <- os details_os.now ;;
     zone <- world utc_offset ;;
     let filename := calc_filename base_filename (now_tm zone now) in
     on_file_helper (file_helper.open filename truncate) ;;
     size <- on_file_helper file_helper.size ;;
     update (set_remove_init_file_ (size =? 0)%nat) ;;
     tp <- next_rotation_tp_ ;;
     update (set_rotation_tp_ tp) ;;
     if (0 <? max_files)%nat then init_filenames_q_ else ret tt).

(** Modelled from the spec: [base_sink<Mutex>::log] and [flush], as for the
    daily sink: the lock is held for the extent of [sink_it_] or [flush_]. *)
Definition log (msg : log_msg) : M (World * t) unit :=
  lock_guard Mtx mutex_ set_mutex_ (sink_it_ msg).

Definition flush : M (World * t) unit :=
  lock_guard Mtx mutex_ set_mutex_ flush_.

End methods.

End minute_file_sink.

(** ** android_sink *)

Module level.

(** [spdlog::level::level_enum], an [int] *)
Definition trace : Z := 0.
Definition debug : Z := 1.
Definition info : Z := 2.
Definition warn : Z := 3.
Definition err : Z := 4.
Definition critical : Z := 5.
Definition off : Z := 6.
Definition n_levels : Z := 7.

End level.

Module android_sink.

(** [android_LogPriority] of [android/log.h] *)
Inductive android_LogPriority :=
| ANDROID_LOG_DEFAULT
| ANDROID_LOG_VERBOSE
| ANDROID_LOG_DEBUG
| ANDROID_LOG_INFO
| ANDROID_LOG_WARN
| ANDROID_LOG_ERROR
| ANDROID_LOG_FATAL.

(** [log_id::LOG_ID_MAIN] *)
Definition LOG_ID_MAIN : Z := 0.

Definition EPERM : Z := 1.

Definition SPDLOG_ANDROID_RETRIES : nat := 2.

(** The fields of [details::log_msg] that the sink reads. *)
Record log_msg := mk_log_msg {
  msg_level : Z;
  msg_payload : string;
  source_filename : string;
  source_line : Z
}.

(** [struct __android_log_message], without [struct_size] *)
Record android_log_message := mk_message {
  buffer_id : Z;
  priority : android_LogPriority;
  tag : string;
  file : string;
  line : Z;
  message : string
}.

(** The calls that the sink makes. *)
Inductive call :=
| log_write (prio : android_LogPriority) (tag text : string)
| log_buf_write (id : Z) (prio : android_LogPriority) (tag text : string)
| write_log_message (m : android_log_message)
| sleep_for_millis (ms : Z).

Definition is_log_call (c : call) : bool :=
  match c with
  | log_write _ _ _ | log_buf_write _ _ _ _ => true
  | _ => false
  end.

(** The logging library and the clock: the calls made so far, and what the
    library answers to its writes, the first, the second and so on. *)
Record Liblog := mk_Liblog {
  results : nat -> Z;
  calls : list call
}.

Definition record_call (c : call) (l : Liblog) : Liblog :=
  mk_Liblog (results l) (calls l ++ [c]).

(** The answer to the next write: the writes made so far are counted. *)
Definition next_result (l : Liblog) : Z :=
  results l (length (List.filter is_log_call (calls l))).

Record t := mk {
  tag_ : string;
  use_raw_msg_ : bool;
  (** Whether [__android_log_write_log_message] was found, which is looked
      for from API level 30 on only. *)
  write_message_ : bool
}.

(** What a function that takes a [const char *] reads: the characters before
    the first zero. *)
Fixpoint c_str (s : string) : string :=
  match s with
  | EmptyString => EmptyString
  | String c s' => if Ascii.eqb c zero then EmptyString else String c (c_str s')
  end.

Definition convert_to_android_ (level : Z) : android_LogPriority :=
  if level =? level.trace then ANDROID_LOG_VERBOSE
  else if level =? level.debug then ANDROID_LOG_DEBUG
  else if level =? level.info then ANDROID_LOG_INFO
  else if level =? level.warn then ANDROID_LOG_WARN
  else if level =? level.err then ANDROID_LOG_ERROR
  else if level =? level.critical then ANDROID_LOG_FATAL
  else ANDROID_LOG_DEFAULT.

Section methods.

(** The template parameter [BufferID] *)
Variable BufferID : Z.
(** [base_sink<Mutex>::formatter_] *)
Variable format : log_msg -> string.

(** [android_log]: [__android_log_write] for the main buffer,
    [__android_log_buf_write] for the others *)
Definition android_log (prio : android_LogPriority) (tag text : string) : M Liblog Z :=
  fun l =>
    (returns (next_result l),
     record_call (if BufferID =? LOG_ID_MAIN then log_write prio tag text
                  else log_buf_write BufferID prio tag text) l).

(** The [while] loop of [sink_it_]; [remaining] is
    [SPDLOG_ANDROID_RETRIES - retry_count], and [ret_] is the variable
    [ret]. *)
Fixpoint retry (remaining : nat) (prio : android_LogPriority) (tag text : string)
    (ret_ : Z) : M Liblog Z :=
  match remaining with
  | O => ret ret_
  | S remaining' =>
      if ret_ =? -11 then
        modify (record_call (sleep_for_millis 5)) ;;
        ret_ <- android_log prio tag text ;;
        retry remaining' prio tag text ret_
      else ret ret_
  end.

Definition sink_it_ (self : t) (msg : log_msg) : M Liblog unit :=
  let priority := convert_to_android_ (msg_level msg) in
  let formatted := if use_raw_msg_ self then msg_payload msg else format msg in
  let formatted := formatted +:+ String zero EmptyString in
  let msg_output := c_str formatted in
  if write_message_ self then
    modify (record_call (write_log_message
              (mk_message BufferID priority (c_str (tag_ self)) (source_filename msg)
                 (source_line msg) msg_output)))
  else
    ret_ <- android_log priority (c_str (tag_ self)) msg_output ;;
    if ret_ =? - EPERM then ret tt
    else
      ret_ <- retry SPDLOG_ANDROID_RETRIES priority (c_str (tag_ self)) msg_output ret_ ;;
      if ret_ <? 0 then throw (spdlog_ex "logging to Android failed" (Some ret_))
      else ret tt.

End methods.

End android_sink.

(** ** mdc *)

Module mdc.

Abbreviation mdc_map_t := (gmap string string).

(** The contexts, one for each thread: [context] is [static thread_local]. *)
Definition Contexts : Type := nat -> mdc_map_t.

(** Assignment through a pointer to the context of a thread. *)
Definition store (p : nat) (context : mdc_map_t) (cs : Contexts) : Contexts :=
  fun thread => if (thread =? p)%nat then context else cs thread.

Section calls.

(** Whether the library is built with [SPDLOG_NO_TLS]. *)
Variable SPDLOG_NO_TLS : bool.
(** The calling thread. *)
Variable thread : nat.

(** [get_context]: a pointer to the context of the calling thread, or
    [nullptr]. *)
Definition get_context : M Contexts (option nat) :=
  if SPDLOG_NO_TLS then ret None else ret (Some thread).

Definition put (key value : string) : M Contexts unit :=
  pcontext <- get_context ;;
  match pcontext with
  | Some p => modify (fun cs => store p (<[key := value]> (cs p)) cs)
  | None => ret tt
  end.

Definition get (key : string) : M Contexts string :=
  pcontext <- get_context ;;
  match pcontext with
  | None => ret ""
  | Some p =>
      it <- gets (fun cs => cs p !! key) ;;
      match it with
      | Some second => ret second
      | None => ret ""
      end
  end.

Definition remove (key : string) : M Contexts unit :=
  pcontext <- get_context ;;
  match pcontext with
  | Some p => modify (fun cs => store p (delete key (cs p)) cs)
  | None => ret tt
  end.

Definition clear : M Contexts unit :=
  pcontext <- get_context ;;
  match pcontext with
  | Some p => modify (fun cs => store p ∅ cs)
  | None => ret tt
  end.

End calls.

End mdc.

(** ** Notions used in the statements and proofs *)

Definition no_dot_sep (c : ascii) : Prop :=
  Str.mem c "." = false /\ Str.mem c details_os.folder_seps = false.

(** An extension: a dot, then neither dots nor separators. *)
Definition is_ext (ext : string) : Prop :=
  exists rest, ext = String "." rest /\ Str.find_last_of "." rest = None /\
               Str.find_last_of details_os.folder_seps rest = None.

(** A name that has no extension: no dot after the last separator. *)
Definition no_ext (fname : string) : Prop :=
  match Str.find_last_of "." fname, Str.find_last_of details_os.folder_seps fname with
  | None, _ => True
  | Some i, Some j => (i <= j)%nat
  | Some _, None => False
  end.

Definition date_char (c : ascii) : Prop := Str.mem c "0123456789-" = true.

(** Within one 400-year era: day of era to (year of era, month, day), and
    back. *)
Definition era_civil (doe : Z) : Z * Z * Z :=
  let yoe := (doe - doe / 1460 + doe / 36524 - doe / 146096) / 365 in
  let doy := doe - (365 * yoe + yoe / 4 - yoe / 100) in
  let mp := (5 * doy + 2) / 153 in
  (yoe, if mp <? 10 then mp + 3 else mp - 9, doy - (153 * mp + 2) / 5 + 1).

Definition era_days (yoe m d : Z) : Z :=
  yoe * 365 + yoe / 4 - yoe / 100
    + ((153 * (if 2 <? m then m - 3 else m + 9) + 2) / 5 + d - 1).

Definition era_ok (doe : Z) : bool :=
  let '(yoe, m, d) := era_civil doe in
  (era_days yoe m d =? doe) && (0 <=? yoe) && (yoe <=? 399)
    && (1 <=? m) && (m <=? 12) && (1 <=? d) && (d <=? 31).

(** [f] holds on the [n] integers from [z] on. *)
Fixpoint holds_from (f : Z -> bool) (n : nat) (z : Z) : bool :=
  match n with
  | O => true
  | S n' => f z && holds_from f n' (z + 1)
  end.

Definition days_per_era : nat := Z.to_nat 146097.

(** The rotation point of the daily sink, from the zone, the current time and
    the hour and minute of the rotation. *)
Definition daily_rotation_point (zone now h m : Z) : Z :=
  let date := now_tm zone now in
  let rotation_time :=
    from_time_t (mktime zone (mk_tm 0 m h (tm_mday date) (tm_mon date) (tm_year date))) in
  if now <? rotation_time then rotation_time else rotation_time + hours 24.

(** The rotation point of the minute sink, from the zone, the current time
    and the period. *)
Definition minute_rotation_point (zone now m : Z) : Z :=
  let date := now_tm zone now in
  let rotation_time :=
    from_time_t (mktime zone (mk_tm 0 (tm_min date) (tm_hour date) (tm_mday date)
                                (tm_mon date) (tm_year date))) in
  if now <? rotation_time then rotation_time else rotation_time + minutes m.

(** Every way in which [m] leaves other than by returning a value satisfies
    [P]: the exception thrown, or [None] for a call that never returns. *)
Definition leaves_by {S A} (P : option error -> Prop) (m : M S A) : Prop :=
  forall s,
    match fst (m s) with
    | returns _ => True
    | throws e => P (Some e)
    | blocks => P None
    end.

(** Leaving in another way than by the exception of the constructors'
    range check. *)
Definition not_invalid_rotation_time (o : option error) : Prop :=
  o <> Some daily_file_sink.invalid_rotation_time.

(** The calls to the operating system made between two states of the
    machine. *)
Definition events_since (w w' : World) : list os_event :=
  drop (length (trace w)) (trace w').

Definition is_fopen (ev : os_event) : Prop :=
  match ev with ev_fopen _ _ _ => True | _ => False end.

(** Run the model as far as the known values allow. *)
Ltac exec_in_goal :=
  cbn -[now_tm mktime from_time_t hours minutes to_time_t Z.ltb Z.leb
        Z.add Z.sub Z.mul calc_filename Nat.ltb Nat.eqb Nat.leb String.append
        circular_q.full circular_q.front circular_q.pop_front circular_q.push_back
        file_helper.fopen_files daily_file_sink.next_rotation_tp_
        minute_file_sink.next_rotation_tp_ daily_rotation_point minute_rotation_point
        lookup insert alter delete events_since].

Ltac exec :=
  cbn -[now_tm mktime from_time_t hours minutes to_time_t Z.ltb Z.leb
        Z.add Z.sub Z.mul calc_filename Nat.ltb Nat.eqb Nat.leb String.append
        circular_q.full circular_q.front circular_q.pop_front circular_q.push_back
        file_helper.fopen_files daily_file_sink.next_rotation_tp_
        minute_file_sink.next_rotation_tp_ daily_rotation_point minute_rotation_point
        lookup insert alter delete events_since]
    in *.

(** The same, and the text of the messages is computed. *)
Ltac exec_messages :=
  cbn -[now_tm mktime from_time_t hours minutes to_time_t Z.ltb Z.leb
        Z.add Z.sub Z.mul calc_filename Nat.ltb Nat.eqb Nat.leb
        circular_q.full circular_q.front circular_q.pop_front circular_q.push_back
        file_helper.fopen_files daily_file_sink.next_rotation_tp_
        minute_file_sink.next_rotation_tp_ daily_rotation_point minute_rotation_point
        lookup insert alter delete events_since]
    in *.

Ltac rew_hyps :=
  repeat match goal with
         | H : ?x = _ |- context [?x] => rewrite H
         end.

(** Split on a condition of the goal that the known facts leave open, an
    innermost one first. *)
Ltac split_cond :=
  match goal with
  | |- context [if ?c then _ else _] =>
      lazymatch c with
      | context [if _ then _ else _] => fail
      | context [match _ with _ => _ end] => fail
      | _ => destruct c eqn:?
      end
  | |- context [match ?c with _ => _ end] =>
      lazymatch c with
      | context [if _ then _ else _] => fail
      | context [match _ with _ => _ end] => fail
      | _ => destruct c eqn:?
      end
  end.

(** Equations that give the result of a call. *)
Create Rewrite HintDb sink.

(** Run the model, following the known facts and the equations of the
    database [sink], and splitting on the rest. *)
Ltac settle :=
  repeat (exec_in_goal; progress (rew_hyps; autorewrite with sink));
  exec_in_goal.

Ltac run := exec; repeat (settle; split_cond; simplify_eq); settle.

(** The name that the recovery of the minute sink probes at its step [k]:
    the name of the file of [k] periods before [now]. *)
Definition minute_probe_name {FileNameCalc_ : FileNameCalc} (base : string)
    (zone now m : Z) (k : nat) : string :=
  calc_filename base (now_tm zone (now - Z.of_nat k * minutes m)).

(** The order of the entries of a [std::map] keyed by strings. *)
Definition key_lt (a b : string * string) : Prop := Str.ltb (fst a) (fst b) = true.

(** Whether a file of this name is on the disk. *)
Definition on_disk (w : World) (filename : string) : bool :=
  bool_decide (is_Some (files w !! filename)).

(** The machine after [remove_if_exists] has been called on each of the
    names, results dropped. *)
Definition removed_all (names : list string) (w : World) : World :=
  fold_left (fun w name => snd (details_os.remove_if_exists name w)) names w.

(** ** The date of a time point, in the words of the specification *)

(** The decimal digit for [n], from 0 to 9. *)
Definition digit (n : Z) : ascii := ascii_of_nat (48 + Z.to_nat n).

(** [n], from 0 to 99, in two decimal digits. *)
Definition two_digits (n : Z) : string :=
  String (digit (n / 10)) (String (digit (n mod 10)) "").

(** [n], from 0 to 9999, in four decimal digits. *)
Definition four_digits (n : Z) : string :=
  String (digit (n / 1000))
    (String (digit (n / 100 mod 10))
       (String (digit (n / 10 mod 10)) (String (digit (n mod 10)) ""))).

(** The day of local time in which the time point [t] falls, counted from
    1970-01-01; the time point is cut to whole seconds as the clock does. *)
Definition local_day (zone t : Z) : Z := (to_time_t t + zone) / 86400.

(** The zero-padded YYYY-MM-DD of a day, for the years 0 to 9999. *)
Definition yyyy_mm_dd (day : Z) : string :=
  let '(y, m, d) := civil_from_days day in
  four_digits y +:+ "-" +:+ two_digits m +:+ "-" +:+ two_digits d.

(** The year of a day. *)
Definition year_of (day : Z) : Z := fst (fst (civil_from_days day)).

Definition fmt_0d_4_ok (y : Z) : bool := String.eqb (fmt_0d 4 y) (four_digits y).
Definition fmt_0d_2_ok (n : Z) : bool := String.eqb (fmt_0d 2 n) (two_digits n).

Definition years_printed : nat := Z.to_nat 10000.
Definition numbers_printed : nat := Z.to_nat 100.

(** ** Scenarios *)

(** Concrete machines and sinks on which the properties below are run. *)
Module scenario.

(** 2024-01-05 14:30:07 UTC, and a little *)
Definition t0 : Z := 1704465007 * ticks_per_second + 5.

Definition minute : Z := 60 * ticks_per_second.

Definition day : Z := 86400 * ticks_per_second.

Definition EACCES : Z := 13.

(** An empty disk in a UTC zone on which every call succeeds. *)
Definition quiet_world : World :=
  mk_World ∅ t0 0 (fun _ => []) (fun _ => None) (fun _ => None) (fun _ => None) 0 [].

Definition format (msg : log_msg) : string := msg_payload msg +:+ "
".

(** The next call happens at time [c]. *)
Definition at_time {S} (c : Z) (st : World * S) : World * S :=
  (set_clock c (fst st), snd st).

(** A minute sink with a rotation period of zero minutes, the default. *)
Definition minute_sink_period_0 : minute_file_sink.t :=
  minute_file_sink.mk "logs/min.txt" 0 (file_helper.mk "logs/min_2024-01-05-14_30.txt" true)
    false 0 0 circular_q.default false false.

(** What a constructor leaves: the machine and the object. *)
Definition built {S} (r : outcome S * World) (otherwise : S) : World * S :=
  (snd r, match fst r with returns s => s | _ => otherwise end).

(** *** A minute sink that keeps two files, on a disk where the oldest file
    cannot be deleted *)

Definition min_30 : string := "logs/min_2024-01-05-14_30.txt".
Definition min_31 : string := "logs/min_2024-01-05-14_31.txt".
Definition min_32 : string := "logs/min_2024-01-05-14_32.txt".
Definition min_33 : string := "logs/min_2024-01-05-14_33.txt".

Definition minute_world : World :=
  mk_World {[ min_30 := "kept" ]} t0 0 (fun _ => []) (fun _ => None) (fun _ => None)
    (fun f => if String.eqb f min_30 then Some EACCES else None) 0 [].

Definition minute_st0 : World * minute_file_sink.t :=
  built (minute_file_sink.ctor (FileNameCalc_ := minute_filename_calculator.calc)
           "logs/min.txt" false 2 1 minute_world)
        minute_sink_period_0.

Definition minute_log (c : Z) (st : World * minute_file_sink.t)
    : outcome unit * (World * minute_file_sink.t) :=
  minute_file_sink.log std_mutex (FileNameCalc_ := minute_filename_calculator.calc)
    format (mk_log_msg c "line") (at_time c st).

Definition minute_st1 := snd (minute_log (t0 + minute) minute_st0).
Definition minute_st2 := snd (minute_log (t0 + 2 * minute) minute_st1).
Definition minute_st3 := snd (minute_log (t0 + 3 * minute) minute_st2).

(** *** A daily sink that keeps two files, rotating at 02:30 *)

Definition daily_05 : string := "logs/daily_2024-01-05.txt".
Definition daily_06 : string := "logs/daily_2024-01-06.txt".
Definition daily_07 : string := "logs/daily_2024-01-07.txt".
Definition daily_08 : string := "logs/daily_2024-01-08.txt".

Definition daily_world : World :=
  mk_World {[ daily_05 := "kept" ]} t0 0
    (fun dir => if String.eqb dir "logs" then [daily_05] else [])
    (fun _ => None) (fun _ => None)
    (fun f => if String.eqb f daily_05 then Some EACCES else None) 0 [].

Definition daily_sink_unbuilt : daily_file_sink.t :=
  daily_file_sink.mk "logs/daily.txt" 2 30 0 (file_helper.mk "" false) false 2
    circular_q.default false.

Definition daily_st0 : World * daily_file_sink.t :=
  built (daily_file_sink.ctor (FileNameCalc_ := daily_filename_calculator.calc)
           "logs/daily.txt" 2 30 false 2 false None daily_world)
        daily_sink_unbuilt.

Definition daily_log (Mtx : Mutex) (c : Z) (st : World * daily_file_sink.t)
    : outcome unit * (World * daily_file_sink.t) :=
  daily_file_sink.log Mtx (FileNameCalc_ := daily_filename_calculator.calc)
    format (mk_log_msg c "line") (at_time c st).

Definition daily_st1 := snd (daily_log null_mutex (t0 + day) daily_st0).
Definition daily_st2 := snd (daily_log null_mutex (t0 + 2 * day) daily_st1).
Definition daily_st3 := snd (daily_log null_mutex (t0 + 3 * day) daily_st2).

(** *** A minute sink that keeps three files, built on an empty disk *)

Definition throwaway_st0 : World * minute_file_sink.t :=
  built (minute_file_sink.ctor (FileNameCalc_ := minute_filename_calculator.calc)
           "logs/min.txt" false 3 1 quiet_world)
        minute_sink_period_0.

Definition throwaway_st1 := snd (minute_log (t0 + minute) throwaway_st0).


(** *** A disk with a gap in the files of the minute sink *)

Definition min_28 : string := "logs/min_2024-01-05-14_28.txt".

Definition gap_world : World :=
  mk_World {[ min_28 := "old" ]} t0 0
    (fun dir => if String.eqb dir "logs" then [min_28] else [])
    (fun _ => None) (fun _ => None) (fun _ => None) 0 [].

Definition gap_st0 : World * minute_file_sink.t :=
  built (minute_file_sink.ctor (FileNameCalc_ := minute_filename_calculator.calc)
           "logs/min.txt" false 3 1 gap_world)
        minute_sink_period_0.

(** *** A directory listing with a file that is gone when looked for *)

Definition daily_03 : string := "logs/daily_2024-01-03.txt".
Definition daily_04 : string := "logs/daily_2024-01-04.txt".

Definition stale_world : World :=
  mk_World {[ daily_03 := "kept"; daily_05 := "kept" ]} t0 0
    (fun dir => if String.eqb dir "logs" then [daily_03; daily_04; daily_05] else [])
    (fun _ => None) (fun _ => None) (fun _ => None) 0 [].

(** *** A disk on which no file can be opened *)

Definition locked_world : World :=
  mk_World ∅ t0 0 (fun _ => []) (fun _ => Some EACCES) (fun _ => None) (fun _ => None) 0 [].

(** *** An Android log that is busy twice *)

Definition busy_liblog : android_sink.Liblog :=
  android_sink.mk_Liblog (fun k => if (k <? 2)%nat then -11 else 0) [].

(** An Android log that is busy once, and then refuses the record. *)
Definition refusing_liblog : android_sink.Liblog :=
  android_sink.mk_Liblog (fun k => if (k <? 1)%nat then -11 else - android_sink.EPERM) [].

Definition android : android_sink.t := android_sink.mk "spdlog" false false.

Definition android_format (msg : android_sink.log_msg) : string :=
  android_sink.msg_payload msg.

Definition android_msg : android_sink.log_msg :=
  android_sink.mk_log_msg level.info "line" "main.cpp" 10.

(** *** Sinks that keep one file *)

Definition single_minute_st0 : World * minute_file_sink.t :=
  built (minute_file_sink.ctor (FileNameCalc_ := minute_filename_calculator.calc)
           "logs/min.txt" false 1 1 quiet_world)
        minute_sink_period_0.

(** A disk that holds the file of the day, which the directory lists. *)
Definition plain_daily_world : World :=
  mk_World {[ daily_05 := "kept" ]} t0 0
    (fun dir => if String.eqb dir "logs" then [daily_05] else [])
    (fun _ => None) (fun _ => None) (fun _ => None) 0 [].

Definition single_daily_st0 : World * daily_file_sink.t :=
  built (daily_file_sink.ctor (FileNameCalc_ := daily_filename_calculator.calc)
           "logs/daily.txt" 2 30 false 1 false None plain_daily_world)
        daily_sink_unbuilt.

(** *** Disks with older files of the sinks *)

Definition daily_02 : string := "logs/daily_2024-01-02.txt".

(** The directory lists, in no order, four files of the sink and another
    file; the file of 2024-01-04 is gone when it is looked for. *)
Definition recovery_world : World :=
  mk_World {[ daily_02 := "b"; daily_03 := "c"; daily_05 := "e"; "logs/other.txt" := "o" ]}
    t0 0
    (fun dir => if String.eqb dir "logs"
                then [daily_05; "logs/other.txt"; daily_03; daily_04; daily_02] else [])
    (fun _ => None) (fun _ => None) (fun _ => None) 0 [].

Definition recovery_st0 : World * daily_file_sink.t :=
  built (daily_file_sink.ctor (FileNameCalc_ := daily_filename_calculator.calc)
           "logs/daily.txt" 2 30 false 3 false None recovery_world)
        daily_sink_unbuilt.

Definition min_27 : string := "logs/min_2024-01-05-14_27.txt".
Definition min_29 : string := "logs/min_2024-01-05-14_29.txt".

(** The files of 14:27 and 14:29 are on the disk, the file of 14:28 is
    not. *)
Definition minute_recovery_world : World :=
  mk_World {[ min_27 := "a"; min_29 := "c" ]} t0 0
    (fun dir => if String.eqb dir "logs" then [min_27; min_29] else [])
    (fun _ => None) (fun _ => None) (fun _ => None) 0 [].

Definition minute_recovery_st0 : World * minute_file_sink.t :=
  built (minute_file_sink.ctor (FileNameCalc_ := minute_filename_calculator.calc)
           "logs/min.txt" false 3 1 minute_recovery_world)
        minute_sink_period_0.

(** *** A minute sink built while the next file cannot be opened *)

(** The file of 14:31 is on the disk and cannot be opened. *)
Definition blocked_world : World :=
  mk_World {[ min_31 := "other" ]} t0 0 (fun _ => [])
    (fun f => if String.eqb f min_31 then Some EACCES else None)
    (fun _ => None) (fun _ => None) 0 [].

Definition blocked_st0 : World * minute_file_sink.t :=
  built (minute_file_sink.ctor (FileNameCalc_ := minute_filename_calculator.calc)
           "logs/min.txt" false 3 1 blocked_world)
        minute_sink_period_0.

(** *** Sinks that set no bound on the files *)

Definition unbounded_daily_st0 : World * daily_file_sink.t :=
  built (daily_file_sink.ctor (FileNameCalc_ := daily_filename_calculator.calc)
           "logs/daily.txt" 2 30 false 0 false None plain_daily_world)
        daily_sink_unbuilt.

Definition unbounded_minute_st0 : World * minute_file_sink.t :=
  built (minute_file_sink.ctor (FileNameCalc_ := minute_filename_calculator.calc)
           "logs/min.txt" false 0 1 quiet_world)
        minute_sink_period_0.

(** *** A directory with two files of one day *)

Definition daily_04_log : string := "logs/daily_2024-01-04.log".

(** *** The minute sink and the daily sink that keep two files, at the start
    of the eviction step of their second write: the file is open and
    written *)

Definition minute_evicting : World * minute_file_sink.t :=
  snd ((minute_file_sink.on_file_helper (file_helper.open min_32 false) ;;
        tp <- minute_file_sink.next_rotation_tp_ ;;
        update (minute_file_sink.set_rotation_tp_ tp) ;;
        update (minute_file_sink.set_remove_init_file_ false) ;;
        minute_file_sink.on_file_helper
          (file_helper.write (format (mk_log_msg (t0 + 2 * minute) "line"))))
         (at_time (t0 + 2 * minute) minute_st1)).

Definition daily_evicting : World * daily_file_sink.t :=
  snd ((daily_file_sink.on_file_helper (file_helper.open daily_07 false) ;;
        tp <- daily_file_sink.next_rotation_tp_ ;;
        update (daily_file_sink.set_rotation_tp_ tp) ;;
        daily_file_sink.on_file_helper
          (file_helper.write (format (mk_log_msg (t0 + 2 * day) "line"))))
         (at_time (t0 + 2 * day) daily_st1)).

End scenario.

(** * Properties *)

#[local] Arguments String.append !_ _ / : simpl nomatch.

(** ** The file name calculators on examples *)

Example fmt_0d_year : fmt_0d 4 2024 = "2024".
Proof. reflexivity. Qed.

Example fmt_0d_month : fmt_0d 2 7 = "07".
Proof. reflexivity. Qed.

Example fmt_0d_negative : fmt_0d 4 (-5) = "-005".
Proof. reflexivity. Qed.

Example fmt_0d_wide : fmt_0d 4 12345 = "12345".
Proof. reflexivity. Qed.

Example split_txt : split_by_extension "logs/daily.txt" = ("logs/daily", ".txt").
Proof. reflexivity. Qed.

Example split_dotted_dir : split_by_extension "logs.d/daily" = ("logs.d/daily", "").
Proof. reflexivity. Qed.

Example now_tm_t0 : now_tm 0 scenario.t0 = mk_tm 7 30 14 5 0 124.
Proof. reflexivity. Qed.

Example daily_name :
  daily_filename_calculator.calc_filename "logs/daily.txt" (now_tm 0 scenario.t0)
  = "logs/daily_2024-01-05.txt".
Proof. reflexivity. Qed.

Example daily_suffix :
  daily_filename_calculator.extract_date_suffix "logs/daily.txt" "logs/daily_2024-01-05.txt"
  = "2024-01-05".
Proof. reflexivity. Qed.

(** The case of the unit test [extract_date_suffix2]. *)
Example daily_suffix_no_match :
  daily_filename_calculator.extract_date_suffix "basename" "filename" = "".
Proof. reflexivity. Qed.

Example minute_name :
  minute_filename_calculator.calc_filename "logs/min.txt" (now_tm 0 scenario.t0)
  = "logs/min_2024-01-05-14_30.txt".
Proof. reflexivity. Qed.

(** ** Strings *)

Lemma app_assoc_str (a b c : string) : (a +:+ b) +:+ c = a +:+ b +:+ c.
Proof. induction a as [|x a IH]; simpl; [reflexivity | now rewrite IH]. Qed.

Lemma length_app_str (a b : string) :
  String.length (a +:+ b) = (String.length a + String.length b)%nat.
Proof. induction a as [|x a IH]; simpl; [reflexivity | now rewrite IH]. Qed.

Lemma find_last_of_app cs a b :
  Str.find_last_of cs (a +:+ b) =
  match Str.find_last_of cs b with
  | Some i => Some (String.length a + i)%nat
  | None => Str.find_last_of cs a
  end.
Proof.
  induction a as [|x a IH]; simpl.
  - now destruct (Str.find_last_of cs b).
  - rewrite IH. now destruct (Str.find_last_of cs b).
Qed.

Lemma find_last_of_Forall cs s :
  Str.find_last_of cs s = None <-> Str.Forall (fun c => Str.mem c cs = false) s.
Proof.
  induction s as [|x s IH]; simpl; [tauto|].
  destruct (Str.find_last_of cs s) as [i|].
  - split; [discriminate | intros [_ H]; apply IH in H; discriminate].
  - destruct (Str.mem x cs); split; try discriminate; try tauto.
    intros [H _]; discriminate.
Qed.

Lemma Forall_app_str P a b :
  Str.Forall P (a +:+ b) <-> Str.Forall P a /\ Str.Forall P b.
Proof. induction a as [|x a IH]; simpl; tauto. Qed.

Lemma Forall_impl_str (P Q : ascii -> Prop) s :
  (forall c, P c -> Q c) -> Str.Forall P s -> Str.Forall Q s.
Proof. intros HPQ. induction s as [|x s IH]; simpl; [tauto | intuition]. Qed.

Lemma Forall_repeat_str P c n : P c -> Str.Forall P (Str.repeat c n).
Proof. intros Hc. induction n; simpl; auto. Qed.

Lemma str_take_app_length a b : Str.take (String.length a) (a +:+ b) = a.
Proof.
  induction a as [|x a IH]; simpl; [now destruct b | now rewrite IH].
Qed.

Lemma str_drop_app_length a b : Str.drop (String.length a) (a +:+ b) = b.
Proof. induction a as [|x a IH]; simpl; [now destruct b | exact IH]. Qed.

Lemma str_take_drop n s : Str.take n s +:+ Str.drop n s = s.
Proof.
  revert s; induction n as [|n IH]; intros [|x s]; simpl; try reflexivity.
  now rewrite IH.
Qed.

Lemma starts_with_app a b : Str.starts_with a (a +:+ b) = true.
Proof.
  induction a as [|x a IH]; simpl; [reflexivity|].
  now rewrite Ascii.eqb_refl, IH.
Qed.

(** The last occurrence cuts the string in two: what follows it is free of
    the characters looked for. *)
Lemma find_last_of_cut cs s i :
  Str.find_last_of cs s = Some i ->
  exists c rest,
    Str.drop i s = String c rest /\ Str.mem c cs = true /\
    Str.find_last_of cs rest = None /\ String.length (Str.take i s) = i.
Proof.
  revert i; induction s as [|x s IH]; simpl; intros i H; [discriminate|].
  destruct (Str.find_last_of cs s) as [j|] eqn:E.
  - injection H as <-. destruct (IH j eq_refl) as (c & rest & H1 & H2 & H3 & H4).
    exists c, rest. simpl. now rewrite H4.
  - destruct (Str.mem x cs) eqn:Ex; [|discriminate]. injection H as <-.
    exists x, s. simpl. auto.
Qed.

Lemma append_nil_r (s : string) : s +:+ "" = s.
Proof. induction s as [|x s IH]; simpl; [reflexivity | now rewrite IH]. Qed.

Lemma str_drop_S_app a c b : Str.drop (S (String.length a)) (a +:+ String c b) = b.
Proof. induction a as [|x a IH]; simpl; [reflexivity | exact IH]. Qed.

Lemma mem_single c d : Str.mem c (String d "") = true -> c = d.
Proof.
  simpl. rewrite orb_false_r. intros H. now apply Ascii.eqb_eq in H.
Qed.

(** ** split_by_extension *)

Lemma no_dot_sep_free mid :
  Str.Forall no_dot_sep mid ->
  Str.find_last_of "." mid = None /\ Str.find_last_of details_os.folder_seps mid = None.
Proof.
  intros H. split; apply find_last_of_Forall;
    (eapply Forall_impl_str; [|exact H]); intros c [H1 H2]; assumption.
Qed.

Lemma find_last_of_lt cs s i :
  Str.find_last_of cs s = Some i -> (i < String.length s)%nat.
Proof.
  revert i; induction s as [|x s IH]; simpl; intros i H; [discriminate|].
  destruct (Str.find_last_of cs s) as [j|].
  - injection H as <-. specialize (IH j eq_refl). lia.
  - destruct (Str.mem x cs); [injection H as <-; lia | discriminate].
Qed.

Lemma split_by_extension_ext stem ext :
  is_ext ext -> split_by_extension (stem +:+ ext) = (stem, ext).
Proof.
  intros (rest & -> & Hdot & Hsep).
  unfold split_by_extension, Str.rfind. rewrite !find_last_of_app. simpl.
  rewrite Hdot, Hsep. simpl. rewrite Nat.add_0_r, str_take_app_length, str_drop_app_length.
  destruct (Str.find_last_of details_os.folder_seps stem) as [j|] eqn:Ej; [|reflexivity].
  apply find_last_of_lt in Ej. apply Nat.ltb_lt in Ej. now rewrite Ej.
Qed.

Lemma split_by_extension_no_ext fname :
  no_ext fname -> split_by_extension fname = (fname, "").
Proof.
  unfold no_ext, split_by_extension, Str.rfind.
  destruct (Str.find_last_of "." fname) as [i|]; [|reflexivity].
  destruct (Str.find_last_of details_os.folder_seps fname) as [j|]; [|tauto].
  intros Hij. apply Nat.ltb_ge in Hij. now rewrite Hij.
Qed.

(** Every name is a stem with an extension, or has no extension. *)
Lemma split_by_extension_cases fname :
  (no_ext fname /\ split_by_extension fname = (fname, "")) \/
  (exists stem ext, is_ext ext /\ fname = stem +:+ ext /\
                    split_by_extension fname = (stem, ext)).
Proof.
  destruct (Str.find_last_of "." fname) as [i|] eqn:Ei.
  2:{ left. assert (H : no_ext fname) by (unfold no_ext; now rewrite Ei).
      split; [exact H | now apply split_by_extension_no_ext]. }
  destruct (find_last_of_cut _ _ _ Ei) as (c & rest & Hdrop & Hc & Hrest & Hlen).
  apply mem_single in Hc; subst c.
  pose proof (str_take_drop i fname) as Htd.
  destruct (Str.find_last_of details_os.folder_seps fname) as [j|] eqn:Ej.
  - destruct (Nat.le_gt_cases i j) as [Hij|Hij].
    + left. assert (H : no_ext fname) by (unfold no_ext; now rewrite Ei, Ej).
      split; [exact H | now apply split_by_extension_no_ext].
    + right. exists (Str.take i fname), (Str.drop i fname).
      assert (Hext : is_ext (Str.drop i fname)).
      { exists rest. repeat split; auto.
        rewrite <- Htd, find_last_of_app, Hdrop in Ej. simpl in Ej.
        destruct (Str.find_last_of details_os.folder_seps rest) as [k|]; [|reflexivity].
        injection Ej as <-. rewrite Hlen in Hij. lia. }
      repeat split; auto. rewrite <- Htd at 1. now apply split_by_extension_ext.
  - right. exists (Str.take i fname), (Str.drop i fname).
    assert (Hext : is_ext (Str.drop i fname)).
    { exists rest. repeat split; auto.
      rewrite <- Htd, find_last_of_app, Hdrop in Ej. simpl in Ej.
      destruct (Str.find_last_of details_os.folder_seps rest) as [k|]; [discriminate|reflexivity]. }
    repeat split; auto. rewrite <- Htd at 1. now apply split_by_extension_ext.
Qed.

Lemma no_ext_app fname mid :
  no_ext fname -> Str.Forall no_dot_sep mid -> no_ext (fname +:+ mid).
Proof.
  intros H Hmid. destruct (no_dot_sep_free _ Hmid) as [Hdot Hsep].
  unfold no_ext in *. now rewrite !find_last_of_app, Hdot, Hsep.
Qed.

(** Text without dots and separators put between stem and extension stays in
    the stem. *)
Lemma split_by_extension_insert base mid :
  Str.Forall no_dot_sep mid ->
  split_by_extension
    (fst (split_by_extension base) +:+ mid +:+ snd (split_by_extension base)) =
  (fst (split_by_extension base) +:+ mid, snd (split_by_extension base)).
Proof.
  intros Hmid.
  destruct (split_by_extension_cases base) as [[Hno ->]|(stem & ext & Hext & -> & ->)]; simpl.
  - rewrite append_nil_r. apply split_by_extension_no_ext. now apply no_ext_app.
  - rewrite <- app_assoc_str. now apply split_by_extension_ext.
Qed.

(** ** The date field *)

Lemma date_char_plain c :
  date_char c ->
  no_dot_sep c /\ Str.mem c daily_filename_calculator.filename_prefix_symbol = false.
Proof.
  unfold date_char, no_dot_sep. intros H.
  destruct c as [[] [] [] [] [] [] [] []]; vm_compute in H; try discriminate H;
    repeat split; reflexivity.
Qed.

Lemma string_of_uint_date_char d : Str.Forall date_char (NilEmpty.string_of_uint d).
Proof. induction d; simpl; auto; split; auto; reflexivity. Qed.

Lemma fmt_0d_date_char w n : Str.Forall date_char (fmt_0d w n).
Proof.
  assert (Hd : forall d, Str.Forall date_char (NilZero.string_of_uint d)).
  { intros d. unfold NilZero.string_of_uint. destruct d;
      try apply string_of_uint_date_char. simpl. split; [reflexivity|exact I]. }
  unfold fmt_0d. destruct (n <? 0).
  - change ("-" +:+ ?s) with (String "-" s). split; [reflexivity|].
    apply Forall_app_str. split; [apply Forall_repeat_str; reflexivity | apply Hd].
  - apply Forall_app_str. split; [apply Forall_repeat_str; reflexivity | apply Hd].
Qed.

Lemma fmt_0d_not_empty w n : Str.empty (fmt_0d w n) = false.
Proof.
  assert (Hd : forall d, Str.empty (NilZero.string_of_uint d) = false)
    by (intros d; destruct d; reflexivity).
  assert (Happ : forall a b, Str.empty b = false -> Str.empty (a +:+ b) = false)
    by (intros [|x a] b H; [exact H | reflexivity]).
  unfold fmt_0d. destruct (n <? 0); [reflexivity|]. apply Happ, Hd.
Qed.

Lemma date_suffix_date_char now_tm :
  Str.Forall date_char (daily_filename_calculator.date_suffix now_tm).
Proof.
  unfold daily_filename_calculator.date_suffix.
  repeat (apply Forall_app_str; split); try apply fmt_0d_date_char;
    (split; [reflexivity | exact I]).
Qed.

Lemma date_suffix_not_empty now_tm :
  Str.empty (daily_filename_calculator.date_suffix now_tm) = false.
Proof.
  unfold daily_filename_calculator.date_suffix.
  pose proof (fmt_0d_not_empty 4 (tm_year now_tm + 1900)) as H.
  destruct (fmt_0d 4 (tm_year now_tm + 1900)); [discriminate | reflexivity].
Qed.

(** [extract_date_suffix] undoes [calc_filename], for every base name and
    every broken-down time. *)
Lemma extract_date_suffix_calc_filename base now_tm :
  daily_filename_calculator.extract_date_suffix base
    (daily_filename_calculator.calc_filename base now_tm) =
  daily_filename_calculator.date_suffix now_tm.
Proof.
  pose proof (date_suffix_date_char now_tm) as Hd.
  set (D := daily_filename_calculator.date_suffix now_tm) in *.
  assert (Hmid : Str.Forall no_dot_sep (String "_" D)).
  { split; [split; reflexivity|].
    eapply Forall_impl_str; [|exact Hd]. intros c Hc. now apply date_char_plain. }
  assert (Hfree : Str.find_last_of "_" D = None).
  { apply find_last_of_Forall. eapply Forall_impl_str; [|exact Hd].
    intros c Hc. now apply date_char_plain. }
  pose proof (split_by_extension_insert base _ Hmid) as Hsplit.
  unfold daily_filename_calculator.extract_date_suffix,
    daily_filename_calculator.calc_filename,
    daily_filename_calculator.filename_prefix_symbol.
  fold D. destruct (split_by_extension base) as [stem ext]; simpl fst in *; simpl snd in *.
  change ("_" +:+ ?s) with (String "_" s).
  change (String "_" D +:+ ext) with (String "_" (D +:+ ext)) in Hsplit.
  rewrite Hsplit. simpl fst.
  replace (stem +:+ String "_" (D +:+ ext)) with ((stem +:+ "_") +:+ D +:+ ext)
    by (now rewrite app_assoc_str).
  rewrite starts_with_app, find_last_of_app. simpl. rewrite Hfree. simpl.
  rewrite Nat.add_0_r. apply str_drop_S_app.
Qed.


Example date_suffix_t0 :
  daily_filename_calculator.date_suffix (now_tm 0 scenario.t0) = "2024-01-05".
Proof. reflexivity. Qed.
(** ** The calendar *)

Lemma holds_from_spec f n z x :
  holds_from f n z = true -> z <= x < z + Z.of_nat n -> f x = true.
Proof.
  revert z; induction n as [|n IH]; simpl; intros z H Hx; [lia|].
  apply andb_true_iff in H. destruct H as [Hz Hrest].
  destruct (Z.eq_dec x z) as [->|Hne]; [exact Hz|].
  apply (IH (z + 1)); [exact Hrest | lia].
Qed.

Lemma era_ok_all : holds_from era_ok days_per_era 0 = true.
Proof. vm_cast_no_check (eq_refl true). Qed.

Lemma era_ok_range doe : 0 <= doe < 146097 -> era_ok doe = true.
Proof.
  intros H. apply (holds_from_spec _ _ _ _ era_ok_all).
  unfold days_per_era. rewrite Z2Nat.id; lia.
Qed.

Lemma civil_from_days_era z :
  civil_from_days z =
  let '(yoe, m, d) := era_civil ((z + 719468) mod 146097) in
  let y := yoe + (z + 719468) / 146097 * 400 in
  (if m <=? 2 then y + 1 else y, m, d).
Proof. reflexivity. Qed.

Lemma days_from_civil_era y0 m d :
  days_from_civil y0 m d =
  let y := if m <=? 2 then y0 - 1 else y0 in
  y / 400 * 146097 + era_days (y mod 400) m d - 719468.
Proof. unfold days_from_civil, era_days. cbv zeta. lia. Qed.

(** [days_from_civil] is a left inverse of [civil_from_days]. *)
Lemma days_from_civil_from_days z :
  let '(y, m, d) := civil_from_days z in
  days_from_civil y m d = z /\ 1 <= m <= 12 /\ 1 <= d <= 31.
Proof.
  rewrite civil_from_days_era.
  pose proof (Z.mod_pos_bound (z + 719468) 146097 ltac:(lia)) as Hdoe.
  pose proof (era_ok_range _ Hdoe) as Hok. unfold era_ok in Hok.
  destruct (era_civil ((z + 719468) mod 146097)) as [[yoe m] d].
  rewrite !andb_true_iff in Hok.
  destruct Hok as ((((((H1 & H2) & H3) & H4) & H5) & H6) & H7).
  apply Z.eqb_eq in H1. apply Z.leb_le in H2, H3, H4, H5, H6, H7.
  cbv beta iota zeta. rewrite days_from_civil_era. cbv zeta.
  set (y := yoe + (z + 719468) / 146097 * 400).
  assert (Hy : (if m <=? 2 then (if m <=? 2 then y + 1 else y) - 1
                else (if m <=? 2 then y + 1 else y)) = y)
    by (destruct (m <=? 2); lia).
  rewrite Hy. unfold y.
  rewrite Z.div_add, Z.mod_add by lia.
  rewrite Z.div_small, Z.mod_small by lia.
  rewrite H1. pose proof (Z.div_mod (z + 719468) 146097 ltac:(lia)). lia.
Qed.

(** [mktime] of a local date whose time of day was overwritten. *)
Lemma mktime_localtime zone t h m s :
  mktime zone (mk_tm s m h (tm_mday (localtime zone t)) (tm_mon (localtime zone t))
                 (tm_year (localtime zone t))) =
  (t + zone) / 86400 * 86400 + h * 3600 + m * 60 + s - zone.
Proof.
  unfold localtime, mktime.
  pose proof (days_from_civil_from_days ((t + zone) / 86400)) as H.
  destruct (civil_from_days ((t + zone) / 86400)) as [[y mo] d].
  destruct H as [H _]. cbn [tm_year tm_mon tm_mday tm_hour tm_min tm_sec].
  replace (y - 1900 + 1900) with y by lia.
  replace (mo - 1 + 1) with mo by lia. rewrite H. reflexivity.
Qed.

Lemma localtime_time_of_day zone t :
  tm_hour (localtime zone t) * 3600 + tm_min (localtime zone t) * 60
    + tm_sec (localtime zone t) = (t + zone) mod 86400.
Proof.
  unfold localtime. destruct (civil_from_days ((t + zone) / 86400)) as [[y mo] d].
  cbn [tm_hour tm_min tm_sec]. Z.div_mod_to_equations. lia.
Qed.

Lemma to_time_t_bounds tp :
  tp < (to_time_t tp + 1) * ticks_per_second /\
  (to_time_t tp - 1) * ticks_per_second < tp /\
  (0 <= tp -> to_time_t tp * ticks_per_second <= tp).
Proof.
  unfold to_time_t, ticks_per_second. Z.quot_rem_to_equations. lia.
Qed.

(** ** The next rotation point *)


Lemma daily_next_rotation_tp_run (w : World) (s : daily_file_sink.t) :
  daily_file_sink.next_rotation_tp_ (w, s) =
  (returns (daily_rotation_point (utc_offset w) (clock w)
              (daily_file_sink.rotation_h_ s) (daily_file_sink.rotation_m_ s)),
   (w, s)).
Proof.
  unfold daily_file_sink.next_rotation_tp_, daily_rotation_point. exec.
  now destruct (clock w <? _).
Qed.

Lemma minute_next_rotation_tp_run (w : World) (s : minute_file_sink.t) :
  minute_file_sink.next_rotation_tp_ (w, s) =
  (returns (minute_rotation_point (utc_offset w) (clock w)
              (minute_file_sink.rotation_m_ s)),
   (w, s)).
Proof.
  unfold minute_file_sink.next_rotation_tp_, minute_rotation_point. exec.
  now destruct (clock w <? _).
Qed.

#[global] Hint Rewrite daily_next_rotation_tp_run minute_next_rotation_tp_run : sink.

(** The daily sink: the rotation point is after the current time. *)
Lemma daily_next_rotation_tp_after_now (w : World) (s : daily_file_sink.t) :
  0 <= daily_file_sink.rotation_h_ s -> 0 <= daily_file_sink.rotation_m_ s ->
  exists tp,
    daily_file_sink.next_rotation_tp_ (w, s) = (returns tp, (w, s)) /\ clock w < tp.
Proof.
  intros Hh Hm. unfold daily_file_sink.next_rotation_tp_. exec.
  unfold now_tm. rewrite mktime_localtime.
  pose proof (to_time_t_bounds (clock w)) as (Hb & _ & _).
  set (tnow := to_time_t (clock w)) in *.
  destruct (clock w <? _) eqn:E; eexists; (split; [reflexivity|]).
  - now apply Z.ltb_lt in E.
  - unfold from_time_t, hours, ticks_per_second in *.
    Z.div_mod_to_equations. lia.
Qed.

(** The candidate of the minute sink is the start of the current local
    minute. *)
Lemma minute_candidate zone t :
  mktime zone (mk_tm 0 (tm_min (localtime zone t)) (tm_hour (localtime zone t))
                 (tm_mday (localtime zone t)) (tm_mon (localtime zone t))
                 (tm_year (localtime zone t))) =
  t - (t + zone) mod 60.
Proof.
  rewrite mktime_localtime. pose proof (localtime_time_of_day zone t) as H.
  assert (Hs : tm_sec (localtime zone t) = (t + zone) mod 60).
  { unfold localtime. destruct (civil_from_days ((t + zone) / 86400)) as [[y mo] d].
    cbn [tm_sec]. Z.div_mod_to_equations. lia. }
  Z.div_mod_to_equations. lia.
Qed.

(** The minute sink with a period of at least one minute: the rotation point
    is after the current time. *)
Lemma minute_next_rotation_tp_after_now (w : World) (s : minute_file_sink.t) :
  1 <= minute_file_sink.rotation_m_ s ->
  exists tp,
    minute_file_sink.next_rotation_tp_ (w, s) = (returns tp, (w, s)) /\ clock w < tp.
Proof.
  intros Hm. unfold minute_file_sink.next_rotation_tp_. exec.
  unfold now_tm. rewrite minute_candidate.
  pose proof (to_time_t_bounds (clock w)) as (Hb & _ & _).
  set (tnow := to_time_t (clock w)) in *.
  destruct (clock w <? _) eqn:E; eexists; (split; [reflexivity|]).
  - now apply Z.ltb_lt in E.
  - unfold from_time_t, minutes, ticks_per_second in *.
    Z.div_mod_to_equations. nia.
Qed.

(** C3, at the input on which the code fails. A minute sink whose period is
    zero minutes (a value the constructor accepts, and its default) computes,
    at any time [now] since the epoch, a rotation point that is not after
    [now]: it is the start of the current minute. *)
Theorem minute_next_rotation_tp_period_0 (w : World) (s : minute_file_sink.t) :
  minute_file_sink.rotation_m_ s = 0 -> 0 <= clock w ->
  exists tp,
    minute_file_sink.next_rotation_tp_ (w, s) = (returns tp, (w, s)) /\ tp <= clock w.
Proof.
  intros Hm Hnow. unfold minute_file_sink.next_rotation_tp_. exec.
  unfold now_tm. rewrite minute_candidate, Hm.
  pose proof (to_time_t_bounds (clock w)) as (_ & _ & Hb). specialize (Hb Hnow).
  set (tnow := to_time_t (clock w)) in *.
  assert (Hle : from_time_t (tnow - (tnow + utc_offset w) mod 60) <= clock w).
  { unfold from_time_t, ticks_per_second in *. Z.div_mod_to_equations. lia. }
  destruct (clock w <? _) eqn:E; [apply Z.ltb_lt in E; lia|].
  eexists; split; [reflexivity|]. unfold minutes. lia.
Qed.

Lemma minute_next_rotation_tp_period_0_witness :
  exists tp,
    minute_file_sink.next_rotation_tp_
      (scenario.quiet_world, scenario.minute_sink_period_0)
    = (returns tp, (scenario.quiet_world, scenario.minute_sink_period_0))
    /\ tp <= clock scenario.quiet_world.
Proof.
  apply (minute_next_rotation_tp_period_0
           scenario.quiet_world scenario.minute_sink_period_0).
  - reflexivity.
  - vm_compute. discriminate.
Defined.

(** ** The date in the file name *)

Lemma fmt_0d_4_all : holds_from fmt_0d_4_ok years_printed 0 = true.
Proof. vm_cast_no_check (eq_refl true). Qed.

Lemma fmt_0d_2_all : holds_from fmt_0d_2_ok numbers_printed 0 = true.
Proof. vm_cast_no_check (eq_refl true). Qed.

(** [{:04d}] prints the years 0 to 9999 in four digits. *)
Lemma fmt_0d_four_digits y : 0 <= y <= 9999 -> fmt_0d 4 y = four_digits y.
Proof.
  intros Hy. apply String.eqb_eq.
  apply (holds_from_spec fmt_0d_4_ok years_printed 0 y fmt_0d_4_all).
  unfold years_printed. rewrite Z2Nat.id; lia.
Qed.

(** [{:02d}] prints the numbers 0 to 99 in two digits. *)
Lemma fmt_0d_two_digits n : 0 <= n <= 99 -> fmt_0d 2 n = two_digits n.
Proof.
  intros Hn. apply String.eqb_eq.
  apply (holds_from_spec fmt_0d_2_ok numbers_printed 0 n fmt_0d_2_all).
  unfold numbers_printed. rewrite Z2Nat.id; lia.
Qed.

Lemma digit_inj a b : 0 <= a <= 9 -> 0 <= b <= 9 -> digit a = digit b -> a = b.
Proof.
  unfold digit. intros Ha Hb H. apply (f_equal nat_of_ascii) in H.
  rewrite !nat_ascii_embedding in H by lia. lia.
Qed.

Lemma two_digits_inj a b :
  0 <= a <= 99 -> 0 <= b <= 99 -> two_digits a = two_digits b -> a = b.
Proof.
  unfold two_digits. intros Ha Hb H. injection H as H1 H0.
  apply digit_inj in H1, H0; Z.div_mod_to_equations; lia.
Qed.

Lemma four_digits_inj a b :
  0 <= a <= 9999 -> 0 <= b <= 9999 -> four_digits a = four_digits b -> a = b.
Proof.
  unfold four_digits. intros Ha Hb H. injection H as H3 H2 H1 H0.
  apply digit_inj in H3, H2, H1, H0; Z.div_mod_to_equations; lia.
Qed.

(** The date field of the name is made of the local date of the time
    point. *)
Lemma date_suffix_local_day zone t :
  let '(y, m, d) := civil_from_days (local_day zone t) in
  daily_filename_calculator.date_suffix (now_tm zone t) =
  fmt_0d 4 y +:+ "-" +:+ fmt_0d 2 m +:+ "-" +:+ fmt_0d 2 d.
Proof.
  unfold now_tm, localtime, local_day, daily_filename_calculator.date_suffix.
  destruct (civil_from_days ((to_time_t t + zone) / 86400)) as [[y m] d].
  cbn [tm_year tm_mon tm_mday].
  replace (y - 1900 + 1900) with y by lia. replace (m - 1 + 1) with m by lia.
  reflexivity.
Qed.

(** The date field in the years 0 to 9999. *)
Lemma date_suffix_yyyy_mm_dd zone t :
  0 <= year_of (local_day zone t) <= 9999 ->
  daily_filename_calculator.date_suffix (now_tm zone t) = yyyy_mm_dd (local_day zone t).
Proof.
  unfold year_of, yyyy_mm_dd. intros Hy.
  pose proof (date_suffix_local_day zone t) as Hs.
  pose proof (days_from_civil_from_days (local_day zone t)) as Hd.
  destruct (civil_from_days (local_day zone t)) as [[y m] d]. cbn [fst] in Hy.
  destruct Hd as (_ & Hm & Hd).
  rewrite Hs, fmt_0d_four_digits, !fmt_0d_two_digits by lia. reflexivity.
Qed.

(** In the years 0 to 9999 the text of a day tells the day. *)
Lemma yyyy_mm_dd_inj day day' :
  0 <= year_of day <= 9999 -> 0 <= year_of day' <= 9999 ->
  yyyy_mm_dd day = yyyy_mm_dd day' -> day = day'.
Proof.
  unfold year_of, yyyy_mm_dd. intros Hy Hy' H.
  pose proof (days_from_civil_from_days day) as Hd.
  pose proof (days_from_civil_from_days day') as Hd'.
  destruct (civil_from_days day) as [[y m] d].
  destruct (civil_from_days day') as [[y' m'] d'].
  cbn [fst] in Hy, Hy'. destruct Hd as (<- & Hm & Hd), Hd' as (<- & Hm' & Hd').
  unfold four_digits, two_digits in H. cbn [String.append] in H.
  injection H as Y3 Y2 Y1 Y0 M1 M0 D1 D0.
  assert (y = y').
  { apply four_digits_inj; [lia | lia |]. unfold four_digits. congruence. }
  assert (m = m').
  { apply two_digits_inj; [lia | lia |]. unfold two_digits. congruence. }
  assert (d = d').
  { apply two_digits_inj; [lia | lia |]. unfold two_digits. congruence. }
  congruence.
Qed.

(** C6. For every base path, every zone and every time point [t],
    [extract_date_suffix] applied to the file name that [calc_filename] makes
    from the base path and [t] returns the year, the month and the day of
    the local day in which [t] falls, printed with [{:04d}], [{:02d}] and
    [{:02d}] and joined by hyphens; this is never the empty string, which is
    the answer for a name that does not match. The three numbers are a month
    from 1 to 12, a day from 1 to 31 and the year for which the count of
    days since 1970-01-01 is that local day. In the years 0 to 9999 the
    suffix is the zero-padded YYYY-MM-DD of that day, four digits, two
    digits and two digits, and two time points get the same suffix exactly
    when they fall in the same local day. *)
Theorem extract_date_suffix_recovers_date (base : string) (zone : Z) :
  (forall t,
      let '(y, m, d) := civil_from_days (local_day zone t) in
      daily_filename_calculator.extract_date_suffix base
        (daily_filename_calculator.calc_filename base (now_tm zone t))
      = fmt_0d 4 y +:+ "-" +:+ fmt_0d 2 m +:+ "-" +:+ fmt_0d 2 d
      /\ daily_filename_calculator.extract_date_suffix base
           (daily_filename_calculator.calc_filename base (now_tm zone t)) <> ""
      /\ days_from_civil y m d = local_day zone t
      /\ 1 <= m <= 12 /\ 1 <= d <= 31)
  /\ (forall t,
         0 <= year_of (local_day zone t) <= 9999 ->
         daily_filename_calculator.extract_date_suffix base
           (daily_filename_calculator.calc_filename base (now_tm zone t))
         = yyyy_mm_dd (local_day zone t))
  /\ (forall t t',
         0 <= year_of (local_day zone t) <= 9999 ->
         0 <= year_of (local_day zone t') <= 9999 ->
         (daily_filename_calculator.extract_date_suffix base
            (daily_filename_calculator.calc_filename base (now_tm zone t))
          = daily_filename_calculator.extract_date_suffix base
              (daily_filename_calculator.calc_filename base (now_tm zone t'))
          <-> local_day zone t = local_day zone t')).
Proof.
  split; [|split].
  - intros t. pose proof (date_suffix_local_day zone t) as Hs.
    pose proof (date_suffix_not_empty (now_tm zone t)) as Hne.
    pose proof (days_from_civil_from_days (local_day zone t)) as Hd.
    destruct (civil_from_days (local_day zone t)) as [[y m] d].
    rewrite extract_date_suffix_calc_filename. split; [exact Hs|].
    split; [|exact Hd].
    intros E. rewrite E in Hne. discriminate.
  - intros t Hy. rewrite extract_date_suffix_calc_filename.
    now apply date_suffix_yyyy_mm_dd.
  - intros t t' Hy Hy'. rewrite !extract_date_suffix_calc_filename.
    rewrite !date_suffix_yyyy_mm_dd by assumption. split.
    + now apply yyyy_mm_dd_inj.
    + now intros ->.
Qed.

Lemma extract_date_suffix_recovers_date_witness :
  daily_filename_calculator.extract_date_suffix "logs/daily.txt"
    (daily_filename_calculator.calc_filename "logs/daily.txt" (now_tm 3600 scenario.t0))
  = "2024-01-05"
  /\ (daily_filename_calculator.extract_date_suffix "logs/daily.txt"
        (daily_filename_calculator.calc_filename "logs/daily.txt" (now_tm 3600 scenario.t0))
      = daily_filename_calculator.extract_date_suffix "logs/daily.txt"
          (daily_filename_calculator.calc_filename "logs/daily.txt"
             (now_tm 3600 (scenario.t0 + 9 * scenario.day)))
      <-> local_day 3600 scenario.t0 = local_day 3600 (scenario.t0 + 9 * scenario.day)).
Proof.
  pose proof (extract_date_suffix_recovers_date "logs/daily.txt" 3600) as (_ & H2 & H3).
  split.
  - rewrite (H2 scenario.t0); [reflexivity|]. vm_compute. split; discriminate.
  - apply H3; vm_compute; split; discriminate.
Defined.
(** ** The queue of file names *)

(** After the oldest name of a full queue is popped there is room for one
    name. *)
Lemma pop_front_push_back cap items item :
  circular_q.full (circular_q.mk cap items) = true ->
  circular_q.push_back item (circular_q.pop_front (circular_q.mk cap items)) =
  circular_q.mk cap (tail items ++ [item]).
Proof.
  unfold circular_q.full, circular_q.push_back, circular_q.pop_front. simpl.
  intros H. apply andb_true_iff in H. destruct H as [Hcap Hlen].
  apply Nat.ltb_lt in Hcap. apply Nat.eqb_eq in Hlen.
  destruct (Nat.eqb_spec cap 0) as [->|_]; [lia|].
  destruct items as [|x items]; simpl in *; [lia|].
  unfold circular_q.full. simpl.
  destruct (Nat.eqb_spec (length items) cap) as [E|_]; [lia|].
  destruct (0 <? cap)%nat; reflexivity.
Qed.

(** A queue that is not full takes one more name. *)
Lemma push_back_not_full cap items item :
  (0 < cap)%nat ->
  circular_q.full (circular_q.mk cap items) = false ->
  circular_q.push_back item (circular_q.mk cap items) = circular_q.mk cap (items ++ [item]).
Proof.
  unfold circular_q.push_back. intros Hcap ->. simpl.
  destruct (Nat.eqb_spec cap 0) as [->|_]; [lia | reflexivity].
Qed.

(** ** Where the exceptions come from *)

Section leaves_by.
Context {S : Type} (P : option error -> Prop).

Lemma leaves_ret {A} (a : A) : leaves_by P (ret (S := S) a).
Proof. intros s. exact I. Qed.

Lemma leaves_gets {A} (f : S -> A) : leaves_by P (gets f).
Proof. intros s. exact I. Qed.

Lemma leaves_modify (f : S -> S) : leaves_by P (modify f).
Proof. intros s. exact I. Qed.

Lemma leaves_throw {A} (e : error) : P (Some e) -> leaves_by P (throw (S := S) (A := A) e).
Proof. intros H s. exact H. Qed.

Lemma leaves_bind {A B} (m : M S A) (k : A -> M S B) :
  leaves_by P m -> (forall a, leaves_by P (k a)) -> leaves_by P (bind m k).
Proof.
  intros Hm Hk s. specialize (Hm s). unfold bind.
  destruct (m s) as [[a| e |] s']; simpl in *; auto. apply Hk.
Qed.

Lemma leaves_for_each {A} (l : list A) (body : A -> M S unit) :
  (forall x, leaves_by P (body x)) -> leaves_by P (for_each l body).
Proof.
  intros Hbody. induction l as [|x l IH]; simpl.
  - apply leaves_ret.
  - apply leaves_bind; auto.
Qed.

Lemma leaves_self {A} (f : S -> A) : leaves_by P (self (S := S) f).
Proof. intros s. exact I. Qed.

Lemma leaves_world {A} (f : World -> A) : leaves_by P (world (S := S) f).
Proof. intros s. exact I. Qed.

Lemma leaves_update (f : S -> S) : leaves_by P (update f).
Proof. intros s. exact I. Qed.

Lemma leaves_os {A} (m : M World A) : leaves_by P m -> leaves_by P (os (S := S) m).
Proof.
  intros Hm [w s]. specialize (Hm w). unfold os. simpl.
  now destruct (m w) as [[a| e |] w'].
Qed.

Lemma leaves_zoom {T A} (get : S -> T) (set : T -> S -> S) (m : M (World * T) A) :
  leaves_by P m -> leaves_by P (zoom get set m).
Proof.
  intros Hm [w s]. specialize (Hm (w, get s)). unfold zoom. simpl.
  now destruct (m (w, get s)) as [[a| e |] st'].
Qed.

Lemma leaves_lock_guard {A} (Mtx : Mutex) (locked : S -> bool)
    (set_locked : bool -> S -> S) (body : M (World * S) A) :
  (Mtx = std_mutex -> P None) -> leaves_by P body ->
  leaves_by P (lock_guard Mtx locked set_locked body).
Proof.
  intros Hblocks Hbody [w s]. unfold lock_guard. destruct Mtx; [|apply Hbody].
  simpl. destruct (locked s); [now apply Hblocks|].
  specialize (Hbody (w, set_locked true s)).
  now destruct (body (w, set_locked true s)) as [[a| e |] st'].
Qed.

Lemma leaves_construct (members : S) (body : M (World * S) unit) :
  leaves_by P body -> leaves_by P (construct members body).
Proof.
  intros Hbody w. specialize (Hbody (w, members)). unfold construct.
  now destruct (body (w, members)) as [[a| e |] st'].
Qed.

End leaves_by.

Create HintDb leaves.

(** Take a computation apart along its binds and conditions. *)
Ltac leaves :=
  repeat first
    [ assumption | solve [auto with leaves nocore]
    | apply leaves_ret | apply leaves_gets | apply leaves_modify
    | apply leaves_self | apply leaves_world | apply leaves_update
    | apply leaves_bind; [|intros]
    | apply leaves_os | apply leaves_zoom | apply leaves_for_each; intros
    | apply leaves_lock_guard
    | apply leaves_throw
    | match goal with
      | |- leaves_by _ (if ?c then _ else _) => destruct c
      | |- leaves_by _ (match ?x with _ => _ end) => destruct x
      end ].

(** *** The exceptions of the sinks

    The exceptions that the calls of a sink throw carry an error number, or
    are the error of the empty queue; a call waits only for a [std::mutex]. *)

Section sink_exceptions.
Context {FileNameCalc_ : FileNameCalc}.
Variable Mtx : Mutex.
Variable format : log_msg -> string.
Variable P : option error -> Prop.
Hypothesis P_errno : forall msg e, P (Some (spdlog_ex msg (Some e))).
Hypothesis P_queue : P (Some EmptyQueueError).
Hypothesis P_blocks : Mtx = std_mutex -> P None.

Lemma leaves_file_helper_open fname truncate :
  leaves_by P (file_helper.open fname truncate).
Proof. unfold file_helper.open, file_helper.close. leaves. Qed.

Lemma leaves_file_helper_write buf : leaves_by P (file_helper.write buf).
Proof. unfold file_helper.write. leaves. Qed.

Lemma leaves_file_helper_flush : leaves_by P file_helper.flush.
Proof. unfold file_helper.flush. leaves. Qed.

Lemma leaves_remove filename : leaves_by P (details_os.remove filename).
Proof. intros w. unfold details_os.remove. now repeat case_match. Qed.

Lemma leaves_remove_if_exists filename :
  leaves_by P (details_os.remove_if_exists filename).
Proof.
  unfold details_os.remove_if_exists, details_os.path_exists. leaves.
  apply leaves_remove.
Qed.

#[local] Hint Resolve leaves_file_helper_open leaves_file_helper_write
  leaves_file_helper_flush leaves_remove leaves_remove_if_exists : leaves.

Lemma daily_leaves_next_rotation_tp_ : leaves_by P daily_file_sink.next_rotation_tp_.
Proof. unfold daily_file_sink.next_rotation_tp_, details_os.now. leaves. Qed.

Lemma daily_leaves_filename : leaves_by P (daily_file_sink.filename Mtx).
Proof.
  unfold daily_file_sink.filename, daily_file_sink.on_file_helper, file_helper.filename.
  leaves.
Qed.

Lemma daily_leaves_delete_old_ : leaves_by P (daily_file_sink.delete_old_ Mtx).
Proof.
  unfold daily_file_sink.delete_old_, daily_file_sink.failed_removing.
  apply leaves_bind; [apply daily_leaves_filename|].
  intros current_file. leaves.
Qed.

Lemma daily_leaves_sink_it_ msg : leaves_by P (daily_file_sink.sink_it_ Mtx format msg).
Proof.
  pose proof daily_leaves_next_rotation_tp_. pose proof daily_leaves_delete_old_.
  unfold daily_file_sink.sink_it_, daily_file_sink.on_file_helper.
  leaves.
Qed.

Lemma daily_leaves_log msg : leaves_by P (daily_file_sink.log Mtx format msg).
Proof.
  pose proof (daily_leaves_sink_it_ msg). unfold daily_file_sink.log. leaves.
Qed.

Lemma daily_leaves_flush : leaves_by P (daily_file_sink.flush Mtx).
Proof.
  unfold daily_file_sink.flush, daily_file_sink.flush_, daily_file_sink.on_file_helper.
  leaves.
Qed.

Lemma daily_leaves_init_filenames_q_ delete_old_file_on_init :
  leaves_by P (daily_file_sink.init_filenames_q_ delete_old_file_on_init).
Proof.
  unfold daily_file_sink.init_filenames_q_, daily_filename_calculator.calc_dates_to_filenames,
    details_os.get_directory_files, details_os.path_exists.
  leaves.
Qed.

Lemma minute_leaves_next_rotation_tp_ : leaves_by P minute_file_sink.next_rotation_tp_.
Proof. unfold minute_file_sink.next_rotation_tp_, details_os.now. leaves. Qed.

Lemma minute_leaves_filename : leaves_by P (minute_file_sink.filename Mtx).
Proof.
  unfold minute_file_sink.filename, minute_file_sink.on_file_helper, file_helper.filename.
  leaves.
Qed.

Lemma minute_leaves_delete_old_ : leaves_by P minute_file_sink.delete_old_.
Proof.
  unfold minute_file_sink.delete_old_, minute_file_sink.on_file_helper,
    file_helper.filename, minute_file_sink.failed_removing.
  leaves.
Qed.

Lemma minute_leaves_sink_it_ msg : leaves_by P (minute_file_sink.sink_it_ format msg).
Proof.
  pose proof minute_leaves_next_rotation_tp_. pose proof minute_leaves_delete_old_.
  unfold minute_file_sink.sink_it_, minute_file_sink.on_file_helper,
    file_helper.close, file_helper.filename.
  leaves.
Qed.

Lemma minute_leaves_log msg : leaves_by P (minute_file_sink.log Mtx format msg).
Proof.
  pose proof (minute_leaves_sink_it_ msg). unfold minute_file_sink.log. leaves.
Qed.

Lemma minute_leaves_flush : leaves_by P (minute_file_sink.flush Mtx).
Proof.
  unfold minute_file_sink.flush, minute_file_sink.flush_, minute_file_sink.on_file_helper.
  leaves.
Qed.

Lemma minute_leaves_probe_filenames room now filenames :
  leaves_by P (minute_file_sink.probe_filenames room now filenames).
Proof.
  revert now filenames. induction room as [|room IH]; intros now filenames; simpl.
  - apply leaves_ret.
  - unfold details_os.path_exists. leaves.
Qed.

Lemma minute_leaves_init_filenames_q_ : leaves_by P minute_file_sink.init_filenames_q_.
Proof.
  pose proof minute_leaves_probe_filenames.
  unfold minute_file_sink.init_filenames_q_, details_os.now. leaves.
Qed.

End sink_exceptions.

Lemma leaves_by_outcome {S A} (P : option error -> Prop) (m : M S A) (s : S) :
  leaves_by P m ->
  match fst (m s) with
  | returns _ => True
  | throws e => P (Some e)
  | blocks => P None
  end.
Proof. intros H. apply H. Qed.

(** A write through a sink built on [null_mutex] does not wait, for either
    sink. *)
Lemma log_null_mutex_never_blocks (FileNameCalc_ : FileNameCalc)
    (format : log_msg -> string) (msg : log_msg) :
  (forall st, fst (daily_file_sink.log null_mutex format msg st) <> blocks) /\
  (forall st, fst (minute_file_sink.log null_mutex format msg st) <> blocks).
Proof.
  split; intros st E.
  - pose proof (leaves_by_outcome (fun o => o <> None) _ st
                  (daily_leaves_log null_mutex format (fun o => o <> None)
                     ltac:(congruence) ltac:(congruence) ltac:(congruence) msg)) as H.
    rewrite E in H. now apply H.
  - pose proof (leaves_by_outcome (fun o => o <> None) _ st
                  (minute_leaves_log null_mutex format (fun o => o <> None)
                     ltac:(congruence) ltac:(congruence) ltac:(congruence) msg)) as H.
    rewrite E in H. now apply H.
Qed.

(** A write to the minute sink that finds the lock free does not wait: the
    minute sink reads the name of its file without the lock. *)
Lemma minute_log_never_blocks (Mtx : Mutex) (FileNameCalc_ : FileNameCalc)
    (format : log_msg -> string) (msg : log_msg) (w : World) (s : minute_file_sink.t) :
  minute_file_sink.mutex_ s = false ->
  fst (minute_file_sink.log Mtx format msg (w, s)) <> blocks.
Proof.
  intros Hfree. unfold minute_file_sink.log, lock_guard.
  pose proof (fun st => leaves_by_outcome (fun o => o <> None) _ st
                (minute_leaves_sink_it_ format (fun o => o <> None)
                   ltac:(congruence) ltac:(congruence) msg)) as H.
  destruct Mtx; [|intros E; specialize (H (w, s)); rewrite E in H; now apply H].
  simpl. rewrite Hfree.
  specialize (H (w, minute_file_sink.set_mutex_ true s)).
  destruct (minute_file_sink.sink_it_ format msg _) as [[a| e |] st']; simpl in *;
    congruence.
Qed.

(** C10. The constructor of either sink, given a rotation hour or minute out
    of range, throws the exception of the range check before it touches the
    machine; given values in range it does not throw this exception, and no
    later call of [log], [flush] or [filename] throws it, whatever the state
    of the sink and of the machine. *)
Theorem invalid_rotation_time_only_from_ctor (FileNameCalc_ : FileNameCalc) :
  (forall base rotation_hour rotation_minute truncate max_files delete_old tp w,
      (rotation_hour < 0 \/ 23 < rotation_hour \/ rotation_minute < 0 \/ 59 < rotation_minute
       -> daily_file_sink.ctor base rotation_hour rotation_minute truncate max_files
            delete_old tp w = (throws daily_file_sink.invalid_rotation_time, w))
      /\ (0 <= rotation_hour <= 23 /\ 0 <= rotation_minute <= 59
          -> fst (daily_file_sink.ctor base rotation_hour rotation_minute truncate max_files
                    delete_old tp w) <> throws daily_file_sink.invalid_rotation_time))
  /\ (forall Mtx format msg (st : World * daily_file_sink.t),
         fst (daily_file_sink.log Mtx format msg st)
           <> throws daily_file_sink.invalid_rotation_time
         /\ fst (daily_file_sink.flush Mtx st) <> throws daily_file_sink.invalid_rotation_time
         /\ fst (daily_file_sink.filename Mtx st)
              <> throws daily_file_sink.invalid_rotation_time)
  /\ (forall base truncate max_files rotation_minute w,
         (rotation_minute < 0 \/ 59 < rotation_minute
          -> minute_file_sink.ctor base truncate max_files rotation_minute w
             = (throws minute_file_sink.invalid_rotation_time, w))
         /\ (0 <= rotation_minute <= 59
             -> fst (minute_file_sink.ctor base truncate max_files rotation_minute w)
                <> throws minute_file_sink.invalid_rotation_time))
  /\ (forall Mtx format msg (st : World * minute_file_sink.t),
         fst (minute_file_sink.log Mtx format msg st)
           <> throws minute_file_sink.invalid_rotation_time
         /\ fst (minute_file_sink.flush Mtx st) <> throws minute_file_sink.invalid_rotation_time
         /\ fst (minute_file_sink.filename Mtx st)
              <> throws minute_file_sink.invalid_rotation_time).
Proof.
  assert (Hout : forall {S A} (m : M S A) s,
             leaves_by not_invalid_rotation_time m ->
             fst (m s) <> throws daily_file_sink.invalid_rotation_time).
  { intros S A m s Hm E. specialize (Hm s). rewrite E in Hm. now apply Hm. }
  assert (P_errno : forall msg e, not_invalid_rotation_time (Some (spdlog_ex msg (Some e))))
    by discriminate.
  assert (P_queue : not_invalid_rotation_time (Some EmptyQueueError)) by discriminate.
  assert (P_blocks : not_invalid_rotation_time None) by discriminate.
  repeat split.
  - intros Hrange.
    assert (Hcheck : (rotation_hour <? 0) || (23 <? rotation_hour)
                     || (rotation_minute <? 0) || (59 <? rotation_minute) = true).
    { rewrite !orb_true_iff, !Z.ltb_lt. tauto. }
    unfold daily_file_sink.ctor, construct. exec. now rewrite Hcheck.
  - intros Hrange.
    assert (Hcheck : (rotation_hour <? 0) || (23 <? rotation_hour)
                     || (rotation_minute <? 0) || (59 <? rotation_minute) = false).
    { rewrite !orb_false_iff, !Z.ltb_ge. lia. }
    unfold daily_file_sink.ctor. rewrite Hcheck. apply Hout.
    assert (leaves_by not_invalid_rotation_time daily_file_sink.next_rotation_tp_)
      by (apply daily_leaves_next_rotation_tp_; auto).
    assert (leaves_by not_invalid_rotation_time
              (daily_file_sink.init_filenames_q_ delete_old))
      by (apply daily_leaves_init_filenames_q_; auto).
    assert (forall fname, leaves_by not_invalid_rotation_time
                            (file_helper.open fname truncate))
      by (intros; apply leaves_file_helper_open; auto).
    unfold daily_file_sink.on_file_helper. apply leaves_construct. leaves.
  - apply Hout. apply daily_leaves_log; auto.
  - apply Hout. apply daily_leaves_flush; auto.
  - apply Hout. apply daily_leaves_filename; auto.
  - intros Hrange.
    assert (Hcheck : (rotation_minute <? 0) || (59 <? rotation_minute) = true).
    { rewrite !orb_true_iff, !Z.ltb_lt. tauto. }
    unfold minute_file_sink.ctor, construct. exec. now rewrite Hcheck.
  - intros Hrange.
    assert (Hcheck : (rotation_minute <? 0) || (59 <? rotation_minute) = false).
    { rewrite !orb_false_iff, !Z.ltb_ge. lia. }
    unfold minute_file_sink.ctor. rewrite Hcheck. apply Hout.
    assert (leaves_by not_invalid_rotation_time minute_file_sink.next_rotation_tp_)
      by (apply minute_leaves_next_rotation_tp_; auto).
    assert (leaves_by not_invalid_rotation_time minute_file_sink.init_filenames_q_)
      by (apply minute_leaves_init_filenames_q_; auto).
    assert (forall fname, leaves_by not_invalid_rotation_time
                            (file_helper.open fname truncate))
      by (intros; apply leaves_file_helper_open; auto).
    unfold minute_file_sink.on_file_helper, file_helper.size, details_os.now.
    apply leaves_construct. leaves.
  - apply Hout. apply minute_leaves_log; auto.
  - apply Hout. apply minute_leaves_flush; auto.
  - apply Hout. apply minute_leaves_filename; auto.
Qed.
(** ** The lock *)

Section daily_lock.
Context {FileNameCalc_ : FileNameCalc}.
Variable format : log_msg -> string.

(** C5, at the input on which the code fails. A write to the daily sink built
    on [std::mutex], with a free lock, that rotates and has a bound on the
    files to keep, never returns: [log] holds the lock, and [delete_old_]
    asks for it again through the public [filename()]. *)
Theorem daily_log_blocks (w : World) (s : daily_file_sink.t) (msg : log_msg) :
  daily_file_sink.mutex_ s = false ->
  daily_file_sink.rotation_tp_ s <= msg_time msg ->
  (0 < daily_file_sink.max_files_ s)%nat ->
  open_errno w (calc_filename (daily_file_sink.base_filename_ s)
                  (now_tm (utc_offset w) (msg_time msg))) = None ->
  write_errno w (calc_filename (daily_file_sink.base_filename_ s)
                   (now_tm (utc_offset w) (msg_time msg))) = None ->
  fst (daily_file_sink.log std_mutex format msg (w, s)) = blocks.
Proof.
  destruct s as [base h m tp [fname fd] tr mf q mx].
  intros Hmx Htp Hmf Hopen Hwrite. exec. subst mx.
  apply Z.leb_le in Htp. apply Nat.ltb_lt in Hmf.
  unfold daily_file_sink.log, daily_file_sink.sink_it_, lock_guard,
    daily_file_sink.on_file_helper, file_helper.open, file_helper.close,
    file_helper.write,
    daily_file_sink.delete_old_, daily_file_sink.filename, lock_guard.
  run; reflexivity || congruence.
Qed.

End daily_lock.


Lemma daily_log_blocks_witness :
  fst (scenario.daily_log std_mutex (scenario.t0 + scenario.day) scenario.daily_st0) = blocks.
Proof.
  apply (daily_log_blocks (FileNameCalc_ := daily_filename_calculator.calc)
           scenario.format (set_clock (scenario.t0 + scenario.day) (fst scenario.daily_st0))
           (snd scenario.daily_st0)
           (mk_log_msg (scenario.t0 + scenario.day) "line")).
  - reflexivity.
  - vm_compute. discriminate.
  - vm_compute. lia.
  - reflexivity.
  - reflexivity.
Defined.
(** ** The eviction step *)

Lemma events_since_app w l : drop (length (trace w)) (trace w ++ l) = l.
Proof. apply drop_app_length. Qed.

(** The file of the rotation is among the files opened since the write
    began. *)
Ltac opened :=
  unfold events_since; exec; rewrite <- ?app_assoc; rewrite ?events_since_app;
  simpl; auto 10.

(** C1, as amended. When the eviction step pops the oldest name of a full
    queue and cannot delete that file, it pushes the name of the current file
    and throws an exception that carries the popped name and the error number
    of the failed deletion; no file is deleted. The queue is then the old
    queue without its first entry, followed by the name of the current file:
    the popped name is not put back in the oldest place, and it is in the
    queue afterwards only if it is the name of the current file as well or
    was in the queue a second time. This holds for the minute sink, and for
    the daily sink built on [null_mutex]. *)
Theorem failed_delete_pushes_current_file :
  (forall (w : World) (s : daily_file_sink.t) (old : string) (e : Z),
      circular_q.full (daily_file_sink.filenames_q_ s) = true ->
      circular_q.front (daily_file_sink.filenames_q_ s) = Some old ->
      is_Some (files w !! old) ->
      remove_errno w old = Some e ->
      let current := file_helper.filename_ (daily_file_sink.file_helper_ s) in
      let rest := tail (circular_q.items (daily_file_sink.filenames_q_ s)) in
      let r := daily_file_sink.delete_old_ null_mutex (w, s) in
      r = (throws (daily_file_sink.failed_removing old e),
           (record_event (ev_remove old (Some e)) (set_errno e w),
            daily_file_sink.set_filenames_q_
              (circular_q.mk (circular_q.max_items (daily_file_sink.filenames_q_ s))
                 (rest ++ [current])) s))
      /\ files (fst (snd r)) = files w
      /\ (In old (circular_q.items (daily_file_sink.filenames_q_ (snd (snd r)))) ->
          old = current \/ In old rest))
  /\
  (forall (w : World) (s : minute_file_sink.t) (old : string) (e : Z),
      circular_q.full (minute_file_sink.filenames_q_ s) = true ->
      circular_q.front (minute_file_sink.filenames_q_ s) = Some old ->
      is_Some (files w !! old) ->
      remove_errno w old = Some e ->
      let current := file_helper.filename_ (minute_file_sink.file_helper_ s) in
      let rest := tail (circular_q.items (minute_file_sink.filenames_q_ s)) in
      let r := minute_file_sink.delete_old_ (w, s) in
      r = (throws (minute_file_sink.failed_removing old e),
           (record_event (ev_remove old (Some e)) (set_errno e w),
            minute_file_sink.set_filenames_q_
              (circular_q.mk (circular_q.max_items (minute_file_sink.filenames_q_ s))
                 (rest ++ [current])) s))
      /\ files (fst (snd r)) = files w
      /\ (In old (circular_q.items (minute_file_sink.filenames_q_ (snd (snd r)))) ->
          old = current \/ In old rest)).
Proof.
  split.
  - intros w s old e Hfull Hfront Hdisk He current rest r.
    assert (Hr : r = (throws (daily_file_sink.failed_removing old e),
                      (record_event (ev_remove old (Some e)) (set_errno e w),
                       daily_file_sink.set_filenames_q_
                         (circular_q.mk
                            (circular_q.max_items (daily_file_sink.filenames_q_ s))
                            (rest ++ [current])) s))).
    { subst r rest current. revert Hfull Hfront Hdisk.
      destruct s as [base h m tp [fname fd] tr mf [cap items] mx].
      intros Hfull Hfront [c Hc].
      unfold daily_file_sink.delete_old_, daily_file_sink.filename, lock_guard,
        daily_file_sink.on_file_helper, file_helper.filename,
        details_os.remove_if_exists, details_os.remove, details_os.path_exists.
      run. now rewrite (pop_front_push_back _ _ _ Hfull). }
    split; [exact Hr|]. rewrite Hr. split; [reflexivity|].
    destruct s as [base h m tp [fname fd] tr mf [cap items] mx]. simpl.
    intros Hin. apply in_app_or in Hin. destruct Hin as [Hin|[E|[]]]; auto.
  - intros w s old e Hfull Hfront Hdisk He current rest r.
    assert (Hr : r = (throws (minute_file_sink.failed_removing old e),
                      (record_event (ev_remove old (Some e)) (set_errno e w),
                       minute_file_sink.set_filenames_q_
                         (circular_q.mk
                            (circular_q.max_items (minute_file_sink.filenames_q_ s))
                            (rest ++ [current])) s))).
    { subst r rest current. revert Hfull Hfront Hdisk.
      destruct s as [base tp [fname fd] tr mf rm [cap items] ri mx].
      intros Hfull Hfront [c Hc].
      unfold minute_file_sink.delete_old_,
        minute_file_sink.on_file_helper, file_helper.filename,
        details_os.remove_if_exists, details_os.remove, details_os.path_exists.
      run. now rewrite (pop_front_push_back _ _ _ Hfull). }
    split; [exact Hr|]. rewrite Hr. split; [reflexivity|].
    destruct s as [base tp [fname fd] tr mf rm [cap items] ri mx]. simpl.
    intros Hin. apply in_app_or in Hin. destruct Hin as [Hin|[E|[]]]; auto.
Qed.

Lemma full_front cap items :
  circular_q.full (circular_q.mk cap items) = true ->
  exists old, circular_q.front (circular_q.mk cap items) = Some old.
Proof.
  unfold circular_q.full, circular_q.front. simpl. intros H.
  apply andb_true_iff in H. destruct H as [Hcap Hlen].
  apply Nat.ltb_lt in Hcap. apply Nat.eqb_eq in Hlen.
  destruct items; simpl in *; [lia | eauto].
Qed.

(** C2, as amended. When a write rotates, the file is opened and written, a
    bound on the files to keep is set, and the eviction step deletes the
    oldest file of a full queue or finds the queue not full, the name pushed
    onto the queue is the name computed from the time of the record: the
    name of the file that this write has opened, and of the current file
    when the write returns. The queue is then the old queue, without its
    first entry when it was full, followed by that name. This holds for the
    minute sink, and for the daily sink built on [null_mutex]. *)
Theorem rotation_pushes_new_file :
  (forall (FileNameCalc_ : FileNameCalc) (format : log_msg -> string)
          (w : World) (s : daily_file_sink.t) (msg : log_msg),
      daily_file_sink.rotation_tp_ s <= msg_time msg ->
      (0 < daily_file_sink.max_files_ s)%nat ->
      circular_q.max_items (daily_file_sink.filenames_q_ s) = daily_file_sink.max_files_ s ->
      open_errno w (calc_filename (daily_file_sink.base_filename_ s)
                      (now_tm (utc_offset w) (msg_time msg))) = None ->
      write_errno w (calc_filename (daily_file_sink.base_filename_ s)
                       (now_tm (utc_offset w) (msg_time msg))) = None ->
      (forall old, circular_q.full (daily_file_sink.filenames_q_ s) = true ->
                   circular_q.front (daily_file_sink.filenames_q_ s) = Some old ->
                   remove_errno w old = None) ->
      exists w' s',
        daily_file_sink.log null_mutex format msg (w, s) = (returns tt, (w', s')) /\
        In (ev_fopen (calc_filename (daily_file_sink.base_filename_ s)
                        (now_tm (utc_offset w) (msg_time msg)))
              (daily_file_sink.truncate_ s) None) (events_since w w') /\
        file_helper.filename_ (daily_file_sink.file_helper_ s') =
          calc_filename (daily_file_sink.base_filename_ s)
            (now_tm (utc_offset w) (msg_time msg)) /\
        circular_q.items (daily_file_sink.filenames_q_ s') =
          (if circular_q.full (daily_file_sink.filenames_q_ s)
           then tail (circular_q.items (daily_file_sink.filenames_q_ s))
           else circular_q.items (daily_file_sink.filenames_q_ s))
          ++ [calc_filename (daily_file_sink.base_filename_ s)
                (now_tm (utc_offset w) (msg_time msg))])
  /\
  (forall (Mtx : Mutex) (FileNameCalc_ : FileNameCalc) (format : log_msg -> string)
          (w : World) (s : minute_file_sink.t) (msg : log_msg),
      minute_file_sink.mutex_ s = false ->
      minute_file_sink.rotation_tp_ s <= msg_time msg ->
      (0 < minute_file_sink.max_files_ s)%nat ->
      circular_q.max_items (minute_file_sink.filenames_q_ s) = minute_file_sink.max_files_ s ->
      open_errno w (calc_filename (minute_file_sink.base_filename_ s)
                      (now_tm (utc_offset w) (msg_time msg))) = None ->
      write_errno w (calc_filename (minute_file_sink.base_filename_ s)
                       (now_tm (utc_offset w) (msg_time msg))) = None ->
      (forall old, circular_q.full (minute_file_sink.filenames_q_ s) = true ->
                   circular_q.front (minute_file_sink.filenames_q_ s) = Some old ->
                   remove_errno w old = None) ->
      exists w' s',
        minute_file_sink.log Mtx format msg (w, s) = (returns tt, (w', s')) /\
        In (ev_fopen (calc_filename (minute_file_sink.base_filename_ s)
                        (now_tm (utc_offset w) (msg_time msg)))
              (minute_file_sink.truncate_ s) None) (events_since w w') /\
        file_helper.filename_ (minute_file_sink.file_helper_ s') =
          calc_filename (minute_file_sink.base_filename_ s)
            (now_tm (utc_offset w) (msg_time msg)) /\
        circular_q.items (minute_file_sink.filenames_q_ s') =
          (if circular_q.full (minute_file_sink.filenames_q_ s)
           then tail (circular_q.items (minute_file_sink.filenames_q_ s))
           else circular_q.items (minute_file_sink.filenames_q_ s))
          ++ [calc_filename (minute_file_sink.base_filename_ s)
                (now_tm (utc_offset w) (msg_time msg))]).
Proof.
  split.
  - intros FNC format w [base h m tp [fname fd] tr mf [cap items] mx] msg
      Htp Hmf Hcap Hopen Hwrite Hrm.
    exec. subst cap. apply Z.leb_le in Htp. pose proof Hmf as Hmf'. apply Nat.ltb_lt in Hmf'.
    destruct (circular_q.full (circular_q.mk mf items)) eqn:Hfull.
    + destruct (full_front _ _ Hfull) as [old Hfront].
      specialize (Hrm old eq_refl Hfront).
      unfold daily_file_sink.log, daily_file_sink.sink_it_, lock_guard,
        daily_file_sink.on_file_helper, file_helper.open, file_helper.close,
        daily_file_sink.next_rotation_tp_, file_helper.write,
        daily_file_sink.delete_old_, daily_file_sink.filename, lock_guard,
        file_helper.filename,
        details_os.remove_if_exists, details_os.remove, details_os.path_exists.
      run.
      all: do 2 eexists; split; [reflexivity|]; split; [opened|]; split; [reflexivity|].
      all: exec; now rewrite (pop_front_push_back _ _ _ Hfull).
    + clear Hrm.
      unfold daily_file_sink.log, daily_file_sink.sink_it_, lock_guard,
        daily_file_sink.on_file_helper, file_helper.open, file_helper.close,
        daily_file_sink.next_rotation_tp_, file_helper.write,
        daily_file_sink.delete_old_, daily_file_sink.filename, lock_guard,
        file_helper.filename.
      run.
      all: do 2 eexists; split; [reflexivity|]; split; [opened|]; split; [reflexivity|].
      all: exec; now rewrite (push_back_not_full _ _ _ Hmf Hfull).
  - intros Mtx FNC format w [base tp [fname fd] tr mf rm [cap items] ri mx] msg
      Hmx Htp Hmf Hcap Hopen Hwrite Hrm.
    exec. subst cap mx. apply Z.leb_le in Htp. pose proof Hmf as Hmf'. apply Nat.ltb_lt in Hmf'.
    destruct (circular_q.full (circular_q.mk mf items)) eqn:Hfull.
    + destruct (full_front _ _ Hfull) as [old Hfront].
      specialize (Hrm old eq_refl Hfront).
      unfold minute_file_sink.log, minute_file_sink.sink_it_, lock_guard,
        minute_file_sink.on_file_helper, file_helper.open, file_helper.close,
        minute_file_sink.next_rotation_tp_, file_helper.write,
        minute_file_sink.delete_old_, file_helper.filename,
        details_os.remove_if_exists, details_os.remove, details_os.path_exists.
      destruct Mtx; run.
      all: do 2 eexists; split; [reflexivity|]; split; [opened|]; split; [reflexivity|].
      all: exec; now rewrite (pop_front_push_back _ _ _ Hfull).
    + clear Hrm.
      unfold minute_file_sink.log, minute_file_sink.sink_it_, lock_guard,
        minute_file_sink.on_file_helper, file_helper.open, file_helper.close,
        minute_file_sink.next_rotation_tp_, file_helper.write,
        minute_file_sink.delete_old_, file_helper.filename,
        details_os.remove.
      destruct Mtx; run.
      all: do 2 eexists; split; [reflexivity|]; split; [opened|]; split; [reflexivity|].
      all: exec; now rewrite (push_back_not_full _ _ _ Hmf Hfull).
Qed.
(** ** Writing before evicting *)

Lemma fopen_files_lookup fname truncate fs :
  exists content, file_helper.fopen_files fname truncate fs !! fname = Some content.
Proof.
  unfold file_helper.fopen_files. destruct truncate.
  - exists "". apply lookup_insert_eq.
  - destruct (fs !! fname) as [c|] eqn:E; [eauto|].
    exists "". apply lookup_insert_eq.
Qed.

Lemma appended_lookup fname truncate fs data :
  exists before,
    alter (fun content => content +:+ data) fname
      (file_helper.fopen_files fname truncate fs) !! fname = Some (before +:+ data).
Proof.
  destruct (fopen_files_lookup fname truncate fs) as [c Hc].
  exists c. rewrite lookup_alter_eq, Hc. reflexivity.
Qed.

Lemma snoc_snoc {A} (l : list A) (a b : A) : (l ++ [a]) ++ [b] = l ++ [a; b].
Proof. now rewrite <- app_assoc. Qed.

(** The closing steps of the proofs below: the exception of the goal is the
    one of the hypothesis or the case is impossible; then the record is in
    the file and the trace ends with the write and the failed deletion. *)
Ltac retention_error_case :=
  let H := fresh in
  intros H; exec_messages; simplify_eq; exec;
  match goal with
  | |- exists _ _, alter _ ?f (file_helper.fopen_files ?f ?tr ?fs) !! ?f
                    = Some (_ +:+ ?data) /\ _ =>
      let c := fresh in let Hc := fresh in
      destruct (appended_lookup f tr fs data) as [c Hc];
      exists c; eexists; split; [exact Hc | apply snoc_snoc]
  end.

(** C7. A write that leaves with the exception of a failed deletion has
    appended the bytes of the formatted record to the current file before:
    the file holds them at its end, and the last two calls to the operating
    system are the successful write of these bytes and the failed deletion. *)
Theorem retention_error_after_write :
  (forall (Mtx : Mutex) (FileNameCalc_ : FileNameCalc) (format : log_msg -> string)
          (w : World) (s : daily_file_sink.t) (msg : log_msg)
          (old : string) (e : Z) (w' : World) (s' : daily_file_sink.t),
      daily_file_sink.log Mtx format msg (w, s) =
        (throws (daily_file_sink.failed_removing old e), (w', s')) ->
      exists before pre,
        files w' !! file_helper.filename_ (daily_file_sink.file_helper_ s') =
          Some (before +:+ format msg) /\
        trace w' =
          pre ++ [ev_fwrite (file_helper.filename_ (daily_file_sink.file_helper_ s'))
                    (format msg) None;
                  ev_remove old (Some e)])
  /\
  (forall (Mtx : Mutex) (FileNameCalc_ : FileNameCalc) (format : log_msg -> string)
          (w : World) (s : minute_file_sink.t) (msg : log_msg)
          (old : string) (e : Z) (w' : World) (s' : minute_file_sink.t),
      minute_file_sink.log Mtx format msg (w, s) =
        (throws (minute_file_sink.failed_removing old e), (w', s')) ->
      exists before pre,
        files w' !! file_helper.filename_ (minute_file_sink.file_helper_ s') =
          Some (before +:+ format msg) /\
        trace w' =
          pre ++ [ev_fwrite (file_helper.filename_ (minute_file_sink.file_helper_ s'))
                    (format msg) None;
                  ev_remove old (Some e)]).
Proof.
  split.
  - intros Mtx FNC format w [base h m tp [fname fd] tr mf q mx] msg old e w' s'.
    unfold daily_file_sink.log, daily_file_sink.sink_it_, lock_guard,
      daily_file_sink.on_file_helper, file_helper.open, file_helper.close,
      file_helper.write, daily_file_sink.delete_old_, daily_file_sink.filename,
      lock_guard, file_helper.filename, daily_file_sink.failed_removing,
      details_os.remove_if_exists, details_os.remove, details_os.path_exists.
    destruct Mtx; run.
    all: retention_error_case.
  - intros Mtx FNC format w [base tp [fname fd] tr mf rm q ri mx] msg old e w' s'.
    unfold minute_file_sink.log, minute_file_sink.sink_it_, lock_guard,
      minute_file_sink.on_file_helper, file_helper.open, file_helper.close,
      file_helper.write, minute_file_sink.delete_old_,
      file_helper.filename, minute_file_sink.failed_removing,
      details_os.remove_if_exists, details_os.remove, details_os.path_exists.
    destruct Mtx; run.
    all: retention_error_case.
Qed.
(** ** When a write rotates *)

(** Bring a list of calls, built by appending one call after the other, to
    the form of a list. *)
Ltac events :=
  unfold events_since; exec; rewrite <- ?app_assoc; rewrite ?events_since_app;
  try rewrite <- (app_nil_r (trace _)) at 2; rewrite ?events_since_app; simpl.

Ltac no_fopen H :=
  repeat (apply Exists_cons in H; destruct H as [H|H]; [destruct H|]);
  apply Exists_nil in H; destruct H.

Ltac some_fopen :=
  repeat first [apply Exists_cons_hd; exact I | apply Exists_cons_tl].

Ltac rotation_case :=
  repeat split; intros; try lia; try congruence; try reflexivity;
  try some_fopen; try (simpl; auto 10; fail);
  try match goal with H : Exists _ _ |- _ => no_fopen H end.

(** The daily sink. A write that finds the lock free opens a file
    exactly when the time of the record is at or after the rotation point.
    It then opens the file named after the time of the record, which becomes
    the current file, and when the file is open the new rotation point is
    the one computed from the clock of the machine, in which the time of the
    record does not occur. *)
Lemma daily_rotates_iff_due (Mtx : Mutex) (FileNameCalc_ : FileNameCalc)
    (format : log_msg -> string) (w : World) (s : daily_file_sink.t) (msg : log_msg) :
  daily_file_sink.mutex_ s = false ->
  let st' := snd (daily_file_sink.log Mtx format msg (w, s)) in
  let filename :=
    calc_filename (daily_file_sink.base_filename_ s) (now_tm (utc_offset w) (msg_time msg)) in
  (Exists is_fopen (events_since w (fst st')) <-> daily_file_sink.rotation_tp_ s <= msg_time msg)
  /\ (msg_time msg < daily_file_sink.rotation_tp_ s ->
      daily_file_sink.file_helper_ (snd st') = daily_file_sink.file_helper_ s /\
      daily_file_sink.rotation_tp_ (snd st') = daily_file_sink.rotation_tp_ s)
  /\ (daily_file_sink.rotation_tp_ s <= msg_time msg ->
      In (ev_fopen filename (daily_file_sink.truncate_ s) (open_errno w filename))
         (events_since w (fst st')) /\
      file_helper.filename_ (daily_file_sink.file_helper_ (snd st')) = filename /\
      (open_errno w filename = None ->
       daily_file_sink.rotation_tp_ (snd st') =
       daily_rotation_point (utc_offset w) (clock w)
         (daily_file_sink.rotation_h_ s) (daily_file_sink.rotation_m_ s))).
Proof.
  destruct s as [base h m tp [fname fd] tr mf q mx]. intros Hmx. exec. subst mx.
  destruct (daily_file_sink.log _ _ _ _) as [r [w' s']] eqn:E. exec. revert E.
  unfold daily_file_sink.log, daily_file_sink.sink_it_, lock_guard,
    daily_file_sink.on_file_helper, file_helper.open, file_helper.close,
    file_helper.write, daily_file_sink.delete_old_, daily_file_sink.filename,
    lock_guard, file_helper.filename,
    details_os.remove_if_exists, details_os.remove, details_os.path_exists.
  destruct (Z.leb_spec tp (msg_time msg)) as [Htp|Htp];
    (destruct Mtx; run; intros E; simplify_eq; events; rotation_case).
Qed.

(** The minute sink: the same. *)
Lemma minute_rotates_iff_due (Mtx : Mutex) (FileNameCalc_ : FileNameCalc)
    (format : log_msg -> string) (w : World) (s : minute_file_sink.t) (msg : log_msg) :
  minute_file_sink.mutex_ s = false ->
  let st' := snd (minute_file_sink.log Mtx format msg (w, s)) in
  let filename :=
    calc_filename (minute_file_sink.base_filename_ s) (now_tm (utc_offset w) (msg_time msg)) in
  (Exists is_fopen (events_since w (fst st')) <-> minute_file_sink.rotation_tp_ s <= msg_time msg)
  /\ (msg_time msg < minute_file_sink.rotation_tp_ s ->
      minute_file_sink.file_helper_ (snd st') = minute_file_sink.file_helper_ s /\
      minute_file_sink.rotation_tp_ (snd st') = minute_file_sink.rotation_tp_ s)
  /\ (minute_file_sink.rotation_tp_ s <= msg_time msg ->
      In (ev_fopen filename (minute_file_sink.truncate_ s) (open_errno w filename))
         (events_since w (fst st')) /\
      file_helper.filename_ (minute_file_sink.file_helper_ (snd st')) = filename /\
      (open_errno w filename = None ->
       minute_file_sink.rotation_tp_ (snd st') =
       minute_rotation_point (utc_offset w) (clock w) (minute_file_sink.rotation_m_ s))).
Proof.
  destruct s as [base tp [fname fd] tr mf rm q ri mx]. intros Hmx. exec. subst mx.
  destruct (minute_file_sink.log _ _ _ _) as [r [w' s']] eqn:E. exec. revert E.
  unfold minute_file_sink.log, minute_file_sink.sink_it_, lock_guard,
    minute_file_sink.on_file_helper, file_helper.open, file_helper.close,
    file_helper.write, minute_file_sink.delete_old_, file_helper.filename,
    details_os.remove_if_exists, details_os.remove, details_os.path_exists.
  destruct (Z.leb_spec tp (msg_time msg)) as [Htp|Htp];
    (destruct Mtx; run; intros E; simplify_eq; events; rotation_case).
Qed.

(** C8. For both sinks, a write that finds the lock free opens a file exactly
    when the time of the record is at or after the rotation point. It then
    opens the file named after the time of the record, which becomes the
    current file, and when the file is open the new rotation point is the
    one computed from the clock of the machine and the parameters of the
    sink, in which the time of the record does not occur. A write before the
    rotation point keeps the file and the rotation point. *)
Theorem rotates_iff_due (Mtx : Mutex) (FileNameCalc_ : FileNameCalc)
    (format : log_msg -> string) (w : World) (msg : log_msg) :
  (forall s : daily_file_sink.t,
      daily_file_sink.mutex_ s = false ->
      let st' := snd (daily_file_sink.log Mtx format msg (w, s)) in
      let filename :=
        calc_filename (daily_file_sink.base_filename_ s)
          (now_tm (utc_offset w) (msg_time msg)) in
      (Exists is_fopen (events_since w (fst st'))
       <-> daily_file_sink.rotation_tp_ s <= msg_time msg)
      /\ (msg_time msg < daily_file_sink.rotation_tp_ s ->
          daily_file_sink.file_helper_ (snd st') = daily_file_sink.file_helper_ s /\
          daily_file_sink.rotation_tp_ (snd st') = daily_file_sink.rotation_tp_ s)
      /\ (daily_file_sink.rotation_tp_ s <= msg_time msg ->
          In (ev_fopen filename (daily_file_sink.truncate_ s) (open_errno w filename))
             (events_since w (fst st')) /\
          file_helper.filename_ (daily_file_sink.file_helper_ (snd st')) = filename /\
          (open_errno w filename = None ->
           daily_file_sink.rotation_tp_ (snd st') =
           daily_rotation_point (utc_offset w) (clock w)
             (daily_file_sink.rotation_h_ s) (daily_file_sink.rotation_m_ s))))
  /\
  (forall s : minute_file_sink.t,
      minute_file_sink.mutex_ s = false ->
      let st' := snd (minute_file_sink.log Mtx format msg (w, s)) in
      let filename :=
        calc_filename (minute_file_sink.base_filename_ s)
          (now_tm (utc_offset w) (msg_time msg)) in
      (Exists is_fopen (events_since w (fst st'))
       <-> minute_file_sink.rotation_tp_ s <= msg_time msg)
      /\ (msg_time msg < minute_file_sink.rotation_tp_ s ->
          minute_file_sink.file_helper_ (snd st') = minute_file_sink.file_helper_ s /\
          minute_file_sink.rotation_tp_ (snd st') = minute_file_sink.rotation_tp_ s)
      /\ (minute_file_sink.rotation_tp_ s <= msg_time msg ->
          In (ev_fopen filename (minute_file_sink.truncate_ s) (open_errno w filename))
             (events_since w (fst st')) /\
          file_helper.filename_ (minute_file_sink.file_helper_ (snd st')) = filename /\
          (open_errno w filename = None ->
           minute_file_sink.rotation_tp_ (snd st') =
           minute_rotation_point (utc_offset w) (clock w)
             (minute_file_sink.rotation_m_ s)))).
Proof.
  split; intros s Hmx.
  - now apply daily_rotates_iff_due.
  - now apply minute_rotates_iff_due.
Qed.
(** ** The properties on the scenarios *)

Lemma failed_delete_pushes_current_file_witness :
  (fst (daily_file_sink.delete_old_ null_mutex
          (fst scenario.daily_evicting, snd scenario.daily_evicting))
   = throws (daily_file_sink.failed_removing scenario.daily_05 scenario.EACCES)
   /\ circular_q.items (daily_file_sink.filenames_q_ (snd scenario.daily_evicting))
      = [scenario.daily_05; scenario.daily_06]
   /\ circular_q.items
        (daily_file_sink.filenames_q_
           (snd (snd (daily_file_sink.delete_old_ null_mutex
                        (fst scenario.daily_evicting, snd scenario.daily_evicting)))))
      = [scenario.daily_06; scenario.daily_07])
  /\ (fst (minute_file_sink.delete_old_
             (fst scenario.minute_evicting, snd scenario.minute_evicting))
      = throws (minute_file_sink.failed_removing scenario.min_30 scenario.EACCES)
      /\ circular_q.items (minute_file_sink.filenames_q_ (snd scenario.minute_evicting))
         = [scenario.min_30; scenario.min_31]
      /\ circular_q.items
           (minute_file_sink.filenames_q_
              (snd (snd (minute_file_sink.delete_old_
                           (fst scenario.minute_evicting, snd scenario.minute_evicting)))))
         = [scenario.min_31; scenario.min_32]).
Proof.
  split.
  - assert (Hfull : circular_q.full
                      (daily_file_sink.filenames_q_ (snd scenario.daily_evicting))
                    = true) by (vm_compute; reflexivity).
    assert (Hfront : circular_q.front
                       (daily_file_sink.filenames_q_ (snd scenario.daily_evicting))
                     = Some scenario.daily_05) by (vm_compute; reflexivity).
    assert (Hdisk : is_Some (files (fst scenario.daily_evicting) !! scenario.daily_05))
      by (exists "kept"; vm_compute; reflexivity).
    assert (Herr : remove_errno (fst scenario.daily_evicting) scenario.daily_05
                   = Some scenario.EACCES) by (vm_compute; reflexivity).
    pose proof (proj1 failed_delete_pushes_current_file
                  (fst scenario.daily_evicting) (snd scenario.daily_evicting)
                  scenario.daily_05 scenario.EACCES Hfull Hfront Hdisk Herr) as H.
    cbv zeta in H. destruct H as (H & _ & _). rewrite H.
    split; [reflexivity | split; vm_compute; reflexivity].
  - assert (Hfull : circular_q.full
                      (minute_file_sink.filenames_q_ (snd scenario.minute_evicting))
                    = true) by (vm_compute; reflexivity).
    assert (Hfront : circular_q.front
                       (minute_file_sink.filenames_q_ (snd scenario.minute_evicting))
                     = Some scenario.min_30) by (vm_compute; reflexivity).
    assert (Hdisk : is_Some (files (fst scenario.minute_evicting) !! scenario.min_30))
      by (exists "kept"; vm_compute; reflexivity).
    assert (Herr : remove_errno (fst scenario.minute_evicting) scenario.min_30
                   = Some scenario.EACCES) by (vm_compute; reflexivity).
    pose proof (proj2 failed_delete_pushes_current_file
                  (fst scenario.minute_evicting) (snd scenario.minute_evicting)
                  scenario.min_30 scenario.EACCES Hfull Hfront Hdisk Herr) as H.
    cbv zeta in H. destruct H as (H & _ & _). rewrite H.
    split; [reflexivity | split; vm_compute; reflexivity].
Defined.

(** C1, as stated, fails. A minute sink keeps two files and its queue holds
    the names of 14:30 and 14:31. The write at 14:32 rotates and cannot
    delete the file of 14:30. Afterwards the queue is not what it was before
    the pop: the name of 14:30 is gone and the name of 14:32 is the newest.
    The write at 14:33 rotates again and deletes the file of 14:31; the file
    of 14:30 is not touched again. *)
Lemma failed_delete_forgets_oldest_name :
  let before := scenario.minute_st1 in
  let failed := scenario.minute_log (scenario.t0 + 2 * scenario.minute) before in
  let next := scenario.minute_log (scenario.t0 + 3 * scenario.minute) (snd failed) in
  circular_q.items (minute_file_sink.filenames_q_ (snd before))
    = [scenario.min_30; scenario.min_31]
  /\ fst failed = throws (minute_file_sink.failed_removing scenario.min_30 scenario.EACCES)
  /\ circular_q.items (minute_file_sink.filenames_q_ (snd (snd failed)))
     = [scenario.min_31; scenario.min_32]
  /\ circular_q.items (minute_file_sink.filenames_q_ (snd (snd failed)))
     <> circular_q.items (minute_file_sink.filenames_q_ (snd before))
  /\ fst next = returns tt
  /\ events_since (fst (snd failed)) (fst (snd next))
     = [ev_fclose scenario.min_32; ev_fopen scenario.min_33 false None;
        ev_fwrite scenario.min_33 (scenario.format (mk_log_msg 0 "line")) None;
        ev_remove scenario.min_31 None].
Proof. vm_compute. repeat split; try reflexivity. discriminate. Qed.

Lemma rotation_pushes_new_file_witness :
  ((exists w' s',
       daily_file_sink.log (FileNameCalc_ := daily_filename_calculator.calc)
         null_mutex scenario.format (mk_log_msg (scenario.t0 + scenario.day) "line")
         (set_clock (scenario.t0 + scenario.day) (fst scenario.daily_st0),
          snd scenario.daily_st0) = (returns tt, (w', s')) /\
       circular_q.items (daily_file_sink.filenames_q_ s')
       = [scenario.daily_05; scenario.daily_06])
   /\ (exists w' s',
          daily_file_sink.log (FileNameCalc_ := daily_filename_calculator.calc)
            null_mutex scenario.format (mk_log_msg (scenario.t0 + scenario.day) "line")
            (set_clock (scenario.t0 + scenario.day) (fst scenario.single_daily_st0),
             snd scenario.single_daily_st0) = (returns tt, (w', s')) /\
          circular_q.items (daily_file_sink.filenames_q_ s') = [scenario.daily_06]))
  /\
  ((exists w' s',
       minute_file_sink.log (FileNameCalc_ := minute_filename_calculator.calc)
         std_mutex scenario.format (mk_log_msg (scenario.t0 + scenario.minute) "line")
         (set_clock (scenario.t0 + scenario.minute) (fst scenario.minute_st0),
          snd scenario.minute_st0) = (returns tt, (w', s')) /\
       circular_q.items (minute_file_sink.filenames_q_ s')
       = [scenario.min_30; scenario.min_31])
   /\ (exists w' s',
          minute_file_sink.log (FileNameCalc_ := minute_filename_calculator.calc)
            std_mutex scenario.format (mk_log_msg (scenario.t0 + scenario.minute) "line")
            (set_clock (scenario.t0 + scenario.minute) (fst scenario.single_minute_st0),
             snd scenario.single_minute_st0) = (returns tt, (w', s')) /\
          circular_q.items (minute_file_sink.filenames_q_ s') = [scenario.min_31])).
Proof.
  pose proof (proj1 rotation_pushes_new_file daily_filename_calculator.calc scenario.format)
    as Hd.
  pose proof (proj2 rotation_pushes_new_file std_mutex minute_filename_calculator.calc
                scenario.format) as Hm.
  split; split.
  - destruct (Hd (set_clock (scenario.t0 + scenario.day) (fst scenario.daily_st0))
                (snd scenario.daily_st0) (mk_log_msg (scenario.t0 + scenario.day) "line"))
      as (w' & s' & Hlog & _ & _ & Hq).
    + vm_compute. discriminate.
    + vm_compute. lia.
    + vm_compute. reflexivity.
    + vm_compute. reflexivity.
    + vm_compute. reflexivity.
    + intros old Hfull. exfalso. revert Hfull. vm_compute. intros Hfull. discriminate Hfull.
    + exists w', s'. split; [exact Hlog|]. rewrite Hq. vm_compute. reflexivity.
  - destruct (Hd (set_clock (scenario.t0 + scenario.day) (fst scenario.single_daily_st0))
                (snd scenario.single_daily_st0)
                (mk_log_msg (scenario.t0 + scenario.day) "line"))
      as (w' & s' & Hlog & _ & _ & Hq).
    + vm_compute. discriminate.
    + vm_compute. lia.
    + vm_compute. reflexivity.
    + vm_compute. reflexivity.
    + vm_compute. reflexivity.
    + intros old _ Hfront. revert Hfront. vm_compute. intros _. reflexivity.
    + exists w', s'. split; [exact Hlog|]. rewrite Hq. vm_compute. reflexivity.
  - destruct (Hm (set_clock (scenario.t0 + scenario.minute) (fst scenario.minute_st0))
                (snd scenario.minute_st0)
                (mk_log_msg (scenario.t0 + scenario.minute) "line"))
      as (w' & s' & Hlog & _ & _ & Hq).
    + vm_compute. reflexivity.
    + vm_compute. discriminate.
    + vm_compute. lia.
    + vm_compute. reflexivity.
    + vm_compute. reflexivity.
    + vm_compute. reflexivity.
    + intros old Hfull. exfalso. revert Hfull. vm_compute. intros Hfull. discriminate Hfull.
    + exists w', s'. split; [exact Hlog|]. rewrite Hq. vm_compute. reflexivity.
  - destruct (Hm (set_clock (scenario.t0 + scenario.minute) (fst scenario.single_minute_st0))
                (snd scenario.single_minute_st0)
                (mk_log_msg (scenario.t0 + scenario.minute) "line"))
      as (w' & s' & Hlog & _ & _ & Hq).
    + vm_compute. reflexivity.
    + vm_compute. discriminate.
    + vm_compute. lia.
    + vm_compute. reflexivity.
    + vm_compute. reflexivity.
    + vm_compute. reflexivity.
    + intros old _ Hfront. revert Hfront. vm_compute. intros _. reflexivity.
    + exists w', s'. split; [exact Hlog|]. rewrite Hq. vm_compute. reflexivity.
Defined.

(** C2, as stated, fails. A minute sink writes to the file of 14:30, the only
    name in its queue. The write at 14:31 rotates and finds the queue not
    full: the name pushed is the name of the file of 14:31, which the
    rotation has just opened, not the name of the file of 14:30, which the
    rotation has left. *)
Lemma rotation_pushes_new_not_previous_file :
  let before := scenario.minute_st0 in
  let write := scenario.minute_log (scenario.t0 + scenario.minute) before in
  file_helper.filename_ (minute_file_sink.file_helper_ (snd before)) = scenario.min_30
  /\ circular_q.items (minute_file_sink.filenames_q_ (snd before)) = [scenario.min_30]
  /\ fst write = returns tt
  /\ file_helper.filename_ (minute_file_sink.file_helper_ (snd (snd write))) = scenario.min_31
  /\ circular_q.items (minute_file_sink.filenames_q_ (snd (snd write)))
     = circular_q.items (minute_file_sink.filenames_q_ (snd before)) ++ [scenario.min_31]
  /\ scenario.min_31 <> scenario.min_30.
Proof. vm_compute. repeat split; try reflexivity. discriminate. Qed.

Lemma retention_error_after_write_witness :
  (exists before pre,
      files (fst scenario.daily_st2) !! scenario.daily_07 = Some (before +:+ "line
")
      /\ trace (fst scenario.daily_st2)
         = pre ++ [ev_fwrite scenario.daily_07 "line
" None; ev_remove scenario.daily_05 (Some scenario.EACCES)])
  /\ (exists before pre,
         files (fst scenario.minute_st2) !! scenario.min_32 = Some (before +:+ "line
")
         /\ trace (fst scenario.minute_st2)
            = pre ++ [ev_fwrite scenario.min_32 "line
" None; ev_remove scenario.min_30 (Some scenario.EACCES)]).
Proof.
  split.
  - apply (proj1 retention_error_after_write null_mutex daily_filename_calculator.calc
             scenario.format
             (set_clock (scenario.t0 + 2 * scenario.day) (fst scenario.daily_st1))
             (snd scenario.daily_st1)
             (mk_log_msg (scenario.t0 + 2 * scenario.day) "line")
             scenario.daily_05 scenario.EACCES
             (fst scenario.daily_st2) (snd scenario.daily_st2)).
    vm_compute. reflexivity.
  - apply (proj2 retention_error_after_write std_mutex minute_filename_calculator.calc
             scenario.format
             (set_clock (scenario.t0 + 2 * scenario.minute) (fst scenario.minute_st1))
             (snd scenario.minute_st1)
             (mk_log_msg (scenario.t0 + 2 * scenario.minute) "line")
             scenario.min_30 scenario.EACCES
             (fst scenario.minute_st2) (snd scenario.minute_st2)).
    vm_compute. reflexivity.
Defined.
Lemma rotates_iff_due_witness :
  Exists is_fopen
    (events_since (set_clock (scenario.t0 + scenario.day) (fst scenario.daily_st0))
       (fst (snd (daily_file_sink.log (FileNameCalc_ := daily_filename_calculator.calc)
                    null_mutex scenario.format
                    (mk_log_msg (scenario.t0 + scenario.day) "line")
                    (set_clock (scenario.t0 + scenario.day) (fst scenario.daily_st0),
                     snd scenario.daily_st0)))))
  /\ Exists is_fopen
       (events_since (set_clock (scenario.t0 + scenario.minute) (fst scenario.minute_st0))
          (fst (snd (minute_file_sink.log (FileNameCalc_ := minute_filename_calculator.calc)
                       std_mutex scenario.format
                       (mk_log_msg (scenario.t0 + scenario.minute) "line")
                       (set_clock (scenario.t0 + scenario.minute) (fst scenario.minute_st0),
                        snd scenario.minute_st0))))).
Proof.
  split.
  - assert (Hfree : daily_file_sink.mutex_ (snd scenario.daily_st0) = false)
      by (vm_compute; reflexivity).
    pose proof (rotates_iff_due null_mutex daily_filename_calculator.calc scenario.format
                  (set_clock (scenario.t0 + scenario.day) (fst scenario.daily_st0))
                  (mk_log_msg (scenario.t0 + scenario.day) "line")) as [H _].
    specialize (H (snd scenario.daily_st0) Hfree). cbv zeta in H.
    destruct H as [[_ H] _]. apply H. vm_compute. discriminate.
  - assert (Hfree : minute_file_sink.mutex_ (snd scenario.minute_st0) = false)
      by (vm_compute; reflexivity).
    pose proof (rotates_iff_due std_mutex minute_filename_calculator.calc scenario.format
                  (set_clock (scenario.t0 + scenario.minute) (fst scenario.minute_st0))
                  (mk_log_msg (scenario.t0 + scenario.minute) "line")) as [_ H].
    specialize (H (snd scenario.minute_st0) Hfree). cbv zeta in H.
    destruct H as [[_ H] _]. apply H. vm_compute. discriminate.
Defined.

Lemma invalid_rotation_time_only_from_ctor_witness :
  daily_file_sink.ctor (FileNameCalc_ := daily_filename_calculator.calc)
    "logs/daily.txt" 24 0 false 0 false None scenario.quiet_world
  = (throws daily_file_sink.invalid_rotation_time, scenario.quiet_world)
  /\ fst (daily_file_sink.ctor (FileNameCalc_ := daily_filename_calculator.calc)
            "logs/daily.txt" 23 59 false 0 false None scenario.quiet_world)
     <> throws daily_file_sink.invalid_rotation_time
  /\ minute_file_sink.ctor (FileNameCalc_ := minute_filename_calculator.calc)
       "logs/min.txt" false 0 60 scenario.quiet_world
     = (throws minute_file_sink.invalid_rotation_time, scenario.quiet_world)
  /\ fst (minute_file_sink.ctor (FileNameCalc_ := minute_filename_calculator.calc)
            "logs/min.txt" false 0 59 scenario.quiet_world)
     <> throws minute_file_sink.invalid_rotation_time.
Proof.
  pose proof (invalid_rotation_time_only_from_ctor daily_filename_calculator.calc)
    as (Hd & _ & _ & _).
  pose proof (invalid_rotation_time_only_from_ctor minute_filename_calculator.calc)
    as (_ & _ & Hm & _).
  pose proof (Hd "logs/daily.txt" 24 0 false O false None scenario.quiet_world) as [H1 _].
  pose proof (Hd "logs/daily.txt" 23 59 false O false None scenario.quiet_world) as [_ H2].
  pose proof (Hm "logs/min.txt" false O 60 scenario.quiet_world) as [H3 _].
  pose proof (Hm "logs/min.txt" false O 59 scenario.quiet_world) as [_ H4].
  split; [exact (H1 ltac:(lia))|].
  split; [exact (H2 ltac:(lia))|].
  split; [exact (H3 ltac:(lia))|exact (H4 ltac:(lia))].
Defined.
(** ** The file opened by the constructor of the minute sink *)

Ltac unfold_minute_log :=
  unfold minute_file_sink.log, minute_file_sink.sink_it_, lock_guard,
    minute_file_sink.on_file_helper, file_helper.open, file_helper.close,
    file_helper.write, minute_file_sink.delete_old_, file_helper.filename,
    details_os.remove_if_exists, details_os.remove, details_os.path_exists.

Lemma minute_mark_after_log (Mtx : Mutex) (FileNameCalc_ : FileNameCalc)
    (format : log_msg -> string) (w : World) (s : minute_file_sink.t) (msg : log_msg) :
  minute_file_sink.mutex_ s = false ->
  let st' := snd (minute_file_sink.log Mtx format msg (w, s)) in
  let filename :=
    calc_filename (minute_file_sink.base_filename_ s) (now_tm (utc_offset w) (msg_time msg)) in
  minute_file_sink.remove_init_file_ (snd st') = true ->
  minute_file_sink.remove_init_file_ s = true /\
  minute_file_sink.rotation_tp_ s <= msg_time msg /\
  open_errno w filename <> None.
Proof.
  destruct s as [base tp [fname fd] tr mf rm q ri mx]. intros Hmx. exec. subst mx.
  destruct (minute_file_sink.log _ _ _ _) as [r [w' s']] eqn:E. exec. revert E.
  unfold_minute_log.
  destruct (Z.leb_spec tp (msg_time msg)) as [Htp|Htp];
    (destruct Mtx; run; intros E; simplify_eq; exec; intros; simplify_eq;
     repeat split; try lia; try congruence).
Qed.

Ltac in_events H :=
  repeat (destruct H as [H|H]; [simplify_eq|]); try destruct H.

(** A name of a queue that is not full is in the queue after a push. *)
Lemma push_back_keeps q item name :
  In name (circular_q.items q) ->
  circular_q.full q = false ->
  In name (circular_q.items (circular_q.push_back item q)).
Proof.
  intros Hin Hfull. unfold circular_q.push_back. rewrite Hfull.
  destruct (_ =? _)%nat; simpl; [assumption | apply in_or_app; auto].
Qed.

Lemma minute_removes_only_oldest (Mtx : Mutex) (FileNameCalc_ : FileNameCalc)
    (format : log_msg -> string) (w : World) (s : minute_file_sink.t) (msg : log_msg) :
  minute_file_sink.mutex_ s = false ->
  minute_file_sink.remove_init_file_ s = false ->
  let st' := snd (minute_file_sink.log Mtx format msg (w, s)) in
  forall path err,
    In (ev_remove path err) (events_since w (fst st')) ->
    circular_q.full (minute_file_sink.filenames_q_ s) = true /\
    circular_q.front (minute_file_sink.filenames_q_ s) = Some path.
Proof.
  destruct s as [base tp [fname fd] tr mf rm q ri mx]. intros Hmx Hri. exec. subst mx ri.
  destruct (minute_file_sink.log _ _ _ _) as [r [w' s']] eqn:E. exec. revert E.
  unfold_minute_log.
  destruct (Z.leb_spec tp (msg_time msg)) as [Htp|Htp];
    (destruct Mtx; run; intros E; simplify_eq; events; intros path err H;
     in_events H; auto).
Qed.

Lemma minute_first_rotation_removes (Mtx : Mutex) (FileNameCalc_ : FileNameCalc)
    (format : log_msg -> string) (w : World) (s : minute_file_sink.t) (msg : log_msg) :
  minute_file_sink.mutex_ s = false ->
  minute_file_sink.remove_init_file_ s = true ->
  minute_file_sink.rotation_tp_ s <= msg_time msg ->
  let st' := snd (minute_file_sink.log Mtx format msg (w, s)) in
  let init_file := file_helper.filename_ (minute_file_sink.file_helper_ s) in
  let filename :=
    calc_filename (minute_file_sink.base_filename_ s) (now_tm (utc_offset w) (msg_time msg)) in
  (exists err later,
      events_since w (fst st') =
        (if file_helper.fd_ (minute_file_sink.file_helper_ s)
         then [ev_fclose init_file] else [])
        ++ ev_remove init_file err
           :: ev_fopen filename (minute_file_sink.truncate_ s) (open_errno w filename)
           :: later)
  /\ (forall name,
         In name (circular_q.items (minute_file_sink.filenames_q_ s)) ->
         circular_q.full (minute_file_sink.filenames_q_ s) = false ->
         In name (circular_q.items (minute_file_sink.filenames_q_ (snd st')))).
Proof.
  destruct s as [base tp [fname fd] tr mf rm q ri mx]. intros Hmx Hri Htp. exec. subst mx ri.
  destruct (minute_file_sink.log _ _ _ _) as [r [w' s']] eqn:E. exec. revert E.
  unfold_minute_log.
  apply Z.leb_le in Htp.
  destruct Mtx; run; intros E; simplify_eq; events.
  all: split; [do 2 eexists; reflexivity|].
  all: intros name Hin Hfull; try congruence; try assumption.
  all: apply push_back_keeps; assumption.
Qed.

(** *** Recovery of the queue by the minute sink *)

(** The loop of the recovery probes the names of the files of [now], of one
    period before, of two periods before and so on; it stops at the first
    name that is not on the disk, or when it has as many names as files are
    kept. It changes nothing. *)
Lemma minute_probe_filenames_run (FileNameCalc_ : FileNameCalc) (room : nat) :
  forall (now : Z) (filenames : list string) (w : World) (s : minute_file_sink.t),
  exists n,
    (n <= room)%nat /\
    minute_file_sink.probe_filenames room now filenames (w, s) =
      (returns (filenames ++
                map (minute_probe_name (minute_file_sink.base_filename_ s) (utc_offset w) now
                       (minute_file_sink.rotation_m_ s)) (seq 0 n)), (w, s)) /\
    (forall k, (k < n)%nat ->
       is_Some (files w !! minute_probe_name (minute_file_sink.base_filename_ s)
                             (utc_offset w) now (minute_file_sink.rotation_m_ s) k)) /\
    ((n < room)%nat ->
       files w !! minute_probe_name (minute_file_sink.base_filename_ s)
                    (utc_offset w) now (minute_file_sink.rotation_m_ s) n = None).
Proof.
  induction room as [|room IH]; intros now filenames w s.
  - exists O. simpl. rewrite app_nil_r. repeat split; intros; lia.
  - assert (Hstep : forall k,
               minute_probe_name (minute_file_sink.base_filename_ s) (utc_offset w)
                 (now - minutes (minute_file_sink.rotation_m_ s))
                 (minute_file_sink.rotation_m_ s) k =
               minute_probe_name (minute_file_sink.base_filename_ s) (utc_offset w) now
                 (minute_file_sink.rotation_m_ s) (S k)).
    { intros k. unfold minute_probe_name. do 2 f_equal. lia. }
    assert (Hfirst : minute_probe_name (minute_file_sink.base_filename_ s) (utc_offset w) now
                       (minute_file_sink.rotation_m_ s) 0 =
                     calc_filename (minute_file_sink.base_filename_ s)
                       (now_tm (utc_offset w) now)).
    { unfold minute_probe_name. do 2 f_equal. lia. }
    cbn [minute_file_sink.probe_filenames]. unfold details_os.path_exists. exec_in_goal.
    rewrite <- Hfirst.
    destruct (files w !! _) as [content|] eqn:E.
    + rewrite bool_decide_eq_true_2 by eauto.
      destruct (IH (now - minutes (minute_file_sink.rotation_m_ s))
                  (filenames ++ [minute_probe_name (minute_file_sink.base_filename_ s)
                                   (utc_offset w) now (minute_file_sink.rotation_m_ s) 0])
                  w s) as (n & Hn & Hrun & Hsome & Hnone).
      exists (S n). split; [lia|]. split; [|split].
      * cbn [bind self gets fst snd]. rewrite Hrun. rewrite <- app_assoc. simpl.
        rewrite <- seq_shift, map_map.
        do 2 f_equal. f_equal. f_equal. apply map_ext. intros k. apply Hstep.
      * intros [|k] Hk; [rewrite E; eauto|]. rewrite <- Hstep. apply Hsome. lia.
      * intros Hlt. rewrite <- Hstep. apply Hnone. lia.
    + rewrite bool_decide_eq_false_2 by (intros [? ?]; congruence).
      exists O. simpl. rewrite app_nil_r. repeat split; intros; [lia|lia|exact E].
Qed.

(** Pushing names onto a queue that has room for them appends them. *)
Lemma minute_push_all (names : list string) :
  forall (w : World) (s : minute_file_sink.t),
  (length (circular_q.items (minute_file_sink.filenames_q_ s)) + length names
   <= circular_q.max_items (minute_file_sink.filenames_q_ s))%nat ->
  for_each names (fun file =>
    update (fun s => minute_file_sink.set_filenames_q_
                       (circular_q.push_back file (minute_file_sink.filenames_q_ s)) s))
    (w, s) =
  (returns tt,
   (w, minute_file_sink.set_filenames_q_
         (circular_q.mk (circular_q.max_items (minute_file_sink.filenames_q_ s))
            (circular_q.items (minute_file_sink.filenames_q_ s) ++ names)) s)).
Proof.
  induction names as [|name names IH]; intros w s Hroom.
  - simpl. rewrite app_nil_r. destruct s as [? ? ? ? ? ? [? ?] ? ?]. reflexivity.
  - destruct s as [base tp fh tr mf rm [cap items] ri mx]. simpl in Hroom.
    cbn [for_each]. exec_in_goal.
    rewrite push_back_not_full; [| lia |].
    + rewrite IH; simpl; [|rewrite length_app; simpl; lia].
      now rewrite <- app_assoc.
    + unfold circular_q.full. simpl.
      destruct (Nat.eqb_spec (length items) cap); [lia|]. apply andb_false_r.
Qed.

(** The recovery of the minute sink: the queue holds, oldest first, the
    names of the files of the last [n] periods, where [n] is the number of
    files kept or the number of periods back to the first one without a
    file, whichever is smaller. Nothing else changes and nothing is thrown. *)
Lemma minute_init_filenames_q_run (FileNameCalc_ : FileNameCalc)
    (w : World) (s : minute_file_sink.t) :
  exists n,
    (n <= minute_file_sink.max_files_ s)%nat /\
    minute_file_sink.init_filenames_q_ (w, s) =
      (returns tt,
       (w, minute_file_sink.set_filenames_q_
             (circular_q.mk (minute_file_sink.max_files_ s)
                (rev (map (minute_probe_name (minute_file_sink.base_filename_ s)
                             (utc_offset w) (clock w) (minute_file_sink.rotation_m_ s))
                        (seq 0 n)))) s)) /\
    (forall k, (k < n)%nat ->
       is_Some (files w !! minute_probe_name (minute_file_sink.base_filename_ s)
                             (utc_offset w) (clock w) (minute_file_sink.rotation_m_ s) k)) /\
    ((n < minute_file_sink.max_files_ s)%nat ->
       files w !! minute_probe_name (minute_file_sink.base_filename_ s)
                    (utc_offset w) (clock w) (minute_file_sink.rotation_m_ s) n = None).
Proof.
  destruct s as [base tp fh tr mf rm q ri mx].
  destruct (minute_probe_filenames_run FileNameCalc_ mf (clock w) [] w
              (minute_file_sink.mk base tp fh tr mf rm (circular_q.create mf) ri mx))
    as (n & Hn & Hrun & Hsome & Hnone).
  exists n. split; [exact Hn|]. split; [|split; assumption].
  unfold minute_file_sink.init_filenames_q_. exec_in_goal.
  cbn [minute_file_sink.base_filename_ minute_file_sink.rotation_m_] in Hrun.
  rewrite Hrun. exec_in_goal.
  rewrite minute_push_all; [reflexivity|].
  simpl. rewrite length_rev, length_map, length_seq. lia.
Qed.

#[local] Arguments minute_file_sink.init_filenames_q_ : simpl never.

(** The constructor of the minute sink, when the rotation period is in range
    and the file of the current minute can be opened: it opens this file,
    marks it for removal when it is empty, and recovers the queue from the
    disk as it is then. *)
Lemma minute_ctor_run (FileNameCalc_ : FileNameCalc) (base : string) (truncate : bool)
    (max_files : nat) (m : Z) (w : World) :
  let init_file := calc_filename base (now_tm (utc_offset w) (clock w)) in
  let w' := record_event (ev_fopen init_file truncate None)
              (set_files (file_helper.fopen_files init_file truncate (files w)) w) in
  0 <= m <= 59 ->
  open_errno w init_file = None ->
  exists n,
    (n <= max_files)%nat /\
    minute_file_sink.ctor base truncate max_files m w =
      (returns
         (minute_file_sink.mk base (minute_rotation_point (utc_offset w) (clock w) m)
            (file_helper.mk init_file true) truncate max_files m
            (circular_q.mk max_files
               (rev (map (minute_probe_name base (utc_offset w) (clock w) m) (seq 0 n))))
            (match files w' !! init_file with
             | Some content => (String.length content =? 0)%nat
             | None => true
             end)
            false), w') /\
    (forall k, (k < n)%nat ->
       is_Some (files w' !! minute_probe_name base (utc_offset w) (clock w) m k)) /\
    ((n < max_files)%nat ->
       files w' !! minute_probe_name base (utc_offset w) (clock w) m n = None).
Proof.
  intros init_file w' Hm Hopen. subst init_file w'.
  unfold minute_file_sink.ctor, construct, minute_file_sink.on_file_helper,
    file_helper.open, file_helper.close, file_helper.size.
  assert (Hrange : (m <? 0) || (59 <? m) = false).
  { apply orb_false_iff. split; apply Z.ltb_ge; lia. }
  rewrite Hrange. exec_in_goal. rewrite Hopen. exec_in_goal.
  autorewrite with sink. exec_in_goal.
  destruct max_files as [|max_files]; exec_in_goal.
  - exists O. split; [lia|]. simpl. split; [|split; intros; lia].
    destruct (_ !! _); reflexivity.
  - change (0 <? S max_files)%nat with true. cbv iota.
    match goal with
    | |- context [minute_file_sink.init_filenames_q_ ?st] =>
        destruct (minute_init_filenames_q_run FileNameCalc_ (fst st) (snd st))
          as (n & Hn & Hrun & Hsome & Hnone)
    end.
    exec. exists n. split; [exact Hn|]. rewrite Hrun. exec_in_goal.
    split; [|split; assumption].
    destruct (_ !! _); reflexivity.
Qed.

(** The constructor returns only when the period is in range and the file
    is open. *)
Lemma minute_ctor_returns (FileNameCalc_ : FileNameCalc) (base : string) (truncate : bool)
    (max_files : nat) (m : Z) (w : World) (s : minute_file_sink.t) (w' : World) :
  minute_file_sink.ctor base truncate max_files m w = (returns s, w') ->
  0 <= m <= 59 /\ open_errno w (calc_filename base (now_tm (utc_offset w) (clock w))) = None.
Proof.
  unfold minute_file_sink.ctor, construct, minute_file_sink.on_file_helper,
    file_helper.open, file_helper.close.
  destruct ((m <? 0) || (59 <? m)) eqn:Hrange; exec_in_goal; [discriminate|].
  apply orb_false_iff in Hrange. destruct Hrange as [H0 H59].
  apply Z.ltb_ge in H0, H59.
  destruct (open_errno w _) eqn:Hopen; exec_in_goal; [discriminate|].
  intros _. split; [lia | reflexivity].
Qed.

(** A rotation of the minute sink whose open fails, the mark being set: the
    write throws, the mark stays, and the name held by the file helper is the
    name of the file that could not be opened. *)
Lemma minute_failed_open_keeps_mark (Mtx : Mutex) (FileNameCalc_ : FileNameCalc)
    (format : log_msg -> string) (w : World) (s : minute_file_sink.t) (msg : log_msg)
    (e : Z) :
  minute_file_sink.mutex_ s = false ->
  minute_file_sink.remove_init_file_ s = true ->
  minute_file_sink.rotation_tp_ s <= msg_time msg ->
  let filename :=
    calc_filename (minute_file_sink.base_filename_ s) (now_tm (utc_offset w) (msg_time msg)) in
  open_errno w filename = Some e ->
  let r := minute_file_sink.log Mtx format msg (w, s) in
  (exists text, fst r = throws (spdlog_ex text (Some e))) /\
  minute_file_sink.remove_init_file_ (snd (snd r)) = true /\
  minute_file_sink.rotation_tp_ (snd (snd r)) = minute_file_sink.rotation_tp_ s /\
  file_helper.filename_ (minute_file_sink.file_helper_ (snd (snd r))) = filename /\
  file_helper.fd_ (minute_file_sink.file_helper_ (snd (snd r))) = false.
Proof.
  destruct s as [base tp [fname fd] tr mf rm q ri mx]. intros Hmx Hri Htp.
  exec. subst mx ri. intros Hopen.
  destruct (minute_file_sink.log _ _ _ _) as [r [w' s']] eqn:E. exec. revert E.
  unfold_minute_log. apply Z.leb_le in Htp.
  destruct Mtx; run; intros E; simplify_eq; exec;
    (split; [eexists; reflexivity|]); repeat split.
Qed.

(** The recovery of the minute sink puts the name of the file of the minute
    in which it runs in the queue when this file is on the disk and a bound
    on the files is set. *)
Lemma minute_recovery_keeps_current (FileNameCalc_ : FileNameCalc)
    (w : World) (s : minute_file_sink.t) :
  let current :=
    calc_filename (minute_file_sink.base_filename_ s) (now_tm (utc_offset w) (clock w)) in
  (0 < minute_file_sink.max_files_ s)%nat ->
  on_disk w current = true ->
  In current
     (circular_q.items
        (minute_file_sink.filenames_q_
           (snd (snd (minute_file_sink.init_filenames_q_ (w, s)))))).
Proof.
  intros current Hmax Hdisk.
  destruct (minute_init_filenames_q_run FileNameCalc_ w s)
    as (n & Hn & Hrun & Hsome & Hnone).
  rewrite Hrun. destruct s as [base tp fh tr mf rm q ri mx]. simpl in *.
  assert (Hfirst : minute_probe_name base (utc_offset w) (clock w) rm 0 = current).
  { unfold minute_probe_name, current. simpl. do 2 f_equal. lia. }
  destruct n as [|n].
  - exfalso. specialize (Hnone Hmax). rewrite Hfirst in Hnone.
    unfold on_disk in Hdisk. apply bool_decide_eq_true_1 in Hdisk.
    rewrite Hnone in Hdisk. destruct Hdisk as [? ?]. discriminate.
  - apply in_rev. rewrite rev_involutive. simpl. left. exact Hfirst.
Qed.

(** C9, as amended. The constructor of the minute sink opens one file, the
    file named after the time at which it runs, and marks it exactly when
    this file is empty once open. A write that finds the lock free, the mark
    set and the rotation due closes the file helper and asks for the removal
    of the file that the file helper names, before it opens the next file;
    for a sink as its constructor returned it this is the file that the
    constructor opened. When the next file cannot be opened the write throws
    with the mark still set and the rotation point as it was, and the file
    helper then names the file that could not be opened. The queue is left
    out of the removal: a name that it holds stays in it unless the queue is
    full, and the recovery, run with a bound on the files, puts the name of
    the file of the minute in which it runs in the queue when this file is
    on the disk. Every other write that finds the lock free clears the mark.
    A write that finds the mark cleared removes no file but the oldest of a
    full queue. *)
Theorem throwaway_init_file (FileNameCalc_ : FileNameCalc) :
  (forall base truncate max_files m w s w',
      minute_file_sink.ctor base truncate max_files m w = (returns s, w') ->
      let init_file := calc_filename base (now_tm (utc_offset w) (clock w)) in
      events_since w w' = [ev_fopen init_file truncate None] /\
      file_helper.filename_ (minute_file_sink.file_helper_ s) = init_file /\
      minute_file_sink.mutex_ s = false /\
      (minute_file_sink.remove_init_file_ s = true <-> files w' !! init_file = Some ""))
  /\ (forall Mtx format w s msg,
         minute_file_sink.mutex_ s = false ->
         minute_file_sink.remove_init_file_ s = true ->
         minute_file_sink.rotation_tp_ s <= msg_time msg ->
         let st' := snd (minute_file_sink.log Mtx format msg (w, s)) in
         let named := file_helper.filename_ (minute_file_sink.file_helper_ s) in
         let filename :=
           calc_filename (minute_file_sink.base_filename_ s)
             (now_tm (utc_offset w) (msg_time msg)) in
         (exists err later,
             events_since w (fst st') =
               (if file_helper.fd_ (minute_file_sink.file_helper_ s)
                then [ev_fclose named] else [])
               ++ ev_remove named err
                  :: ev_fopen filename (minute_file_sink.truncate_ s) (open_errno w filename)
                  :: later)
         /\ (forall name,
                In name (circular_q.items (minute_file_sink.filenames_q_ s)) ->
                circular_q.full (minute_file_sink.filenames_q_ s) = false ->
                In name (circular_q.items (minute_file_sink.filenames_q_ (snd st'))))
         /\ (forall e, open_errno w filename = Some e ->
               (exists text,
                   fst (minute_file_sink.log Mtx format msg (w, s))
                   = throws (spdlog_ex text (Some e))) /\
               minute_file_sink.remove_init_file_ (snd st') = true /\
               minute_file_sink.rotation_tp_ (snd st') = minute_file_sink.rotation_tp_ s /\
               file_helper.filename_ (minute_file_sink.file_helper_ (snd st')) = filename))
  /\ (forall (w : World) (s : minute_file_sink.t),
         let current :=
           calc_filename (minute_file_sink.base_filename_ s)
             (now_tm (utc_offset w) (clock w)) in
         (0 < minute_file_sink.max_files_ s)%nat ->
         on_disk w current = true ->
         In current
            (circular_q.items
               (minute_file_sink.filenames_q_
                  (snd (snd (minute_file_sink.init_filenames_q_ (w, s)))))))
  /\ (forall Mtx format w s msg,
         minute_file_sink.mutex_ s = false ->
         minute_file_sink.remove_init_file_ s = false
         \/ msg_time msg < minute_file_sink.rotation_tp_ s
         \/ open_errno w (calc_filename (minute_file_sink.base_filename_ s)
                            (now_tm (utc_offset w) (msg_time msg))) = None ->
         minute_file_sink.remove_init_file_
           (snd (snd (minute_file_sink.log Mtx format msg (w, s)))) = false)
  /\ (forall Mtx format w s msg,
         minute_file_sink.mutex_ s = false ->
         minute_file_sink.remove_init_file_ s = false ->
         forall path err,
           In (ev_remove path err)
              (events_since w (fst (snd (minute_file_sink.log Mtx format msg (w, s))))) ->
           circular_q.full (minute_file_sink.filenames_q_ s) = true /\
           circular_q.front (minute_file_sink.filenames_q_ s) = Some path).
Proof.
  split; [|split; [|split; [|split]]].
  - intros base truncate max_files m w s w' Hctor init_file. subst init_file.
    destruct (minute_ctor_returns _ _ _ _ _ _ _ _ Hctor) as [Hm Hopen].
    destruct (minute_ctor_run FileNameCalc_ base truncate max_files m w Hm Hopen)
      as (n & _ & Hrun & _).
    rewrite Hrun in Hctor. injection Hctor as <- <-. simpl.
    split; [unfold events_since; simpl; apply events_since_app|].
    split; [reflexivity|]. split; [reflexivity|].
    destruct (fopen_files_lookup (calc_filename base (now_tm (utc_offset w) (clock w)))
                truncate (files w)) as [content ->].
    destruct content; simpl; split; congruence.
  - intros Mtx format w s msg Hfree Hmark Hdue st' named filename.
    destruct (minute_first_rotation_removes Mtx FileNameCalc_ format w s msg
                Hfree Hmark Hdue) as [Hevents Hqueue].
    split; [exact Hevents|]. split; [exact Hqueue|].
    intros e Hopen.
    destruct (minute_failed_open_keeps_mark Mtx FileNameCalc_ format w s msg e
                Hfree Hmark Hdue Hopen) as (Hthrows & Hkept & Htp & Hname & _).
    auto.
  - intros w s. apply minute_recovery_keeps_current.
  - intros Mtx format w s msg Hfree Hcases.
    destruct (minute_file_sink.remove_init_file_ (snd (snd _))) eqn:Hmark; [|reflexivity].
    apply minute_mark_after_log in Hmark; [|assumption].
    destruct Hmark as (Hset & Hdue & Hopen).
    destruct Hcases as [H|[H|H]]; [congruence | lia | contradiction].
  - intros Mtx format w s msg Hfree Hmark path err.
    now apply minute_removes_only_oldest.
Qed.

Lemma throwaway_init_file_witness :
  (file_helper.filename_ (minute_file_sink.file_helper_ (snd scenario.throwaway_st0))
   = scenario.min_30 /\
   (minute_file_sink.remove_init_file_ (snd scenario.throwaway_st0) = true <->
    files (fst scenario.throwaway_st0) !! scenario.min_30 = Some ""))
  /\ In scenario.min_30
       (circular_q.items (minute_file_sink.filenames_q_ (snd scenario.throwaway_st1)))
  /\ (minute_file_sink.remove_init_file_
        (snd (snd (scenario.minute_log (scenario.t0 + scenario.minute) scenario.blocked_st0)))
      = true /\
      file_helper.filename_
        (minute_file_sink.file_helper_
           (snd (snd (scenario.minute_log (scenario.t0 + scenario.minute)
                        scenario.blocked_st0))))
      = scenario.min_31)
  /\ In scenario.min_30
       (circular_q.items
          (minute_file_sink.filenames_q_
             (snd (snd (minute_file_sink.init_filenames_q_
                          (FileNameCalc_ := minute_filename_calculator.calc)
                          (fst scenario.throwaway_st0, snd scenario.throwaway_st0))))))
  /\ minute_file_sink.remove_init_file_ (snd scenario.throwaway_st1) = false
  /\ (forall path err,
        In (ev_remove path err)
           (events_since (set_clock (scenario.t0 + 2 * scenario.minute)
                            (fst scenario.throwaway_st1))
              (fst (snd (minute_file_sink.log
                           (FileNameCalc_ := minute_filename_calculator.calc)
                           std_mutex scenario.format
                           (mk_log_msg (scenario.t0 + 2 * scenario.minute) "line")
                           (set_clock (scenario.t0 + 2 * scenario.minute)
                              (fst scenario.throwaway_st1),
                            snd scenario.throwaway_st1))))) ->
        circular_q.full (minute_file_sink.filenames_q_ (snd scenario.throwaway_st1)) = true /\
        circular_q.front (minute_file_sink.filenames_q_ (snd scenario.throwaway_st1))
        = Some path).
Proof.
  pose proof (throwaway_init_file minute_filename_calculator.calc)
    as (H1 & H2 & H3 & H4 & H5).
  assert (Hctor : minute_file_sink.ctor (FileNameCalc_ := minute_filename_calculator.calc)
                    "logs/min.txt" false 3 1 scenario.quiet_world
                  = (returns (snd scenario.throwaway_st0), fst scenario.throwaway_st0))
    by (vm_compute; reflexivity).
  assert (Hfree0 : minute_file_sink.mutex_ (snd scenario.throwaway_st0) = false)
    by (vm_compute; reflexivity).
  assert (Hmark0 : minute_file_sink.remove_init_file_ (snd scenario.throwaway_st0) = true)
    by (vm_compute; reflexivity).
  assert (Hdue0 : minute_file_sink.rotation_tp_ (snd scenario.throwaway_st0)
                  <= msg_time (mk_log_msg (scenario.t0 + scenario.minute) "line"))
    by (vm_compute; discriminate).
  assert (Hfreeb : minute_file_sink.mutex_ (snd scenario.blocked_st0) = false)
    by (vm_compute; reflexivity).
  assert (Hmarkb : minute_file_sink.remove_init_file_ (snd scenario.blocked_st0) = true)
    by (vm_compute; reflexivity).
  assert (Hdueb : minute_file_sink.rotation_tp_ (snd scenario.blocked_st0)
                  <= msg_time (mk_log_msg (scenario.t0 + scenario.minute) "line"))
    by (vm_compute; discriminate).
  assert (Hfree1 : minute_file_sink.mutex_ (snd scenario.throwaway_st1) = false)
    by (vm_compute; reflexivity).
  assert (Hmark1 : minute_file_sink.remove_init_file_ (snd scenario.throwaway_st1) = false)
    by (vm_compute; reflexivity).
  pose proof (H1 _ _ _ _ _ _ _ Hctor) as H1'.
  pose proof (H2 std_mutex scenario.format
                (set_clock (scenario.t0 + scenario.minute) (fst scenario.throwaway_st0))
                (snd scenario.throwaway_st0)
                (mk_log_msg (scenario.t0 + scenario.minute) "line") Hfree0 Hmark0 Hdue0)
    as H2'.
  pose proof (H2 std_mutex scenario.format
                (set_clock (scenario.t0 + scenario.minute) (fst scenario.blocked_st0))
                (snd scenario.blocked_st0)
                (mk_log_msg (scenario.t0 + scenario.minute) "line") Hfreeb Hmarkb Hdueb)
    as H2b.
  pose proof (H3 (fst scenario.throwaway_st0) (snd scenario.throwaway_st0)) as H3'.
  pose proof (H4 std_mutex scenario.format
                (set_clock (scenario.t0 + scenario.minute) (fst scenario.throwaway_st0))
                (snd scenario.throwaway_st0)
                (mk_log_msg (scenario.t0 + scenario.minute) "line") Hfree0) as H4'.
  pose proof (H5 std_mutex scenario.format
                (set_clock (scenario.t0 + 2 * scenario.minute) (fst scenario.throwaway_st1))
                (snd scenario.throwaway_st1)
                (mk_log_msg (scenario.t0 + 2 * scenario.minute) "line") Hfree1 Hmark1)
    as H5'.
  cbv zeta in H1', H2', H2b, H3'.
  split; [destruct H1' as (_ & Hname & _ & Hiff); split; [exact Hname | exact Hiff]|].
  split; [|split; [|split; [|split; [|exact H5']]]].
  - destruct H2' as (_ & H2' & _). apply H2'.
    + vm_compute. left. reflexivity.
    + vm_compute. reflexivity.
  - destruct H2b as (_ & _ & H2b).
    destruct (H2b scenario.EACCES) as (_ & Hkept & _ & Hname); [vm_compute; reflexivity|].
    split; [exact Hkept | exact Hname].
  - apply H3'; vm_compute; [lia | reflexivity].
  - apply H4'. right. right. vm_compute. reflexivity.
Defined.

(** C9, as stated, does not hold: the name of the empty file opened by the
    constructor is in the queue from the recovery on, and it is still there
    when the first rotation has deleted the file. *)
Lemma throwaway_file_name_in_queue :
  minute_file_sink.remove_init_file_ (snd scenario.throwaway_st0) = true
  /\ file_helper.filename_ (minute_file_sink.file_helper_ (snd scenario.throwaway_st0))
     = scenario.min_30
  /\ circular_q.items (minute_file_sink.filenames_q_ (snd scenario.throwaway_st0))
     = [scenario.min_30]
  /\ fst (scenario.minute_log (scenario.t0 + scenario.minute) scenario.throwaway_st0)
     = returns tt
  /\ files (fst scenario.throwaway_st1) !! scenario.min_30 = None
  /\ circular_q.items (minute_file_sink.filenames_q_ (snd scenario.throwaway_st1))
     = [scenario.min_30; scenario.min_31].
Proof. vm_compute. repeat split; reflexivity. Qed.
(** ** Recovery of the queue by the daily sink *)

(** *** The order of the keys *)

Lemma ascii_compare_lt_trans a b c :
  Ascii.compare a b = Lt -> Ascii.compare b c = Lt -> Ascii.compare a c = Lt.
Proof.
  unfold Ascii.compare. rewrite !N.compare_lt_iff. apply N.lt_trans.
Qed.

Lemma ascii_compare_refl a : Ascii.compare a a = Eq.
Proof. unfold Ascii.compare. apply N.compare_refl. Qed.

Lemma str_ltb_trans a : forall b c,
  Str.ltb a b = true -> Str.ltb b c = true -> Str.ltb a c = true.
Proof.
  unfold Str.ltb.
  induction a as [|x a IH]; intros [|y b] [|z c]; simpl; try discriminate; try reflexivity.
  destruct (Ascii.compare x y) eqn:Exy; try discriminate;
    destruct (Ascii.compare y z) eqn:Eyz; try discriminate; intros Hab Hbc.
  - apply Ascii.compare_eq_iff in Exy, Eyz. subst. rewrite ascii_compare_refl.
    now apply (IH b c).
  - apply Ascii.compare_eq_iff in Exy. subst. now rewrite Eyz.
  - apply Ascii.compare_eq_iff in Eyz. subst. now rewrite Exy.
  - now rewrite (ascii_compare_lt_trans _ _ _ Exy Eyz).
Qed.

Lemma str_ltb_irrefl a : Str.ltb a a = false.
Proof.
  unfold Str.ltb. induction a as [|x a IH]; simpl; [reflexivity|].
  now rewrite ascii_compare_refl.
Qed.

(** Two keys of which none is before the other are the same string. *)
Lemma str_ltb_total a b : Str.ltb a b = false -> Str.ltb b a = false -> a = b.
Proof.
  unfold Str.ltb. rewrite (String.compare_antisym a b).
  destruct (String.compare b a) eqn:E; simpl; try discriminate.
  intros _ _. symmetry. now apply String.compare_eq_iff.
Qed.

Lemma key_lt_trans a b c : key_lt a b -> key_lt b c -> key_lt a c.
Proof. apply str_ltb_trans. Qed.

Lemma key_lt_neq a b : key_lt a b -> fst a <> fst b.
Proof. unfold key_lt. intros H E. rewrite E, str_ltb_irrefl in H. discriminate. Qed.

(** *** [m[k] = v] *)

(** An assignment keeps the entries in the order of their keys, and the map
    then holds [v] at [k] and what it held at the other keys. *)
Lemma assign_spec k v m :
  StronglySorted key_lt m ->
  StronglySorted key_lt (std_map.assign k v m) /\
  (forall k' v', In (k', v') (std_map.assign k v m) <->
                 (k' = k /\ v' = v) \/ (k' <> k /\ In (k', v') m)).
Proof.
  induction m as [|[k1 v1] m IH]; intros Hsorted.
  - simpl. split; [repeat constructor|].
    intros k' v'. split; [intros [E|[]]; left; now inversion E|].
    intros [[-> ->]|[_ []]]. now left.
  - apply StronglySorted_inv in Hsorted. destruct Hsorted as [Hm Hk1].
    destruct (IH Hm) as [IHsorted IHin]. rewrite List.Forall_forall in Hk1.
    assert (Hafter : forall k' v', In (k', v') m -> k' <> k1).
    { intros k' v' Hin E. apply (key_lt_neq _ _ (Hk1 _ Hin)). now rewrite E. }
    simpl. destruct (Str.ltb k k1) eqn:Hlt; [|destruct (Str.ltb k1 k) eqn:Hgt].
    + split.
      * constructor; [now constructor; [|apply List.Forall_forall]|].
        constructor; [exact Hlt|]. apply List.Forall_forall. intros x Hx.
        apply (key_lt_trans _ (k1, v1)); [exact Hlt | now apply Hk1].
      * intros k' v'. simpl. split.
        -- intros [E|[E|Hin]].
           ++ left. now inversion E.
           ++ right. inversion E; subst. split; [|now left].
              intros ->. rewrite str_ltb_irrefl in Hlt. discriminate.
           ++ right. split; [|now right]. intros ->.
              assert (Hcycle : Str.ltb k k = true)
                by (apply (str_ltb_trans _ k1); [exact Hlt | apply (Hk1 _ Hin)]).
              rewrite str_ltb_irrefl in Hcycle. discriminate.
        -- intros [[-> ->]|[_ [E|Hin]]]; auto.
    + split.
      * constructor; [exact IHsorted|]. apply List.Forall_forall. intros [k' v'] Hx.
        apply IHin in Hx. destruct Hx as [[-> ->]|[_ Hx]]; [exact Hgt | now apply Hk1].
      * intros k' v'. simpl. rewrite IHin. split.
        -- intros [E|[[-> ->]|[Hne Hin]]]; auto.
           inversion E; subst. right. split; [|now left].
           intros ->. rewrite str_ltb_irrefl in Hgt. discriminate.
        -- intros [[-> ->]|[Hne [E|Hin]]]; auto.
    + apply str_ltb_total in Hlt; [|exact Hgt]. subst k1. split.
      * constructor; [exact Hm|]. apply List.Forall_forall. intros x Hx. now apply Hk1.
      * intros k' v'. simpl. split.
        -- intros [E|Hin]; [left; now inversion E|].
           right. split; [now apply (Hafter k' v') | now right].
        -- intros [[-> ->]|[Hne [E|Hin]]]; auto.
           inversion E; subst. contradiction.
Qed.

(** *** The map from dates to file names *)

(** The map built from the listing of the directory: its entries are in the
    order of their date suffixes; each is a name of the listing under the
    date suffix extracted from it, which is not empty; and each date suffix
    extracted from a name of the listing has an entry. *)
Lemma dates_to_filenames_spec (base : string) (dir_files : list string) :
  let dates := fold_left (daily_filename_calculator.add_dir_file base) dir_files [] in
  StronglySorted key_lt dates /\
  (forall date file, In (date, file) dates ->
     In file dir_files /\
     daily_filename_calculator.extract_date_suffix base file = date /\ date <> "") /\
  (forall file, In file dir_files ->
     daily_filename_calculator.extract_date_suffix base file <> "" ->
     exists file', In (daily_filename_calculator.extract_date_suffix base file, file') dates).
Proof.
  intros dates. subst dates.
  induction dir_files as [|file dir_files IH] using rev_ind.
  - simpl. split; [constructor|]. split; [intros ? ? []|intros ? []].
  - rewrite fold_left_app. simpl.
    destruct IH as (Hsorted & Hentries & Hdates).
    set (dates := fold_left (daily_filename_calculator.add_dir_file base) dir_files []) in *.
    unfold daily_filename_calculator.add_dir_file.
    destruct (daily_filename_calculator.extract_date_suffix base file) as [|c date] eqn:E.
    + simpl. split; [exact Hsorted|]. split.
      * intros d f Hin. destruct (Hentries d f Hin) as (? & ? & ?).
        repeat split; auto. apply in_or_app. now left.
      * intros f Hin Hne. apply in_app_or in Hin. destruct Hin as [Hin|[<-|[]]]; auto.
        now rewrite E in Hne.
    + simpl. destruct (assign_spec (String c date) file dates Hsorted) as [Hsorted' Hin'].
      split; [exact Hsorted'|]. split.
      * intros d f Hin. apply Hin' in Hin. destruct Hin as [[-> ->]|[_ Hin]].
        -- repeat split; [apply in_or_app; right; now left | exact E | discriminate].
        -- destruct (Hentries d f Hin) as (? & ? & ?).
           repeat split; auto. apply in_or_app. now left.
      * intros f Hin Hne. apply in_app_or in Hin. destruct Hin as [Hin|[<-|[]]].
        -- destruct (Hdates f Hin Hne) as [f' Hf'].
           destruct (String.string_dec (daily_filename_calculator.extract_date_suffix base f)
                       (String c date)) as [Heq|Hneq].
           ++ exists file. apply Hin'. left. now split.
           ++ exists f'. apply Hin'. right. now split.
        -- exists file. rewrite E. apply Hin'. left. now split.
Qed.

(** *** The loops of the recovery *)

(** Pushing the names that are on the disk onto a queue that has room for
    all the names appends them. *)
Lemma daily_push_existing (names : list string) :
  forall (w : World) (s : daily_file_sink.t),
  (length (circular_q.items (daily_file_sink.filenames_q_ s)) + length names
   <= circular_q.max_items (daily_file_sink.filenames_q_ s))%nat ->
  for_each names (fun file =>
    exists_ <- os (details_os.path_exists file) ;;
    if exists_ : bool
    then update (fun s => daily_file_sink.set_filenames_q_
                            (circular_q.push_back file (daily_file_sink.filenames_q_ s)) s)
    else ret tt)
    (w, s) =
  (returns tt,
   (w, daily_file_sink.set_filenames_q_
         (circular_q.mk (circular_q.max_items (daily_file_sink.filenames_q_ s))
            (circular_q.items (daily_file_sink.filenames_q_ s)
               ++ filter (on_disk w) names)) s)).
Proof.
  induction names as [|name names IH]; intros w s Hroom.
  - simpl. rewrite app_nil_r. destruct s as [? ? ? ? ? ? ? [? ?] ?]. reflexivity.
  - destruct s as [base h m tp fh tr mf [cap items] mx]. simpl in Hroom.
    cbn [for_each filter]. unfold details_os.path_exists. exec_in_goal.
    fold (on_disk w name). destruct (on_disk w name); exec_in_goal.
    + rewrite push_back_not_full; [| lia |].
      * rewrite IH; simpl; [|rewrite length_app; simpl; lia].
        now rewrite <- app_assoc.
      * unfold circular_q.full. simpl.
        destruct (Nat.eqb_spec (length items) cap); [lia|]. apply andb_false_r.
    + rewrite IH; simpl; [reflexivity | lia].
Qed.

(** Removing old files leaves the object as it is and throws nothing,
    whatever the removals return. *)
Lemma daily_remove_all_run (names : list string) :
  forall (w : World) (s : daily_file_sink.t),
  for_each names (fun file => os (details_os.remove_if_exists file) ;; ret tt) (w, s) =
  (returns tt, (removed_all names w, s)).
Proof.
  induction names as [|name names IH]; intros w s; [reflexivity|].
  cbn [for_each]. unfold removed_all. cbn [fold_left]. fold (removed_all names).
  rewrite <- IH. unfold bind at 1. unfold os at 1. cbn [fst snd].
  unfold details_os.remove_if_exists, details_os.path_exists, details_os.remove.
  exec_in_goal. destruct (files w !! name) eqn:E.
  - rewrite bool_decide_eq_true_2 by eauto. rewrite E.
    destruct (remove_errno w name); reflexivity.
  - rewrite bool_decide_eq_false_2 by (intros [? ?]; congruence). reflexivity.
Qed.

(** The recovery of the daily sink, for a sink that keeps [max_files_]
    files, more than none: of the last [max_files_] entries of the map from
    dates to names, the queue takes the names that are on the disk; the files
    of the entries before are removed if asked for. Nothing is thrown. *)
Lemma daily_init_filenames_q_run (delete_old_file_on_init : bool)
    (w : World) (s : daily_file_sink.t) :
  let dates :=
    fold_left (daily_filename_calculator.add_dir_file (daily_file_sink.base_filename_ s))
      (directory w (details_os.dir_name (daily_file_sink.base_filename_ s))) [] in
  let first_valid_file_pos := (length dates - daily_file_sink.max_files_ s)%nat in
  (0 < daily_file_sink.max_files_ s)%nat ->
  daily_file_sink.init_filenames_q_ delete_old_file_on_init (w, s) =
    (returns tt,
     (if delete_old_file_on_init
      then removed_all (map snd (take first_valid_file_pos dates)) w
      else w,
      daily_file_sink.set_filenames_q_
        (circular_q.mk (daily_file_sink.max_files_ s)
           (filter (on_disk w) (map snd (drop first_valid_file_pos dates)))) s)).
Proof.
  intros dates pos Hmax. destruct s as [base h m tp fh tr mf q mx].
  cbn [daily_file_sink.max_files_ daily_file_sink.base_filename_] in *.
  unfold daily_file_sink.init_filenames_q_,
    daily_filename_calculator.calc_dates_to_filenames, details_os.get_directory_files.
  exec_in_goal. fold dates.
  assert (Hpos : (if (0 <? mf)%nat && (mf <? length dates)%nat
                  then (length dates - mf)%nat else O) = pos).
  { subst pos. destruct (Nat.ltb_spec 0 mf); [|lia].
    destruct (Nat.ltb_spec mf (length dates)); simpl; lia. }
  rewrite Hpos.
  rewrite daily_push_existing;
    [|simpl; rewrite length_map, length_drop; subst pos; lia].
  exec_in_goal. destruct (Nat.ltb_spec 0 mf) as [_|]; [|lia]. simpl.
  destruct delete_old_file_on_init; [|reflexivity].
  rewrite daily_remove_all_run. reflexivity.
Qed.

#[local] Arguments daily_file_sink.init_filenames_q_ : simpl never.

(** The constructor of the daily sink, when the rotation time is in range
    and the file of the day can be opened: it opens this file and, when a
    bound on the files is set, recovers the queue from the listing of the
    directory and the disk as it is then. *)
Lemma daily_ctor_run (FileNameCalc_ : FileNameCalc) (base : string) (h m : Z)
    (truncate : bool) (max_files : nat) (delete_old : bool) (tp : option Z) (w : World) :
  let init_file := calc_filename base (now_tm (utc_offset w) (default (clock w) tp)) in
  let w1 := record_event (ev_fopen init_file truncate None)
              (set_files (file_helper.fopen_files init_file truncate (files w)) w) in
  let dates :=
    fold_left (daily_filename_calculator.add_dir_file base)
      (directory w (details_os.dir_name base)) [] in
  let first_valid_file_pos := (length dates - max_files)%nat in
  0 <= h <= 23 -> 0 <= m <= 59 ->
  open_errno w init_file = None ->
  daily_file_sink.ctor base h m truncate max_files delete_old tp w =
    (returns
       (daily_file_sink.mk base h m (daily_rotation_point (utc_offset w) (clock w) h m)
          (file_helper.mk init_file true) truncate max_files
          (if (0 <? max_files)%nat
           then circular_q.mk max_files
                  (filter (on_disk w1) (map snd (drop first_valid_file_pos dates)))
           else circular_q.default)
          false),
     if (0 <? max_files)%nat && delete_old
     then removed_all (map snd (take first_valid_file_pos dates)) w1
     else w1).
Proof.
  intros init_file w1 dates pos Hh Hm Hopen. subst init_file w1.
  unfold daily_file_sink.ctor, construct, daily_file_sink.on_file_helper,
    file_helper.open, file_helper.close.
  assert (Hrange : (h <? 0) || (23 <? h) || (m <? 0) || (59 <? m) = false).
  { rewrite !orb_false_iff. repeat split; apply Z.ltb_ge; lia. }
  rewrite Hrange. exec_in_goal. rewrite Hopen. exec_in_goal.
  autorewrite with sink. exec_in_goal.
  destruct max_files as [|max_files]; exec_in_goal; [reflexivity|].
  change (0 <? S max_files)%nat with true. cbv iota.
  rewrite daily_init_filenames_q_run by (simpl; lia).
  exec_in_goal. fold dates. fold pos. destruct delete_old; reflexivity.
Qed.

(** C4, as amended. The recovery of the daily sink, run on a sink with a
    bound on the files, throws nothing. From the listing of the directory of
    the base name it builds the map from the date suffixes to the names, in
    the order of the suffixes, one name for each suffix; of the last
    [max_files_] entries of this map it takes, in this order, the names that
    are on the disk. The recovery of the minute sink does not list the
    directory: its queue holds, oldest first, the names of the files of the
    last [n] periods back from the time at which it runs, where the files
    of these periods are all on the disk, and [n] is [max_files_] or the file
    of the period before them is missing. *)
Theorem recovery_seeds_queue (FileNameCalc_ : FileNameCalc) :
  (forall (delete_old_file_on_init : bool) (w : World) (s : daily_file_sink.t),
      let base := daily_file_sink.base_filename_ s in
      let listing := directory w (details_os.dir_name base) in
      let dates := fold_left (daily_filename_calculator.add_dir_file base) listing [] in
      let first_valid_file_pos := (length dates - daily_file_sink.max_files_ s)%nat in
      (0 < daily_file_sink.max_files_ s)%nat ->
      daily_file_sink.init_filenames_q_ delete_old_file_on_init (w, s) =
        (returns tt,
         (if delete_old_file_on_init
          then removed_all (map snd (take first_valid_file_pos dates)) w
          else w,
          daily_file_sink.set_filenames_q_
            (circular_q.mk (daily_file_sink.max_files_ s)
               (filter (on_disk w) (map snd (drop first_valid_file_pos dates)))) s))
      /\ StronglySorted key_lt dates
      /\ (forall date file, In (date, file) dates ->
            In file listing /\
            daily_filename_calculator.extract_date_suffix base file = date /\ date <> "")
      /\ (forall file, In file listing ->
            daily_filename_calculator.extract_date_suffix base file <> "" ->
            exists file',
              In (daily_filename_calculator.extract_date_suffix base file, file') dates))
  /\
  (forall (w : World) (s : minute_file_sink.t),
      let name :=
        minute_probe_name (minute_file_sink.base_filename_ s) (utc_offset w) (clock w)
          (minute_file_sink.rotation_m_ s) in
      exists n,
        (n <= minute_file_sink.max_files_ s)%nat /\
        minute_file_sink.init_filenames_q_ (w, s) =
          (returns tt,
           (w, minute_file_sink.set_filenames_q_
                 (circular_q.mk (minute_file_sink.max_files_ s)
                    (rev (map name (seq 0 n)))) s)) /\
        (forall k, (k < n)%nat -> on_disk w (name k) = true) /\
        ((n < minute_file_sink.max_files_ s)%nat -> on_disk w (name n) = false)).
Proof.
  split.
  - intros delete_old w s base listing dates pos Hmax.
    split; [now apply daily_init_filenames_q_run | apply dates_to_filenames_spec].
  - intros w s name.
    destruct (minute_init_filenames_q_run FileNameCalc_ w s)
      as (n & Hn & Hrun & Hsome & Hnone).
    exists n. split; [exact Hn|]. split; [exact Hrun|]. split.
    + intros k Hk. apply bool_decide_eq_true_2. now apply Hsome.
    + intros Hlt. apply bool_decide_eq_false_2. unfold name. rewrite (Hnone Hlt).
      intros [? ?]. discriminate.
Qed.

Lemma recovery_seeds_queue_witness :
  (daily_file_sink.init_filenames_q_ false
     (fst scenario.recovery_st0, snd scenario.recovery_st0)
   = (returns tt,
      (fst scenario.recovery_st0,
       daily_file_sink.set_filenames_q_
         (circular_q.mk 3 [scenario.daily_03; scenario.daily_05])
         (snd scenario.recovery_st0)))
   /\ circular_q.items (daily_file_sink.filenames_q_ (snd scenario.recovery_st0))
      = [scenario.daily_03; scenario.daily_05])
  /\
  (minute_file_sink.init_filenames_q_ (FileNameCalc_ := minute_filename_calculator.calc)
     (fst scenario.minute_recovery_st0, snd scenario.minute_recovery_st0)
   = (returns tt,
      (fst scenario.minute_recovery_st0,
       minute_file_sink.set_filenames_q_
         (circular_q.mk 3 [scenario.min_29; scenario.min_30])
         (snd scenario.minute_recovery_st0)))
   /\ circular_q.items (minute_file_sink.filenames_q_ (snd scenario.minute_recovery_st0))
      = [scenario.min_29; scenario.min_30]).
Proof.
  split.
  - pose proof (proj1 (recovery_seeds_queue daily_filename_calculator.calc) false
                  (fst scenario.recovery_st0) (snd scenario.recovery_st0)) as H.
    cbv zeta in H. destruct H as (H & _); [vm_compute; lia|].
    split; [|vm_compute; reflexivity].
    rewrite H. vm_compute. reflexivity.
  - pose proof (proj2 (recovery_seeds_queue minute_filename_calculator.calc)
                  (fst scenario.minute_recovery_st0) (snd scenario.minute_recovery_st0))
      as H.
    cbv zeta in H. destruct H as (n & Hn & H & Hsome & Hnone).
    split; [|vm_compute; reflexivity].
    assert (Htwo : n = 2%nat).
    { destruct n as [|[|[|[|n]]]].
      - exfalso. assert (Hlt : (0 < 3)%nat) by lia. revert Hnone. vm_compute.
        intros Hnone. specialize (Hnone Hlt). discriminate Hnone.
      - exfalso. assert (Hlt : (1 < 3)%nat) by lia. revert Hnone. vm_compute.
        intros Hnone. specialize (Hnone ltac:(lia)). discriminate Hnone.
      - reflexivity.
      - exfalso. specialize (Hsome 2%nat ltac:(lia)). revert Hsome. vm_compute.
        discriminate.
      - exfalso. revert Hn. vm_compute. lia. }
    subst n. rewrite H. vm_compute. reflexivity.
Defined.

(** C4, as stated, does not hold. The minute sink does not list the
    directory: a file of the sink that is listed and on the disk, two
    minutes old, is not recovered when the file of one minute ago is
    missing, although three files are kept. *)
Lemma recovery_misses_files_on_disk :
  directory scenario.gap_world "logs" = [scenario.min_28]
  /\ daily_filename_calculator.extract_date_suffix "logs/min.txt" scenario.min_28 <> ""
  /\ on_disk (fst scenario.gap_st0) scenario.min_28 = true
  /\ minute_file_sink.max_files_ (snd scenario.gap_st0) = 3%nat
  /\ circular_q.items (minute_file_sink.filenames_q_ (snd scenario.gap_st0))
     = [scenario.min_30].
Proof. vm_compute. repeat split; try reflexivity. discriminate. Qed.

(** * Further properties *)

(** ** The rotation points *)

(** X1. In a zone with a constant offset from UTC, and at a time since the
    epoch from which 24 hours can be counted in the 64 bits of a time point,
    the daily sink with a rotation time in range computes a rotation point
    that is after the current time and at most 24 hours after it, and that
    falls on the rotation hour and minute, second zero, of local time. *)
Theorem daily_rotation_point_window (w : World) (s : daily_file_sink.t) :
  0 <= daily_file_sink.rotation_h_ s <= 23 ->
  0 <= daily_file_sink.rotation_m_ s <= 59 ->
  0 <= clock w ->
  clock w + hours 24 <= time_point_max ->
  exists t,
    daily_file_sink.next_rotation_tp_ (w, s) = (returns (from_time_t t), (w, s)) /\
    clock w < from_time_t t <= clock w + hours 24 /\
    (t + utc_offset w) mod 86400 =
      daily_file_sink.rotation_h_ s * 3600 + daily_file_sink.rotation_m_ s * 60 /\
    from_time_t t <= time_point_max.
Proof.
  intros Hh Hm Hnow Hfit.
  enough (H : exists t,
             daily_file_sink.next_rotation_tp_ (w, s) = (returns (from_time_t t), (w, s)) /\
             clock w < from_time_t t <= clock w + hours 24 /\
             (t + utc_offset w) mod 86400 =
               daily_file_sink.rotation_h_ s * 3600 + daily_file_sink.rotation_m_ s * 60).
  { destruct H as (t & Hrun & Hafter & Hday). exists t.
    split; [exact Hrun|]. split; [exact Hafter|]. split; [exact Hday | lia]. }
  unfold daily_file_sink.next_rotation_tp_. exec.
  unfold now_tm. rewrite mktime_localtime.
  pose proof (to_time_t_bounds (clock w)) as (Hb & _ & Hlow). specialize (Hlow Hnow).
  set (tnow := to_time_t (clock w)) in *.
  set (h := daily_file_sink.rotation_h_ s) in *.
  set (m := daily_file_sink.rotation_m_ s) in *.
  set (zone := utc_offset w) in *.
  destruct (clock w <? _) eqn:E.
  - eexists. split; [reflexivity|]. apply Z.ltb_lt in E. split; [split; [exact E|]|].
    + unfold from_time_t, hours, ticks_per_second in *. Z.div_mod_to_equations. lia.
    + Z.div_mod_to_equations. lia.
  - exists ((tnow + zone) / 86400 * 86400 + h * 3600 + m * 60 + 0 - zone + 86400).
    apply Z.ltb_ge in E. split; [|split; [split|]].
    + exec_in_goal. unfold from_time_t, hours. do 2 f_equal. ring.
    + unfold from_time_t, hours, ticks_per_second in *. Z.div_mod_to_equations. lia.
    + unfold from_time_t, hours, ticks_per_second in *. lia.
    + Z.div_mod_to_equations. lia.
Qed.

Lemma daily_rotation_point_window_witness :
  exists t,
    daily_file_sink.next_rotation_tp_ (fst scenario.daily_st0, snd scenario.daily_st0) =
      (returns (from_time_t t), (fst scenario.daily_st0, snd scenario.daily_st0)) /\
    clock (fst scenario.daily_st0) < from_time_t t <= clock (fst scenario.daily_st0) + hours 24 /\
    (t + utc_offset (fst scenario.daily_st0)) mod 86400 = 2 * 3600 + 30 * 60.
Proof.
  destruct (daily_rotation_point_window (fst scenario.daily_st0) (snd scenario.daily_st0))
    as (t & Hrun & Hafter & Hday & _).
  - vm_compute. split; discriminate.
  - vm_compute. split; discriminate.
  - vm_compute. discriminate.
  - vm_compute. discriminate.
  - exists t. split; [exact Hrun|]. split; [exact Hafter | exact Hday].
Defined.

(** X2. In a zone with a constant offset from UTC, and at a time since the
    epoch from which one period can be counted in the 64 bits of a time
    point, the minute sink with a period of 1 to 59 minutes computes a
    rotation point that is after the current time and at most one period
    after it, and that falls on second zero of a minute of local time. *)
Theorem minute_rotation_point_window (w : World) (s : minute_file_sink.t) :
  1 <= minute_file_sink.rotation_m_ s <= 59 ->
  0 <= clock w ->
  clock w + minutes (minute_file_sink.rotation_m_ s) <= time_point_max ->
  exists t,
    minute_file_sink.next_rotation_tp_ (w, s) = (returns (from_time_t t), (w, s)) /\
    clock w < from_time_t t <= clock w + minutes (minute_file_sink.rotation_m_ s) /\
    (t + utc_offset w) mod 60 = 0 /\
    from_time_t t <= time_point_max.
Proof.
  intros Hm Hnow Hfit.
  enough (H : exists t,
             minute_file_sink.next_rotation_tp_ (w, s) = (returns (from_time_t t), (w, s)) /\
             clock w < from_time_t t
               <= clock w + minutes (minute_file_sink.rotation_m_ s) /\
             (t + utc_offset w) mod 60 = 0).
  { destruct H as (t & Hrun & Hafter & Hmin). exists t.
    split; [exact Hrun|]. split; [exact Hafter|]. split; [exact Hmin | lia]. }
  unfold minute_file_sink.next_rotation_tp_. exec.
  unfold now_tm. rewrite minute_candidate.
  pose proof (to_time_t_bounds (clock w)) as (Hb & _ & Hlow). specialize (Hlow Hnow).
  set (tnow := to_time_t (clock w)) in *.
  set (m := minute_file_sink.rotation_m_ s) in *.
  set (zone := utc_offset w) in *.
  destruct (clock w <? _) eqn:E.
  - eexists. split; [reflexivity|]. apply Z.ltb_lt in E. split; [split; [exact E|]|].
    + unfold from_time_t, minutes, ticks_per_second in *. Z.div_mod_to_equations. nia.
    + Z.div_mod_to_equations. lia.
  - exists (tnow - (tnow + zone) mod 60 + m * 60).
    apply Z.ltb_ge in E. split; [|split; [split|]].
    + exec_in_goal. unfold from_time_t, minutes. do 2 f_equal. ring.
    + unfold from_time_t, minutes, ticks_per_second in *. Z.div_mod_to_equations. nia.
    + unfold from_time_t, minutes, ticks_per_second in *. lia.
    + Z.div_mod_to_equations. lia.
Qed.

Lemma minute_rotation_point_window_witness :
  exists t,
    minute_file_sink.next_rotation_tp_ (fst scenario.minute_st0, snd scenario.minute_st0) =
      (returns (from_time_t t), (fst scenario.minute_st0, snd scenario.minute_st0)) /\
    clock (fst scenario.minute_st0) < from_time_t t
      <= clock (fst scenario.minute_st0) + minutes 1 /\
    (t + utc_offset (fst scenario.minute_st0)) mod 60 = 0.
Proof.
  destruct (minute_rotation_point_window (fst scenario.minute_st0) (snd scenario.minute_st0))
    as (t & Hrun & Hafter & Hmin & _).
  - vm_compute. split; discriminate.
  - vm_compute. discriminate.
  - vm_compute. discriminate.
  - exists t. split; [exact Hrun|]. split; [exact Hafter | exact Hmin].
Defined.

(** ** Writes *)

Ltac unfold_daily_log :=
  unfold daily_file_sink.log, daily_file_sink.sink_it_, lock_guard,
    daily_file_sink.on_file_helper, file_helper.open, file_helper.close,
    file_helper.write, daily_file_sink.delete_old_, daily_file_sink.filename,
    lock_guard, file_helper.filename,
    details_os.remove_if_exists, details_os.remove, details_os.path_exists.

(** The files other than [f] after a write to [f]. *)
Lemma alter_other {A} (g : A -> A) (f f' : string) (fs : gmap string A) :
  f' <> f -> alter g f fs !! f' = fs !! f'.
Proof. intros H. now apply lookup_alter_ne. Qed.

(** X3. A write to either sink before the rotation point, the lock being
    free, makes one call to the operating system: the write of the formatted
    record to the current file. It opens, closes and removes nothing, and
    leaves the other files, the queue of names and the mark of the minute
    sink's first file, if cleared, as they are. *)
Theorem write_before_rotation_point (Mtx : Mutex) (FileNameCalc_ : FileNameCalc)
    (format : log_msg -> string) (w : World) (msg : log_msg) :
  (forall s : daily_file_sink.t,
      daily_file_sink.mutex_ s = false ->
      msg_time msg < daily_file_sink.rotation_tp_ s ->
      let st' := snd (daily_file_sink.log Mtx format msg (w, s)) in
      let current := file_helper.filename_ (daily_file_sink.file_helper_ s) in
      (exists err, events_since w (fst st') = [ev_fwrite current (format msg) err]) /\
      (forall f, f <> current -> files (fst st') !! f = files w !! f) /\
      snd st' = s)
  /\
  (forall s : minute_file_sink.t,
      minute_file_sink.mutex_ s = false ->
      msg_time msg < minute_file_sink.rotation_tp_ s ->
      let st' := snd (minute_file_sink.log Mtx format msg (w, s)) in
      let current := file_helper.filename_ (minute_file_sink.file_helper_ s) in
      (exists err, events_since w (fst st') = [ev_fwrite current (format msg) err]) /\
      (forall f, f <> current -> files (fst st') !! f = files w !! f) /\
      snd st' = minute_file_sink.set_remove_init_file_ false s).
Proof.
  split.
  - intros s. destruct s as [base h m tp [fname fd] tr mf q mx]. intros Hmx Htp.
    exec. subst mx.
    destruct (daily_file_sink.log _ _ _ _) as [r [w' s']] eqn:E. exec. revert E.
    unfold_daily_log. apply Z.leb_gt in Htp.
    destruct Mtx; run; intros E; simplify_eq; events;
      (split; [eexists; reflexivity|]); (split; [|reflexivity]);
      intros f Hf; try reflexivity; now apply alter_other.
  - intros s. destruct s as [base tp [fname fd] tr mf rm q ri mx]. intros Hmx Htp.
    exec. subst mx.
    destruct (minute_file_sink.log _ _ _ _) as [r [w' s']] eqn:E. exec. revert E.
    unfold_minute_log. apply Z.leb_gt in Htp.
    destruct Mtx; run; intros E; simplify_eq; events;
      (split; [eexists; reflexivity|]); (split; [|reflexivity]);
      intros f Hf; try reflexivity; now apply alter_other.
Qed.

Lemma write_before_rotation_point_witness :
  snd (snd (daily_file_sink.log (FileNameCalc_ := daily_filename_calculator.calc)
              std_mutex scenario.format (mk_log_msg scenario.t0 "line")
              (fst scenario.daily_st0, snd scenario.daily_st0)))
  = snd scenario.daily_st0
  /\ snd (snd (minute_file_sink.log (FileNameCalc_ := minute_filename_calculator.calc)
                 std_mutex scenario.format (mk_log_msg scenario.t0 "line")
                 (fst scenario.minute_st0, snd scenario.minute_st0)))
     = minute_file_sink.set_remove_init_file_ false (snd scenario.minute_st0).
Proof.
  split.
  - assert (Hfree : daily_file_sink.mutex_ (snd scenario.daily_st0) = false)
      by (vm_compute; reflexivity).
    assert (Hearly : msg_time (mk_log_msg scenario.t0 "line")
                     < daily_file_sink.rotation_tp_ (snd scenario.daily_st0))
      by (vm_compute; reflexivity).
    pose proof (write_before_rotation_point std_mutex daily_filename_calculator.calc
                  scenario.format (fst scenario.daily_st0) (mk_log_msg scenario.t0 "line"))
      as [H _].
    specialize (H (snd scenario.daily_st0) Hfree Hearly). cbv zeta in H.
    destruct H as (_ & _ & H). exact H.
  - assert (Hfree : minute_file_sink.mutex_ (snd scenario.minute_st0) = false)
      by (vm_compute; reflexivity).
    assert (Hearly : msg_time (mk_log_msg scenario.t0 "line")
                     < minute_file_sink.rotation_tp_ (snd scenario.minute_st0))
      by (vm_compute; reflexivity).
    pose proof (write_before_rotation_point std_mutex minute_filename_calculator.calc
                  scenario.format (fst scenario.minute_st0) (mk_log_msg scenario.t0 "line"))
      as [_ H].
    specialize (H (snd scenario.minute_st0) Hfree Hearly). cbv zeta in H.
    destruct H as (_ & _ & H). exact H.
Defined.

(** X4. A write to the daily sink that finds the lock free never returns
    only if the sink is built on [std::mutex], the rotation is due and a
    bound on the files is set; in every other case, and in every case for
    the minute sink, the write returns or throws and the lock is free again
    afterwards. *)
Theorem write_releases_lock (Mtx : Mutex) (FileNameCalc_ : FileNameCalc)
    (format : log_msg -> string) (w : World) (msg : log_msg) :
  (forall s : daily_file_sink.t,
      daily_file_sink.mutex_ s = false ->
      let r := daily_file_sink.log Mtx format msg (w, s) in
      (fst r = blocks ->
       Mtx = std_mutex /\ daily_file_sink.rotation_tp_ s <= msg_time msg /\
       (0 < daily_file_sink.max_files_ s)%nat) /\
      (fst r <> blocks -> daily_file_sink.mutex_ (snd (snd r)) = false))
  /\
  (forall s : minute_file_sink.t,
      minute_file_sink.mutex_ s = false ->
      let r := minute_file_sink.log Mtx format msg (w, s) in
      fst r <> blocks /\ minute_file_sink.mutex_ (snd (snd r)) = false).
Proof.
  split.
  - intros s. destruct s as [base h m tp [fname fd] tr mf q mx]. intros Hmx.
    exec. subst mx.
    destruct (daily_file_sink.log _ _ _ _) as [r [w' s']] eqn:E. exec. revert E.
    unfold_daily_log.
    destruct (Z.leb_spec tp (msg_time msg)) as [Htp|Htp];
      (destruct Mtx; run; intros E; simplify_eq; exec;
       split; intros; try congruence; try reflexivity;
       repeat split; try reflexivity; try lia; try (now apply Nat.ltb_lt)).
  - intros s. destruct s as [base tp [fname fd] tr mf rm q ri mx]. intros Hmx.
    exec. subst mx.
    destruct (minute_file_sink.log _ _ _ _) as [r [w' s']] eqn:E. exec. revert E.
    unfold_minute_log.
    destruct (Z.leb_spec tp (msg_time msg)) as [Htp|Htp];
      (destruct Mtx; run; intros E; simplify_eq; exec;
       split; try congruence; try reflexivity).
Qed.

Lemma write_releases_lock_witness :
  daily_file_sink.mutex_
    (snd (snd (daily_file_sink.log (FileNameCalc_ := daily_filename_calculator.calc)
                 std_mutex scenario.format (mk_log_msg scenario.t0 "line")
                 (fst scenario.daily_st0, snd scenario.daily_st0)))) = false
  /\ minute_file_sink.mutex_
       (snd (snd (minute_file_sink.log (FileNameCalc_ := minute_filename_calculator.calc)
                    std_mutex scenario.format
                    (mk_log_msg (scenario.t0 + scenario.minute) "line")
                    (fst scenario.minute_st0, snd scenario.minute_st0)))) = false.
Proof.
  split.
  - assert (Hfree : daily_file_sink.mutex_ (snd scenario.daily_st0) = false)
      by (vm_compute; reflexivity).
    pose proof (write_releases_lock std_mutex daily_filename_calculator.calc
                  scenario.format (fst scenario.daily_st0) (mk_log_msg scenario.t0 "line"))
      as [H _].
    specialize (H (snd scenario.daily_st0) Hfree). cbv zeta in H.
    destruct H as [_ H]. apply H. vm_compute. discriminate.
  - assert (Hfree : minute_file_sink.mutex_ (snd scenario.minute_st0) = false)
      by (vm_compute; reflexivity).
    pose proof (write_releases_lock std_mutex minute_filename_calculator.calc
                  scenario.format (fst scenario.minute_st0)
                  (mk_log_msg (scenario.t0 + scenario.minute) "line"))
      as [_ H].
    specialize (H (snd scenario.minute_st0) Hfree). cbv zeta in H.
    destruct H as [_ H]. exact H.
Defined.

(** X5. A sink that sets no bound on the files leaves the queue of names as
    it is on every write. The daily sink then removes no file; the minute
    sink removes only the file that its file helper names when the write
    starts, on a write that finds the mark set and the rotation due. *)
Theorem write_without_bound (Mtx : Mutex) (FileNameCalc_ : FileNameCalc)
    (format : log_msg -> string) (w : World) (msg : log_msg) :
  (forall s : daily_file_sink.t,
      daily_file_sink.mutex_ s = false ->
      daily_file_sink.max_files_ s = O ->
      let st' := snd (daily_file_sink.log Mtx format msg (w, s)) in
      daily_file_sink.filenames_q_ (snd st') = daily_file_sink.filenames_q_ s /\
      forall path err, ~ In (ev_remove path err) (events_since w (fst st')))
  /\
  (forall s : minute_file_sink.t,
      minute_file_sink.mutex_ s = false ->
      minute_file_sink.max_files_ s = O ->
      let st' := snd (minute_file_sink.log Mtx format msg (w, s)) in
      minute_file_sink.filenames_q_ (snd st') = minute_file_sink.filenames_q_ s /\
      forall path err,
        In (ev_remove path err) (events_since w (fst st')) ->
        minute_file_sink.remove_init_file_ s = true /\
        minute_file_sink.rotation_tp_ s <= msg_time msg /\
        path = file_helper.filename_ (minute_file_sink.file_helper_ s)).
Proof.
  split.
  - intros s. destruct s as [base h m tp [fname fd] tr mf q mx]. intros Hmx Hmf.
    exec. subst mx mf.
    destruct (daily_file_sink.log _ _ _ _) as [r [w' s']] eqn:E. exec. revert E.
    unfold_daily_log.
    destruct (Z.leb_spec tp (msg_time msg)) as [Htp|Htp];
      (destruct Mtx; run; intros E; simplify_eq; events;
       (split; [reflexivity|]); intros path err H; in_events H).
  - intros s. destruct s as [base tp [fname fd] tr mf rm q ri mx]. intros Hmx Hmf.
    exec. subst mx mf.
    destruct (minute_file_sink.log _ _ _ _) as [r [w' s']] eqn:E. exec. revert E.
    unfold_minute_log.
    destruct (Z.leb_spec tp (msg_time msg)) as [Htp|Htp];
      (destruct Mtx; run; intros E; simplify_eq; events;
       (split; [reflexivity|]); intros path err H; in_events H;
       repeat split; lia).
Qed.

Lemma write_without_bound_witness :
  daily_file_sink.filenames_q_
    (snd (snd (daily_file_sink.log (FileNameCalc_ := daily_filename_calculator.calc)
                 std_mutex scenario.format (mk_log_msg (scenario.t0 + scenario.day) "line")
                 (set_clock (scenario.t0 + scenario.day) (fst scenario.unbounded_daily_st0),
                  snd scenario.unbounded_daily_st0))))
  = daily_file_sink.filenames_q_ (snd scenario.unbounded_daily_st0)
  /\ minute_file_sink.filenames_q_
       (snd (snd (minute_file_sink.log (FileNameCalc_ := minute_filename_calculator.calc)
                    std_mutex scenario.format
                    (mk_log_msg (scenario.t0 + scenario.minute) "line")
                    (set_clock (scenario.t0 + scenario.minute)
                       (fst scenario.unbounded_minute_st0),
                     snd scenario.unbounded_minute_st0))))
     = minute_file_sink.filenames_q_ (snd scenario.unbounded_minute_st0)
  /\ (minute_file_sink.remove_init_file_ (snd scenario.unbounded_minute_st0) = true /\
      minute_file_sink.rotation_tp_ (snd scenario.unbounded_minute_st0)
      <= msg_time (mk_log_msg (scenario.t0 + scenario.minute) "line") /\
      scenario.min_30
      = file_helper.filename_
          (minute_file_sink.file_helper_ (snd scenario.unbounded_minute_st0))).
Proof.
  assert (Hfreed : daily_file_sink.mutex_ (snd scenario.unbounded_daily_st0) = false)
    by (vm_compute; reflexivity).
  assert (Hboundd : daily_file_sink.max_files_ (snd scenario.unbounded_daily_st0) = O)
    by (vm_compute; reflexivity).
  assert (Hfreem : minute_file_sink.mutex_ (snd scenario.unbounded_minute_st0) = false)
    by (vm_compute; reflexivity).
  assert (Hboundm : minute_file_sink.max_files_ (snd scenario.unbounded_minute_st0) = O)
    by (vm_compute; reflexivity).
  pose proof (proj1 (write_without_bound std_mutex daily_filename_calculator.calc
                       scenario.format
                       (set_clock (scenario.t0 + scenario.day)
                          (fst scenario.unbounded_daily_st0))
                       (mk_log_msg (scenario.t0 + scenario.day) "line"))
                (snd scenario.unbounded_daily_st0) Hfreed Hboundd) as Hd.
  pose proof (proj2 (write_without_bound std_mutex minute_filename_calculator.calc
                       scenario.format
                       (set_clock (scenario.t0 + scenario.minute)
                          (fst scenario.unbounded_minute_st0))
                       (mk_log_msg (scenario.t0 + scenario.minute) "line"))
                (snd scenario.unbounded_minute_st0) Hfreem Hboundm) as Hm.
  cbv zeta in Hd, Hm. destruct Hd as [Hd _], Hm as [Hm Hremoved].
  split; [exact Hd|]. split; [exact Hm|].
  apply (Hremoved scenario.min_30 None). vm_compute. right. left. reflexivity.
Defined.

(** ** Construction *)

Lemma remove_if_exists_other (name : string) (w : World) (f : string) :
  f <> name -> files (snd (details_os.remove_if_exists name w)) !! f = files w !! f.
Proof.
  intros Hne. unfold details_os.remove_if_exists, details_os.path_exists, details_os.remove.
  exec_in_goal. destruct (files w !! name) eqn:E.
  - rewrite bool_decide_eq_true_2 by eauto. rewrite E.
    destruct (remove_errno w name); simpl; [reflexivity|]. now apply lookup_delete_ne.
  - rewrite bool_decide_eq_false_2 by (intros [? ?]; congruence). reflexivity.
Qed.

Lemma remove_if_exists_removed (name : string) (w : World) :
  remove_errno w name = None ->
  files (snd (details_os.remove_if_exists name w)) !! name = None.
Proof.
  intros Hok. unfold details_os.remove_if_exists, details_os.path_exists, details_os.remove.
  exec_in_goal. destruct (files w !! name) eqn:E.
  - rewrite bool_decide_eq_true_2 by eauto. rewrite E, Hok. simpl. apply lookup_delete_eq.
  - rewrite bool_decide_eq_false_2 by (intros [? ?]; congruence). exact E.
Qed.

Lemma remove_if_exists_absent (name : string) (w : World) (f : string) :
  files w !! f = None -> files (snd (details_os.remove_if_exists name w)) !! f = None.
Proof.
  intros Habsent. destruct (String.string_dec f name) as [->|Hne].
  - unfold details_os.remove_if_exists, details_os.path_exists. exec_in_goal.
    rewrite bool_decide_eq_false_2 by (intros [? ?]; congruence). exact Habsent.
  - now rewrite remove_if_exists_other.
Qed.

Lemma remove_if_exists_oracle (name : string) (w : World) :
  remove_errno (snd (details_os.remove_if_exists name w)) = remove_errno w.
Proof.
  unfold details_os.remove_if_exists, details_os.path_exists, details_os.remove.
  exec_in_goal. destruct (bool_decide _); [|reflexivity].
  destruct (files w !! name); [|reflexivity]. now destruct (remove_errno w name).
Qed.

Lemma removed_all_oracle (names : list string) :
  forall w, remove_errno (removed_all names w) = remove_errno w.
Proof.
  induction names as [|name names IH]; intros w; [reflexivity|].
  unfold removed_all. cbn [fold_left]. fold (removed_all names).
  now rewrite IH, remove_if_exists_oracle.
Qed.

Lemma removed_all_other (names : list string) (f : string) :
  forall w, ~ In f names -> files (removed_all names w) !! f = files w !! f.
Proof.
  induction names as [|name names IH]; intros w Hin; [reflexivity|].
  unfold removed_all. cbn [fold_left]. fold (removed_all names).
  rewrite IH by (intros H; apply Hin; now right).
  apply remove_if_exists_other. intros ->. apply Hin. now left.
Qed.

Lemma removed_all_absent (names : list string) (f : string) :
  forall w, files w !! f = None -> files (removed_all names w) !! f = None.
Proof.
  induction names as [|name names IH]; intros w Habsent; [exact Habsent|].
  unfold removed_all. cbn [fold_left]. fold (removed_all names).
  apply IH. now apply remove_if_exists_absent.
Qed.

Lemma removed_all_removed (names : list string) (f : string) :
  forall w, In f names -> remove_errno w f = None -> files (removed_all names w) !! f = None.
Proof.
  induction names as [|name names IH]; intros w Hin Hok; [destruct Hin|].
  unfold removed_all. cbn [fold_left]. fold (removed_all names).
  destruct (String.string_dec name f) as [->|Hne].
  - apply removed_all_absent. now apply remove_if_exists_removed.
  - destruct Hin as [E|Hin]; [contradiction|].
    apply IH; [exact Hin|]. now rewrite remove_if_exists_oracle.
Qed.

(** In a sorted list every entry of a front part is before every entry of
    the rest. *)
Lemma sorted_take_drop {A} (R : A -> A -> Prop) (l : list A) :
  StronglySorted R l ->
  forall n x y, In x (take n l) -> In y (drop n l) -> R x y.
Proof.
  induction 1 as [|a l Hl IH Ha]; intros n x y Hx Hy.
  - destruct n; destruct Hx.
  - destruct n as [|n]; [destruct Hx|]. simpl in Hx, Hy.
    destruct Hx as [<-|Hx]; [|now apply (IH n)].
    rewrite List.Forall_forall in Ha. apply Ha.
    clear -Hy. revert n Hy. induction l as [|b l IHl]; intros [|n] Hy;
      simpl in *; auto. right. now apply (IHl n).
Qed.

(** The names of the older entries of the map from dates to names are not
    among the names of the last ones. *)
Lemma older_names_apart (base : string) (dir_files : list string) (n : nat) (f : string) :
  let dates := fold_left (daily_filename_calculator.add_dir_file base) dir_files [] in
  In f (map snd (take n dates)) -> ~ In f (map snd (drop n dates)).
Proof.
  intros dates Hold Hnew.
  destruct (dates_to_filenames_spec base dir_files) as (Hsorted & Hentries & _).
  fold dates in Hsorted, Hentries.
  apply in_map_iff in Hold, Hnew.
  destruct Hold as ([d1 f1] & E1 & Hold), Hnew as ([d2 f2] & E2 & Hnew).
  simpl in E1, E2. subst f1 f2.
  assert (Hd1 : daily_filename_calculator.extract_date_suffix base f = d1).
  { apply (Hentries d1 f). clear -Hold. revert n Hold.
    induction dates as [|a l IHl]; intros [|n] H; simpl in *; try tauto.
    destruct H as [H|H]; [now left | right; now apply (IHl n)]. }
  assert (Hd2 : daily_filename_calculator.extract_date_suffix base f = d2).
  { apply (Hentries d2 f). clear -Hnew. revert n Hnew.
    induction dates as [|a l IHl]; intros [|n] H; simpl in *; try tauto.
    right. now apply (IHl n). }
  pose proof (sorted_take_drop key_lt dates Hsorted n _ _ Hold Hnew) as Hlt.
  apply key_lt_neq in Hlt. simpl in Hlt. congruence.
Qed.

(** X6. A daily sink built with a bound on the files and asked to delete
    the old files on start calls [remove_if_exists] on the names of the
    entries before the last [max_files] of the map from dates to names, and
    throws nothing whatever these calls return: such a file is gone when its
    removal is allowed, every other file of the disk is as the opening of
    the file of the day left it, and the files of the names in the queue are
    on the disk. *)
Theorem ctor_deletes_older_files (FileNameCalc_ : FileNameCalc)
    (base : string) (h m : Z) (truncate : bool) (max_files : nat) (tp : option Z)
    (w : World) :
  let init_file := calc_filename base (now_tm (utc_offset w) (default (clock w) tp)) in
  let w1 := record_event (ev_fopen init_file truncate None)
              (set_files (file_helper.fopen_files init_file truncate (files w)) w) in
  let dates :=
    fold_left (daily_filename_calculator.add_dir_file base)
      (directory w (details_os.dir_name base)) [] in
  let older := map snd (take (length dates - max_files) dates) in
  (0 < max_files)%nat ->
  0 <= h <= 23 -> 0 <= m <= 59 ->
  open_errno w init_file = None ->
  exists s w',
    daily_file_sink.ctor base h m truncate max_files true tp w = (returns s, w') /\
    (forall f, In f older -> remove_errno w f = None -> files w' !! f = None) /\
    (forall f, ~ In f older -> files w' !! f = files w1 !! f) /\
    (forall f, In f (circular_q.items (daily_file_sink.filenames_q_ s)) ->
               is_Some (files w' !! f)).
Proof.
  intros init_file w1 dates older Hmax Hh Hm Hopen.
  pose proof (daily_ctor_run FileNameCalc_ base h m truncate max_files true tp w
                Hh Hm Hopen) as Hrun.
  cbv zeta in Hrun. fold init_file in Hrun. fold w1 in Hrun. fold dates in Hrun.
  fold older in Hrun.
  destruct (Nat.ltb_spec 0 max_files) as [_|]; [|lia]. simpl in Hrun.
  do 2 eexists. split; [exact Hrun|]. split; [|split].
  - intros f Hin Hok. now apply removed_all_removed.
  - intros f Hin. now apply removed_all_other.
  - simpl. intros f Hin. apply list_elem_of_In, list_elem_of_filter in Hin.
    destruct Hin as [Hdisk Hin]. apply list_elem_of_In in Hin.
    rewrite removed_all_other.
    + destruct (on_disk w1 f) eqn:E; [|destruct Hdisk].
      unfold on_disk in E. now apply bool_decide_eq_true_1 in E.
    + intros Hold. now apply (older_names_apart _ _ _ _ Hold).
Qed.

Lemma ctor_deletes_older_files_witness :
  exists s w',
    daily_file_sink.ctor (FileNameCalc_ := daily_filename_calculator.calc)
      "logs/daily.txt" 2 30 false 1 true None scenario.stale_world = (returns s, w') /\
    files w' !! scenario.daily_03 = None.
Proof.
  destruct (ctor_deletes_older_files daily_filename_calculator.calc
              "logs/daily.txt" 2 30 false 1 None scenario.stale_world)
    as (s & w' & Hctor & Hgone & _); [lia | lia | lia | vm_compute; reflexivity |].
  exists s, w'. split; [exact Hctor|]. apply Hgone.
  - vm_compute. left. reflexivity.
  - vm_compute. reflexivity.
Defined.

(** X7. When the file that a constructor opens cannot be opened, the
    constructor of either sink throws with the error number of the failed
    call, and has made no other call to the operating system: the disk is as
    it was, nothing is recovered and nothing is removed. *)
Theorem ctor_open_failure (FileNameCalc_ : FileNameCalc) (base : string)
    (truncate : bool) (max_files : nat) (w : World) (e : Z) :
  (forall h m delete_old tp,
      let init_file := calc_filename base (now_tm (utc_offset w) (default (clock w) tp)) in
      0 <= h <= 23 -> 0 <= m <= 59 ->
      open_errno w init_file = Some e ->
      exists text w',
        daily_file_sink.ctor base h m truncate max_files delete_old tp w =
          (throws (spdlog_ex text (Some e)), w') /\
        events_since w w' = [ev_fopen init_file truncate (Some e)] /\
        files w' = files w)
  /\
  (forall m,
      let init_file := calc_filename base (now_tm (utc_offset w) (clock w)) in
      0 <= m <= 59 ->
      open_errno w init_file = Some e ->
      exists text w',
        minute_file_sink.ctor base truncate max_files m w =
          (throws (spdlog_ex text (Some e)), w') /\
        events_since w w' = [ev_fopen init_file truncate (Some e)] /\
        files w' = files w).
Proof.
  split.
  - intros h m delete_old tp init_file Hh Hm Hopen. subst init_file.
    unfold daily_file_sink.ctor, construct, daily_file_sink.on_file_helper,
      file_helper.open, file_helper.close.
    assert (Hrange : (h <? 0) || (23 <? h) || (m <? 0) || (59 <? m) = false).
    { rewrite !orb_false_iff. repeat split; apply Z.ltb_ge; lia. }
    rewrite Hrange. exec_in_goal. rewrite Hopen. exec_in_goal.
    do 2 eexists. split; [reflexivity|]. split; [|reflexivity].
    unfold events_since. simpl. apply events_since_app.
  - intros m init_file Hm Hopen. subst init_file.
    unfold minute_file_sink.ctor, construct, minute_file_sink.on_file_helper,
      file_helper.open, file_helper.close.
    assert (Hrange : (m <? 0) || (59 <? m) = false).
    { apply orb_false_iff. split; apply Z.ltb_ge; lia. }
    rewrite Hrange. exec_in_goal. rewrite Hopen. exec_in_goal.
    do 2 eexists. split; [reflexivity|]. split; [|reflexivity].
    unfold events_since. simpl. apply events_since_app.
Qed.

Lemma ctor_open_failure_witness :
  (exists text w',
      daily_file_sink.ctor (FileNameCalc_ := daily_filename_calculator.calc)
        "logs/daily.txt" 2 30 false 2 true None scenario.locked_world =
        (throws (spdlog_ex text (Some scenario.EACCES)), w') /\
      files w' = files scenario.locked_world)
  /\
  (exists text w',
      minute_file_sink.ctor (FileNameCalc_ := minute_filename_calculator.calc)
        "logs/min.txt" false 2 1 scenario.locked_world =
        (throws (spdlog_ex text (Some scenario.EACCES)), w') /\
      files w' = files scenario.locked_world).
Proof.
  split.
  - pose proof (ctor_open_failure daily_filename_calculator.calc "logs/daily.txt" false 2
                  scenario.locked_world scenario.EACCES) as [H _].
    destruct (H 2 30 true None) as (text & w' & Hctor & _ & Hfiles);
      [lia | lia | reflexivity |].
    exists text, w'. split; [exact Hctor | exact Hfiles].
  - pose proof (ctor_open_failure minute_filename_calculator.calc "logs/min.txt" false 2
                  scenario.locked_world scenario.EACCES) as [_ H].
    destruct (H 1) as (text & w' & Hctor & _ & Hfiles); [lia | reflexivity |].
    exists text, w'. split; [exact Hctor | exact Hfiles].
Defined.

(** ** File names *)

Lemma str_drop_S n s : Str.drop (S n) s = Str.drop 1 (Str.drop n s).
Proof.
  revert s. induction n as [|n IH]; intros [|x s]; try reflexivity.
  change (Str.drop (S (S n)) (String x s)) with (Str.drop (S n) s).
  change (Str.drop (S n) (String x s)) with (Str.drop n s). apply IH.
Qed.

(** X9. The date suffix extracted from a file name is free of the symbol
    that separates the base name from the date. When it is not empty, the
    file name starts with the base name without its extension and this
    symbol, and the suffix is what follows the last such symbol of the file
    name without its extension. *)
Theorem extract_date_suffix_shape (base filename : string) :
  let suffix := daily_filename_calculator.extract_date_suffix base filename in
  Str.find_last_of daily_filename_calculator.filename_prefix_symbol suffix = None /\
  (suffix <> "" ->
   Str.starts_with
     (fst (split_by_extension base) +:+ daily_filename_calculator.filename_prefix_symbol)
     filename = true /\
   exists front,
     fst (split_by_extension filename) =
       front +:+ daily_filename_calculator.filename_prefix_symbol +:+ suffix).
Proof.
  intros suffix.
  assert (Hcases :
            suffix = "" \/
            (Str.starts_with
               (fst (split_by_extension base)
                  +:+ daily_filename_calculator.filename_prefix_symbol) filename = true /\
             exists i, Str.find_last_of daily_filename_calculator.filename_prefix_symbol
                         (fst (split_by_extension filename)) = Some i /\
                       suffix = Str.drop (S i) (fst (split_by_extension filename)))).
  { subst suffix. unfold daily_filename_calculator.extract_date_suffix.
    destruct (Str.starts_with _ filename); [|now left].
    destruct (Str.find_last_of _ (fst (split_by_extension filename))) as [i|];
      [|now left].
    right. split; [reflexivity|]. now exists i. }
  clearbody suffix. destruct Hcases as [->|(Hstart & i & Hlast & ->)].
  - split; [reflexivity | congruence].
  - set (name := fst (split_by_extension filename)) in *.
    destruct (find_last_of_cut _ _ _ Hlast) as (c & rest & Hdrop & Hc & Hrest & _).
    apply mem_single in Hc. subst c.
    rewrite str_drop_S, Hdrop. change (Str.drop 1 (String "_" rest)) with rest.
    split; [exact Hrest|].
    intros _. split; [exact Hstart|]. exists (Str.take i name).
    rewrite <- (str_take_drop i name) at 1. now rewrite Hdrop.
Qed.

Lemma underscore_plain : no_dot_sep "_"%char.
Proof. split; reflexivity. Qed.

Lemma date_chars_plain s : Str.Forall date_char s -> Str.Forall no_dot_sep s.
Proof. apply Forall_impl_str. intros c Hc. now apply date_char_plain. Qed.

(** X15. The date suffix that the daily calculator extracts from a name made
    by the minute calculator is the field of the minutes alone: the year,
    month, day and hour of the name are before the last separating symbol.
    The recovery of the daily sink, which always extracts with the daily
    calculator, so keys the files of a sink that names its files by the
    minute calculator by their minute of the hour. *)
Theorem extract_date_suffix_of_minute_name (base : string) (now_tm : tm) :
  daily_filename_calculator.extract_date_suffix base
    (minute_filename_calculator.calc_filename base now_tm)
  = fmt_0d 2 (tm_min now_tm).
Proof.
  set (Mi := fmt_0d 2 (tm_min now_tm)).
  set (P := "_" +:+ fmt_0d 4 (tm_year now_tm + 1900) +:+ "-"
              +:+ fmt_0d 2 (tm_mon now_tm + 1) +:+ "-" +:+ fmt_0d 2 (tm_mday now_tm)
              +:+ "-" +:+ fmt_0d 2 (tm_hour now_tm)).
  assert (HMi : Str.Forall date_char Mi) by apply fmt_0d_date_char.
  assert (HP : Str.Forall no_dot_sep P).
  { subst P. change ("_" +:+ ?s) with (String "_" s).
    split; [apply underscore_plain|].
    repeat (apply Forall_app_str; split);
      try (apply date_chars_plain, fmt_0d_date_char);
      (split; [split; reflexivity | exact I]). }
  assert (Hmid : Str.Forall no_dot_sep (P +:+ String "_" Mi)).
  { apply Forall_app_str. split; [exact HP|].
    split; [apply underscore_plain | now apply date_chars_plain]. }
  assert (Hfree : Str.find_last_of "_" Mi = None).
  { apply find_last_of_Forall. eapply Forall_impl_str; [|exact HMi].
    intros c Hc. now apply date_char_plain. }
  pose proof (split_by_extension_insert base _ Hmid) as Hsplit.
  destruct (split_by_extension base) as [stem ext] eqn:Hbase.
  cbn [fst snd] in Hsplit.
  assert (Hname : minute_filename_calculator.calc_filename base now_tm
                  = stem +:+ (P +:+ String "_" Mi) +:+ ext).
  { unfold minute_filename_calculator.calc_filename. rewrite Hbase.
    subst P Mi. repeat rewrite app_assoc_str. reflexivity. }
  assert (Hstart : stem +:+ (P +:+ String "_" Mi) +:+ ext
                   = (stem +:+ "_") +:+ (fmt_0d 4 (tm_year now_tm + 1900) +:+ "-"
                       +:+ fmt_0d 2 (tm_mon now_tm + 1) +:+ "-"
                       +:+ fmt_0d 2 (tm_mday now_tm) +:+ "-"
                       +:+ fmt_0d 2 (tm_hour now_tm) +:+ "_" +:+ Mi +:+ ext)).
  { subst P. repeat rewrite app_assoc_str. reflexivity. }
  unfold daily_filename_calculator.extract_date_suffix,
    daily_filename_calculator.filename_prefix_symbol.
  rewrite Hname, Hbase, Hsplit. cbn [fst].
  rewrite Hstart at 1. rewrite starts_with_app.
  rewrite <- (app_assoc_str stem P), find_last_of_app.
  cbn [Str.find_last_of]. rewrite Hfree. cbn [Str.mem Ascii.eqb Bool.eqb orb].
  rewrite Nat.add_0_r. apply str_drop_S_app.
Qed.

(** X16. Of the names of the listing that have the same date suffix, the
    map from dates to names keeps the last: a name of the listing with a date
    suffix is in the map when no later name of the listing has the same
    suffix. *)
Theorem dates_to_filenames_keeps_last (base : string) (before after : list string)
    (file : string) :
  daily_filename_calculator.extract_date_suffix base file <> "" ->
  (forall file', In file' after ->
     daily_filename_calculator.extract_date_suffix base file' <>
     daily_filename_calculator.extract_date_suffix base file) ->
  In (daily_filename_calculator.extract_date_suffix base file, file)
     (fold_left (daily_filename_calculator.add_dir_file base)
        (before ++ file :: after) []).
Proof.
  intros Hdate. induction after as [|last after IH] using rev_ind; intros Hafter.
  - destruct (dates_to_filenames_spec base before) as (Hsorted & _).
    rewrite fold_left_app. simpl. unfold daily_filename_calculator.add_dir_file at 1.
    destruct (daily_filename_calculator.extract_date_suffix base file) eqn:E;
      [congruence|]. simpl.
    apply (assign_spec _ file _ Hsorted). left. now split.
  - replace (before ++ file :: after ++ [last]) with ((before ++ file :: after) ++ [last])
      by (now rewrite <- app_assoc).
    destruct (dates_to_filenames_spec base (before ++ file :: after)) as (Hsorted & _).
    rewrite fold_left_app. simpl.
    assert (IH' : In (daily_filename_calculator.extract_date_suffix base file, file)
                    (fold_left (daily_filename_calculator.add_dir_file base)
                       (before ++ file :: after) [])).
    { apply IH. intros file' Hin. apply Hafter. apply in_or_app. now left. }
    unfold daily_filename_calculator.add_dir_file at 1.
    destruct (daily_filename_calculator.extract_date_suffix base last) eqn:E;
      [exact IH'|]. simpl.
    apply (assign_spec _ last _ Hsorted). right. split; [|exact IH'].
    rewrite <- E. intros Heq. apply (Hafter last); [|now symmetry].
    apply in_or_app. right. now left.
Qed.

Lemma dates_to_filenames_keeps_last_witness :
  In (daily_filename_calculator.extract_date_suffix "logs/daily.txt" scenario.daily_04,
      scenario.daily_04)
     (fold_left (daily_filename_calculator.add_dir_file "logs/daily.txt")
        ([scenario.daily_05; scenario.daily_04_log]
           ++ scenario.daily_04 :: [scenario.daily_03]) [])
  /\ daily_filename_calculator.extract_date_suffix "logs/daily.txt" scenario.daily_04_log
     = daily_filename_calculator.extract_date_suffix "logs/daily.txt" scenario.daily_04
  /\ fold_left (daily_filename_calculator.add_dir_file "logs/daily.txt")
       ([scenario.daily_05; scenario.daily_04_log]
          ++ scenario.daily_04 :: [scenario.daily_03]) []
     = [("2024-01-03", scenario.daily_03); ("2024-01-04", scenario.daily_04);
        ("2024-01-05", scenario.daily_05)].
Proof.
  split; [|split; vm_compute; reflexivity].
  apply (dates_to_filenames_keeps_last "logs/daily.txt"
           [scenario.daily_05; scenario.daily_04_log] [scenario.daily_03]
           scenario.daily_04).
  - vm_compute. discriminate.
  - intros file' [<-|[]]. vm_compute. discriminate.
Defined.

(** ** android_sink *)

Lemma log_calls_snoc (cs : list android_sink.call) (c : android_sink.call) :
  length (List.filter android_sink.is_log_call (cs ++ [c])) =
  (length (List.filter android_sink.is_log_call cs)
   + if android_sink.is_log_call c then 1 else 0)%nat.
Proof.
  rewrite List.filter_app, length_app. simpl.
  now destruct (android_sink.is_log_call c).
Qed.

(** The runs of [sink_it_] through [android_log]: the answers of the library
    to the first, second and third write decide how many writes are made,
    and the last answer decides the outcome. *)
Lemma android_sink_it_cases (BufferID : Z) (format : android_sink.log_msg -> string)
    (self : android_sink.t) (msg : android_sink.log_msg) (l : android_sink.Liblog) :
  let write :=
    let prio := android_sink.convert_to_android_ (android_sink.msg_level msg) in
    let text :=
      android_sink.c_str
        ((if android_sink.use_raw_msg_ self then android_sink.msg_payload msg
          else format msg) +:+ String zero EmptyString) in
    if BufferID =? android_sink.LOG_ID_MAIN
    then android_sink.log_write prio (android_sink.c_str (android_sink.tag_ self)) text
    else android_sink.log_buf_write BufferID prio
           (android_sink.c_str (android_sink.tag_ self)) text in
  let answer k :=
    android_sink.results l
      (length (List.filter android_sink.is_log_call (android_sink.calls l)) + k) in
  let again := [android_sink.sleep_for_millis 5; write] in
  let failed ret_ : outcome unit :=
    if ret_ <? 0 then throws (spdlog_ex "logging to Android failed" (Some ret_))
    else returns tt in
  android_sink.write_message_ self = false ->
  android_sink.sink_it_ BufferID format self msg l =
    if answer O =? - android_sink.EPERM then
      (returns tt, android_sink.mk_Liblog (android_sink.results l)
                     (android_sink.calls l ++ [write]))
    else if negb (answer O =? -11) then
      (failed (answer O),
       android_sink.mk_Liblog (android_sink.results l) (android_sink.calls l ++ [write]))
    else if negb (answer 1%nat =? -11) then
      (failed (answer 1%nat),
       android_sink.mk_Liblog (android_sink.results l)
         (android_sink.calls l ++ write :: again))
    else
      (failed (answer 2%nat),
       android_sink.mk_Liblog (android_sink.results l)
         (android_sink.calls l ++ write :: again ++ again)).
Proof.
  intros write answer again failed Hwm.
  assert (Hwrite : android_sink.is_log_call write = true).
  { subst write. cbv zeta. now destruct (BufferID =? android_sink.LOG_ID_MAIN). }
  unfold android_sink.sink_it_. rewrite Hwm.
  unfold android_sink.android_log, android_sink.next_result, android_sink.record_call.
  cbn [bind fst snd android_sink.calls android_sink.results]. fold write.
  subst answer. cbv beta. rewrite Nat.add_0_r.
  set (n := length (List.filter android_sink.is_log_call (android_sink.calls l))).
  destruct (android_sink.results l n =? - android_sink.EPERM) eqn:Eperm; [reflexivity|].
  unfold android_sink.SPDLOG_ANDROID_RETRIES.
  cbn [android_sink.retry bind fst snd modify ret].
  destruct (android_sink.results l n =? -11) eqn:E0; cbn [negb].
  2:{ subst failed. cbv beta. cbn [bind fst snd modify ret throw].
      now destruct (android_sink.results l n <? 0). }
  unfold android_sink.android_log, android_sink.next_result, android_sink.record_call.
  cbn [bind fst snd modify ret android_sink.calls android_sink.results]. fold write.
  rewrite !log_calls_snoc, Hwrite. cbn [android_sink.is_log_call]. fold n.
  rewrite Nat.add_0_r.
  destruct (android_sink.results l (n + 1) =? -11) eqn:E1; cbn [negb].
  2:{ subst failed again. cbv beta. cbn [bind fst snd modify ret throw].
      rewrite <- !app_assoc. now destruct (android_sink.results l (n + 1) <? 0). }
  cbn [bind fst snd modify ret throw android_sink.calls android_sink.results].
  rewrite !log_calls_snoc, Hwrite. cbn [android_sink.is_log_call]. fold n.
  rewrite !Nat.add_0_r. rewrite <- !Nat.add_assoc. cbn [Nat.add].
  subst failed again. cbv beta. cbn [bind fst snd modify ret throw].
  rewrite <- !app_assoc. now destruct (android_sink.results l (n + 2) <? 0).
Qed.

(** X10. Without the entry point of API level 30, [sink_it_] writes the
    record to the Android log at least once and at most three times. Each
    write after the first follows a sleep of five milliseconds and an answer
    of -11 to the write before; the writes are the same call, and nothing
    else is called. *)
Theorem android_write_attempts (BufferID : Z) (format : android_sink.log_msg -> string)
    (self : android_sink.t) (msg : android_sink.log_msg) (l : android_sink.Liblog) :
  let write :=
    let prio := android_sink.convert_to_android_ (android_sink.msg_level msg) in
    let text :=
      android_sink.c_str
        ((if android_sink.use_raw_msg_ self then android_sink.msg_payload msg
          else format msg) +:+ String zero EmptyString) in
    if BufferID =? android_sink.LOG_ID_MAIN
    then android_sink.log_write prio (android_sink.c_str (android_sink.tag_ self)) text
    else android_sink.log_buf_write BufferID prio
           (android_sink.c_str (android_sink.tag_ self)) text in
  let answer k :=
    android_sink.results l
      (length (List.filter android_sink.is_log_call (android_sink.calls l)) + k) in
  android_sink.write_message_ self = false ->
  exists retries,
    (retries <= android_sink.SPDLOG_ANDROID_RETRIES)%nat /\
    android_sink.calls (snd (android_sink.sink_it_ BufferID format self msg l)) =
      android_sink.calls l ++ write ::
        concat (repeat [android_sink.sleep_for_millis 5; write] retries) /\
    (forall k, (k < retries)%nat -> answer k = -11).
Proof.
  intros write answer Hwm.
  rewrite (android_sink_it_cases BufferID format self msg l Hwm). fold write.
  cbv zeta. change (android_sink.results l (_ + 0)) with (answer 0%nat).
  change (android_sink.results l (_ + 1)) with (answer 1%nat).
  change (android_sink.results l (_ + 2)) with (answer 2%nat).
  destruct (answer O =? - android_sink.EPERM);
    [exists O; split; [unfold android_sink.SPDLOG_ANDROID_RETRIES; lia|];
     split; [reflexivity | intros; lia]|].
  destruct (answer O =? -11) eqn:E0; cbn [negb];
    [|exists O; split; [unfold android_sink.SPDLOG_ANDROID_RETRIES; lia|];
      split; [reflexivity | intros; lia]].
  apply Z.eqb_eq in E0.
  destruct (answer 1%nat =? -11) eqn:E1; cbn [negb].
  - apply Z.eqb_eq in E1. exists 2%nat. split; [reflexivity|]. split; [reflexivity|].
    intros [|[|k]] Hk; [exact E0 | exact E1 | lia].
  - exists 1%nat. split; [unfold android_sink.SPDLOG_ANDROID_RETRIES; lia|].
    split; [reflexivity|]. intros [|k] Hk; [exact E0 | lia].
Qed.

Lemma android_write_attempts_witness :
  exists retries,
    (retries <= 2)%nat /\
    length (android_sink.calls
              (snd (android_sink.sink_it_ android_sink.LOG_ID_MAIN scenario.android_format
                      scenario.android scenario.android_msg scenario.busy_liblog)))
    = (1 + 2 * retries)%nat.
Proof.
  destruct (android_write_attempts android_sink.LOG_ID_MAIN scenario.android_format
              scenario.android scenario.android_msg scenario.busy_liblog eq_refl)
    as (retries & Hbound & Hcalls & _).
  exists retries. split; [exact Hbound|]. rewrite Hcalls. simpl.
  clear. induction retries as [|n IH]; simpl in *; lia.
Defined.

(** X11. Without the entry point of API level 30, the outcome of [sink_it_]
    is decided by the answer to the last write that it made: the call
    returns when that answer is not negative, and throws the exception of a
    failed write with that answer when it is negative, except that an answer
    of [-EPERM] to a first and only write is taken in silence. So [-EPERM]
    answered to a write made again after -11 is thrown, and so are three
    answers of -11. *)
Theorem android_outcome (BufferID : Z) (format : android_sink.log_msg -> string)
    (self : android_sink.t) (msg : android_sink.log_msg) (l : android_sink.Liblog) :
  let answer k :=
    android_sink.results l
      (length (List.filter android_sink.is_log_call (android_sink.calls l)) + k) in
  let run := android_sink.sink_it_ BufferID format self msg l in
  let writes :=
    length (List.filter android_sink.is_log_call
              (drop (length (android_sink.calls l)) (android_sink.calls (snd run)))) in
  let last := answer (writes - 1)%nat in
  android_sink.write_message_ self = false ->
  (1 <= writes <= 1 + android_sink.SPDLOG_ANDROID_RETRIES)%nat
  /\ fst run =
       (if (writes =? 1)%nat && (last =? - android_sink.EPERM) then returns tt
        else if last <? 0
             then throws (spdlog_ex "logging to Android failed" (Some last))
             else returns tt)
  /\ (answer O = -11 -> answer 1%nat = - android_sink.EPERM ->
      fst run = throws (spdlog_ex "logging to Android failed"
                          (Some (- android_sink.EPERM))))
  /\ (answer O = -11 -> answer 1%nat = -11 -> answer 2%nat = -11 ->
      fst run = throws (spdlog_ex "logging to Android failed" (Some (-11)))).
Proof.
  intros answer run writes last Hwm. subst last writes run.
  rewrite (android_sink_it_cases BufferID format self msg l Hwm).
  cbv zeta. change (android_sink.results l (_ + 0)) with (answer 0%nat).
  change (android_sink.results l (_ + 1)) with (answer 1%nat).
  change (android_sink.results l (_ + 2)) with (answer 2%nat).
  set (write := if BufferID =? android_sink.LOG_ID_MAIN then _ else _).
  assert (Hwrite : android_sink.is_log_call write = true).
  { subst write. now destruct (BufferID =? android_sink.LOG_ID_MAIN). }
  unfold android_sink.EPERM, android_sink.SPDLOG_ANDROID_RETRIES.
  change (- (1)) with (-1).
  destruct (Z.eqb_spec (answer O) (-1)) as [E|E].
  { cbn [snd fst android_sink.calls]. rewrite drop_app_length. cbn [List.filter].
    rewrite Hwrite. cbn [length Nat.sub Nat.eqb andb]. rewrite E.
    repeat split; try lia; intros; lia. }
  destruct (Z.eqb_spec (answer O) (-11)) as [E0|E0]; cbn [negb].
  2:{ cbn [snd fst android_sink.calls]. rewrite drop_app_length. cbn [List.filter].
      rewrite Hwrite. cbn [length Nat.sub Nat.eqb andb].
      destruct (Z.eqb_spec (answer O) (-1)); [contradiction|].
      repeat split; try lia; intros; lia. }
  destruct (Z.eqb_spec (answer 1%nat) (-11)) as [E1|E1]; cbn [negb].
  2:{ cbn [snd fst android_sink.calls]. rewrite drop_app_length.
      cbn [List.filter android_sink.is_log_call]. rewrite Hwrite.
      cbn [length Nat.sub Nat.eqb andb].
      repeat split; try lia; intros; try lia.
      match goal with H : answer 1%nat = -1 |- _ => rewrite H end. reflexivity. }
  cbn [snd fst android_sink.calls app]. rewrite drop_app_length.
  cbn [List.filter android_sink.is_log_call]. rewrite Hwrite.
  cbn [length Nat.sub Nat.eqb andb].
  repeat split; try lia; intros; try lia.
  match goal with H : answer 2%nat = -11 |- _ => rewrite H end. reflexivity.
Qed.

Lemma android_outcome_witness :
  fst (android_sink.sink_it_ android_sink.LOG_ID_MAIN scenario.android_format
         scenario.android scenario.android_msg scenario.refusing_liblog)
  = throws (spdlog_ex "logging to Android failed" (Some (- android_sink.EPERM))).
Proof.
  pose proof (android_outcome android_sink.LOG_ID_MAIN scenario.android_format
                scenario.android scenario.android_msg scenario.refusing_liblog eq_refl)
    as (_ & _ & H & _).
  apply H; reflexivity.
Defined.

(** X12. The six levels that a record can carry, from [trace] to
    [critical], are given six different Android priorities, none of them the
    default one; every other value of the level is given the default
    priority. *)
Theorem convert_to_android_levels :
  (forall a b, level.trace <= a <= level.critical -> level.trace <= b <= level.critical ->
               android_sink.convert_to_android_ a = android_sink.convert_to_android_ b ->
               a = b)
  /\ (forall a, android_sink.convert_to_android_ a = android_sink.ANDROID_LOG_DEFAULT <->
                a < level.trace \/ level.critical < a).
Proof.
  unfold android_sink.convert_to_android_, level.trace, level.debug, level.info,
    level.warn, level.err, level.critical.
  split.
  - intros a b Ha Hb.
    assert (Hcases : forall x, 0 <= x <= 5 ->
                       x = 0 \/ x = 1 \/ x = 2 \/ x = 3 \/ x = 4 \/ x = 5) by (intros; lia).
    destruct (Hcases a Ha) as [->|[->|[->|[->|[->| ->]]]]];
      destruct (Hcases b Hb) as [->|[->|[->|[->|[->| ->]]]]];
      simpl; intros; congruence.
  - intros a.
    destruct (Z.eqb_spec a 0); [split; [discriminate | lia]|].
    destruct (Z.eqb_spec a 1); [split; [discriminate | lia]|].
    destruct (Z.eqb_spec a 2); [split; [discriminate | lia]|].
    destruct (Z.eqb_spec a 3); [split; [discriminate | lia]|].
    destruct (Z.eqb_spec a 4); [split; [discriminate | lia]|].
    destruct (Z.eqb_spec a 5); [split; [discriminate | lia]|].
    split; [lia | reflexivity].
Qed.

(** ** mdc *)

Lemma mdc_get_run (no_tls : bool) (thread : nat) (key : string) (cs : mdc.Contexts) :
  mdc.get no_tls thread key cs =
  (returns (if no_tls then "" else default "" (cs thread !! key)), cs).
Proof.
  unfold mdc.get, mdc.get_context. destruct no_tls; [reflexivity|].
  cbn [bind ret gets fst snd]. now destruct (cs thread !! key).
Qed.

(** X13. With thread-local storage, a value put under a key is the value
    read under this key by the same thread, whatever was there before. The
    values under the other keys, and all values of the other threads, are
    read as before. *)
Theorem mdc_put_get (thread : nat) (key value : string) (cs : mdc.Contexts) :
  let cs' := snd (mdc.put false thread key value cs) in
  fst (mdc.get false thread key cs') = returns value
  /\ (forall key', key' <> key ->
        fst (mdc.get false thread key' cs') = fst (mdc.get false thread key' cs))
  /\ (forall thread' key', thread' <> thread ->
        fst (mdc.get false thread' key' cs') = fst (mdc.get false thread' key' cs)).
Proof.
  cbv zeta. unfold mdc.put, mdc.get_context. cbn [bind ret modify fst snd].
  rewrite !mdc_get_run. unfold mdc.store. cbn [fst]. cbv beta.
  rewrite Nat.eqb_refl. cbv iota. rewrite lookup_insert_eq. split; [reflexivity|]. split.
  - intros key' Hne. rewrite !mdc_get_run. cbn [fst]. cbv beta.
    rewrite Nat.eqb_refl. cbv iota. rewrite lookup_insert_ne by congruence. reflexivity.
  - intros thread' key' Hne. rewrite !mdc_get_run. cbn [fst]. cbv beta.
    destruct (Nat.eqb_spec thread' thread); [contradiction | reflexivity].
Qed.

(** X14. A key that the calling thread has removed, or any key after the
    thread has cleared its context, is read as the empty string, which is
    also what a key put with the empty string is read as. Without
    thread-local storage every key is read as the empty string, and a put
    changes nothing. *)
Theorem mdc_absent_reads_empty (thread : nat) (key : string) (cs : mdc.Contexts) :
  fst (mdc.get false thread key (snd (mdc.remove false thread key cs))) = returns ""
  /\ (forall key',
        fst (mdc.get false thread key' (snd (mdc.clear false thread cs))) = returns "")
  /\ fst (mdc.get false thread key (snd (mdc.put false thread key "" cs))) = returns ""
  /\ (forall value,
        mdc.put true thread key value cs = (returns tt, cs) /\
        fst (mdc.get true thread key cs) = returns "").
Proof.
  unfold mdc.remove, mdc.clear, mdc.put, mdc.get_context.
  cbn [bind ret modify fst snd]. rewrite !mdc_get_run. unfold mdc.store. cbn [fst].
  rewrite !Nat.eqb_refl. cbv iota. rewrite lookup_delete_eq, lookup_insert_eq.
  split; [reflexivity|]. split; [|split; [reflexivity|]].
  - intros key'. rewrite mdc_get_run. cbn [fst]. cbv beta.
    rewrite Nat.eqb_refl. cbv iota. now rewrite lookup_empty.
  - intros value. split; reflexivity.
Qed.

